(** * Inventory import pipeline: the Angular inventory component

    A shallow embedding of [InventoryComponent], in its version with
    duplicate handling: file validation, the staged preview with its
    single-row edit transaction, row deletion, the commit message sent over
    the WebSocket, and the name matching of [addItem].  The handlers in
    which the older version of the component differs are embedded next to
    it.  The commit loop and the duplicate classifier run on the server,
    whose code is not part of the front end; they are modelled from the
    specification and marked as such. *)

From Stdlib Require Import ZArith Ascii String List Bool Lia.
From stdpp Require Import base option list gmap strings fin_maps sorting.

Local Open Scope string_scope.
Local Open Scope list_scope.
Local Open Scope Z_scope.

(* ===================================================================== *)
(** * Part I: definitions                                                 *)
(* ===================================================================== *)

(** ** JavaScript string primitives

    Strings are byte strings, the UTF-8 form of the text.  [toLowerCase],
    [toUpperCase] and [trim] are given here as they act on ASCII text: the
    letters [A]..[Z] are lowered, [a]..[z] raised, and the white space
    removed by [trim] is TAB, LF, VT, FF, CR and SPACE.  The check of the
    file name uses them directly: it compares the lowered extension with
    [.xls] and [.xlsx].  The handlers whose result depends on how other
    characters are lowered or trimmed ([addItem], [applyFilter]) are
    embedded over the interface [Runtime.Builtins] below. *)
Module JSString.

Definition is_upper (c : ascii) : bool :=
  let n := nat_of_ascii c in (65 <=? n)%nat && (n <=? 90)%nat.

Definition is_lower (c : ascii) : bool :=
  let n := nat_of_ascii c in (97 <=? n)%nat && (n <=? 122)%nat.

Definition lower_char (c : ascii) : ascii :=
  if is_upper c then ascii_of_nat (nat_of_ascii c + 32) else c.

Definition upper_char (c : ascii) : ascii :=
  if is_lower c then ascii_of_nat (nat_of_ascii c - 32) else c.

Definition is_space (c : ascii) : bool :=
  let n := nat_of_ascii c in
  ((9 <=? n)%nat && (n <=? 13)%nat) || (n =? 32)%nat.

Definition chars (s : string) : list ascii := list_ascii_of_string s.
Definition of_chars (l : list ascii) : string := string_of_list_ascii l.

(** [s.toLowerCase()] and [s.toUpperCase()] *)
Definition toLowerCase (s : string) : string :=
  of_chars (map lower_char (chars s)).

Definition toUpperCase (s : string) : string :=
  of_chars (map upper_char (chars s)).

Fixpoint drop_spaces (l : list ascii) : list ascii :=
  match l with
  | c :: l' => if is_space c then drop_spaces l' else l
  | [] => []
  end.

Definition trim_chars (l : list ascii) : list ascii :=
  rev (drop_spaces (rev (drop_spaces l))).

(** [s.trim()] *)
Definition trim (s : string) : string := of_chars (trim_chars (chars s)).

(** [s.lastIndexOf(c)] for a one-character needle: the index of the last
    occurrence, [-1] when there is none. *)
Fixpoint lastIndexOf_from (c : ascii) (l : list ascii) (i : Z) (found : Z) : Z :=
  match l with
  | [] => found
  | x :: l' =>
      lastIndexOf_from c l' (i + 1) (if Ascii.eqb x c then i else found)
  end.

Definition lastIndexOf (c : ascii) (s : string) : Z :=
  lastIndexOf_from c (chars s) 0 (-1).

(** [s.substring(start)]: a negative start counts as [0], a start past the
    end gives the empty string. *)
Definition substring (start : Z) (s : string) : string :=
  of_chars (drop (Z.to_nat (Z.max 0 start)) (chars s)).

(** [arr.includes(x)] on an array of strings *)
Definition includes (arr : list string) (x : string) : bool :=
  existsb (fun y => bool_decide (y = x)) arr.

(** [n] blanks *)
Definition spaces (n : nat) : string := of_chars (repeat " "%char n).

End JSString.

(** ** The string built-ins of the runtime

    [String.prototype.toLowerCase], [toUpperCase] and [trim] are functions
    of the JavaScript runtime, defined by ECMAScript over all of Unicode
    (the case mappings, the white space of [trim]).  The component calls
    them; it is embedded over any implementation of the three.  What is
    required of an implementation is [Conforms]: on a string of ASCII
    characters the three give what [JSString] computes. *)
Module Runtime.

Class Builtins : Type := {
  toLowerCase : string -> string;
  toUpperCase : string -> string;
  trim : string -> string
}.

(** every character of the string is an ASCII character *)
Definition is_ascii (s : string) : bool :=
  forallb (fun c => (nat_of_ascii c <? 128)%nat) (JSString.chars s).

(** every character of the string is one of TAB, LF, VT, FF, CR and SPACE *)
Definition blank (s : string) : bool :=
  forallb JSString.is_space (JSString.chars s).

Record Conforms (R : Builtins) : Prop := {
  toLowerCase_ascii :
    forall s, is_ascii s = true -> toLowerCase s = JSString.toLowerCase s;
  toUpperCase_ascii :
    forall s, is_ascii s = true -> toUpperCase s = JSString.toUpperCase s;
  trim_ascii :
    forall s, is_ascii s = true -> trim s = JSString.trim s
}.

(** The three on ASCII text alone, for the examples, whose strings are
    ASCII. *)
Definition asciiText : Builtins :=
  {| toLowerCase := JSString.toLowerCase;
     toUpperCase := JSString.toUpperCase;
     trim := JSString.trim |}.

End Runtime.

(** ** JavaScript values and the object store

    A value is a primitive or a nested JSON value.  Numbers are the integers
    the component counts and compares ([temp_id], the row counters, file
    sizes).  The staged rows are objects in a store, addressed by reference:
    [editingRow] aliases a row of [previewData], and an edit writes through
    that alias.  The values nested inside a row ([existing_data], [errors])
    are carried as immutable trees: the component never writes into them. *)
#[warnings="-register-all"]
Inductive jsval : Type :=
| JUndefined
| JNull
| JBool (b : bool)
| JNum (n : Z)
| JStr (s : string)
| JArr (vs : list jsval)
| JObj (fields : list (string * jsval)).

Abbreviation loc := positive.
Abbreviation obj := (gmap string jsval).
Abbreviation heap := (gmap positive (gmap string jsval)).

Module JS.

(** [a === b] on primitives.  Two nested values are the same only when
    they are the same reference, which the tree model does not record; the
    component compares numbers and strings only. *)
Definition strict_eq (a b : jsval) : bool :=
  match a, b with
  | JUndefined, JUndefined => true
  | JNull, JNull => true
  | JBool x, JBool y => Bool.eqb x y
  | JNum x, JNum y => (x =? y)%Z
  | JStr x, JStr y => bool_decide (x = y)
  | _, _ => false
  end.

Definition is_primitive (v : jsval) : bool :=
  match v with
  | JArr _ | JObj _ => false
  | _ => true
  end.

(** [o.k]: a missing property reads as [undefined] *)
Definition get (o : obj) (k : string) : jsval := default JUndefined (o !! k).

(** the object a reference points to *)
Definition deref (h : heap) (l : loc) : obj := default ∅ (h !! l).

(** [{ ...o }] into a new object *)
Definition alloc (o : obj) (h : heap) : heap * loc :=
  let l := fresh (dom h) in (<[l := o]> h, l).

Fixpoint alloc_list (os : list obj) (h : heap) : heap * list loc :=
  match os with
  | [] => (h, [])
  | o :: os' =>
      let '(h1, l) := alloc o h in
      let '(h2, ls) := alloc_list os' h1 in
      (h2, l :: ls)
  end.

(** [l.k = v] *)
Definition write (l : loc) (k : string) (v : jsval) (h : heap) : heap :=
  alter (fun o => <[k := v]> o) l h.

(** [Object.assign(target, source)]: every own property of the source is
    written to the target; the target keeps its other properties. *)
Definition object_assign (target source : loc) (h : heap) : heap :=
  alter (fun o => deref h source ∪ o) target h.

(** [arr.findIndex(p)] *)
Fixpoint findIndex_from {A} (p : A -> bool) (l : list A) (i : Z) : Z :=
  match l with
  | [] => -1
  | x :: l' => if p x then i else findIndex_from p l' (i + 1)
  end.

Definition findIndex {A} (p : A -> bool) (l : list A) : Z :=
  findIndex_from p l 0.

(** [arr.splice(index, 1)] for an index in range *)
Definition splice1 {A} (index : Z) (l : list A) : list A :=
  delete (Z.to_nat index) l.

(** [JSON.parse(JSON.stringify(v))]: [undefined] becomes [null] inside an
    array and drops the property inside an object. *)
Fixpoint json_copy (v : jsval) : jsval :=
  match v with
  | JUndefined => JNull
  | JArr vs => JArr (map json_copy vs)
  | JObj fs =>
      JObj ((fix copy_fields (fs : list (string * jsval)) :=
               match fs with
               | [] => []
               | (k, JUndefined) :: fs' => copy_fields fs'
               | (k, x) :: fs' => (k, json_copy x) :: copy_fields fs'
               end) fs)
  | _ => v
  end.

Definition is_undefined (v : jsval) : bool :=
  match v with JUndefined => true | _ => false end.

Definition json_copy_obj (o : obj) : obj :=
  json_copy <$> filter (fun kv => is_undefined kv.2 = false) o.

End JS.

(** ** The component state

    The fields of [InventoryComponent] that the import pipeline reads or
    writes.  [store] holds the row objects; [wsOpen] stands for
    [this.ws && this.ws.readyState === WebSocket.OPEN]. *)
Record File : Type := { file_name : string; file_size : Z }.

Record SheetInfo : Type := {
  sheet_name : string;
  sheet_rows : Z;
  sheet_columns : list string;
  is_valid : bool;
  sheet_errors : list string
}.

Record UploadStats : Type := {
  created : Z;
  updated : Z;
  skipped : Z;
  errors_count : Z
}.

(** The text shown in [generalError].  The rendering of the file size in
    megabytes ([toFixed(2)]) is left out; the constructor keeps the size. *)
Inductive Notice : Type :=
| NoNotice                      (* '' *)
| NotAnExcelFile                (* 'Por favor selecciona un archivo Excel valido (.xls o .xlsx)' *)
| FileTooLarge (size : Z)       (* 'El archivo es demasiado grande (.. MB). El limite es 10 MB.' *)
| NoConnection                  (* 'No hay conexion con el servidor. Reintentando...' *)
| OtherNotice (text : string).

(** A value of the object literal handed to [JSON.stringify]: a string, or
    the staged rows as they are when the message is built. *)
Inductive Payload : Type :=
| PStr (s : string)
| PRows (rows : list obj).

Abbreviation Message := (list (string * Payload)).

(** What a handler asks of its environment. *)
Inductive Effect : Type :=
| ClearFileInput                                 (* event.target.value = '' *)
| ClearNoticeLater                               (* setTimeout(.. generalError = '' .., 5000) *)
| AnalyzeExcel (f : File)                        (* api.analyzeExcel(formData) *)
| ValidateDuplicates (f : File) (sheet : string) (* api.validateDuplicates(formData, sheet) *)
| ConnectWebSocket                               (* this.connectWebSocket() *)
| RetryConfirmUpload                             (* setTimeout(() => this.confirmUpload(), 1000) *)
| WsSend (m : Message).                          (* this.ws.send(JSON.stringify(m)) *)

(** The body of a successful [validateDuplicates] response. *)
Record PreviewResponse : Type := {
  success : bool;
  preview_rows : list obj;
  total_rows : Z;
  resp_columns : list string;
  has_duplicates : bool;
  duplicates_found : Z;
  new_products : Z
}.

Module Inventory.

Record State : Type := {
  store : heap;
  wsOpen : bool;
  selectedFile : option File;
  fileName : string;
  fileSize : Z;
  sheets : list SheetInfo;
  selectedSheet : string;
  showSheetSelector : bool;
  showPreview : bool;
  previewData : list loc;
  originalPreviewData : list loc;
  totalRows : Z;
  columns : list string;
  hasDuplicates : bool;
  duplicatesCount : Z;
  newProductsCount : Z;
  showDuplicatesModal : bool;
  selectedDuplicateAction : string;
  editingRow : option loc;
  editingRowCopy : option loc;
  isUploading : bool;
  uploadProgress : Z;
  uploadMessage : string;
  uploadStats : UploadStats;
  errors : list string;
  generalError : Notice
}.

(** Field update, [s <| f := v |>] for the assignment [this.f = v]. *)
Class Setter {T : Type} (proj : State -> T) : Type :=
  set : (T -> T) -> State -> State.
Arguments set {T} proj {Setter} _ _.

#[export] Instance set_store : Setter store :=
  fun f '(Build_State a0 a1 a2 a3 a4 a5 a6 a7 a8 a9 a10 a11 a12 a13 a14 a15
    a16 a17 a18 a19 a20 a21 a22 a23 a24 a25) => Build_State (f a0) a1 a2 a3
    a4 a5 a6 a7 a8 a9 a10 a11 a12 a13 a14 a15 a16 a17 a18 a19 a20 a21 a22
    a23 a24 a25.

#[export] Instance set_wsOpen : Setter wsOpen :=
  fun f '(Build_State a0 a1 a2 a3 a4 a5 a6 a7 a8 a9 a10 a11 a12 a13 a14 a15
    a16 a17 a18 a19 a20 a21 a22 a23 a24 a25) => Build_State a0 (f a1) a2 a3
    a4 a5 a6 a7 a8 a9 a10 a11 a12 a13 a14 a15 a16 a17 a18 a19 a20 a21 a22
    a23 a24 a25.

#[export] Instance set_selectedFile : Setter selectedFile :=
  fun f '(Build_State a0 a1 a2 a3 a4 a5 a6 a7 a8 a9 a10 a11 a12 a13 a14 a15
    a16 a17 a18 a19 a20 a21 a22 a23 a24 a25) => Build_State a0 a1 (f a2) a3
    a4 a5 a6 a7 a8 a9 a10 a11 a12 a13 a14 a15 a16 a17 a18 a19 a20 a21 a22
    a23 a24 a25.

#[export] Instance set_fileName : Setter fileName :=
  fun f '(Build_State a0 a1 a2 a3 a4 a5 a6 a7 a8 a9 a10 a11 a12 a13 a14 a15
    a16 a17 a18 a19 a20 a21 a22 a23 a24 a25) => Build_State a0 a1 a2 (f a3)
    a4 a5 a6 a7 a8 a9 a10 a11 a12 a13 a14 a15 a16 a17 a18 a19 a20 a21 a22
    a23 a24 a25.

#[export] Instance set_fileSize : Setter fileSize :=
  fun f '(Build_State a0 a1 a2 a3 a4 a5 a6 a7 a8 a9 a10 a11 a12 a13 a14 a15
    a16 a17 a18 a19 a20 a21 a22 a23 a24 a25) => Build_State a0 a1 a2 a3 (f
    a4) a5 a6 a7 a8 a9 a10 a11 a12 a13 a14 a15 a16 a17 a18 a19 a20 a21 a22
    a23 a24 a25.

#[export] Instance set_sheets : Setter sheets :=
  fun f '(Build_State a0 a1 a2 a3 a4 a5 a6 a7 a8 a9 a10 a11 a12 a13 a14 a15
    a16 a17 a18 a19 a20 a21 a22 a23 a24 a25) => Build_State a0 a1 a2 a3 a4
    (f a5) a6 a7 a8 a9 a10 a11 a12 a13 a14 a15 a16 a17 a18 a19 a20 a21 a22
    a23 a24 a25.

#[export] Instance set_selectedSheet : Setter selectedSheet :=
  fun f '(Build_State a0 a1 a2 a3 a4 a5 a6 a7 a8 a9 a10 a11 a12 a13 a14 a15
    a16 a17 a18 a19 a20 a21 a22 a23 a24 a25) => Build_State a0 a1 a2 a3 a4
    a5 (f a6) a7 a8 a9 a10 a11 a12 a13 a14 a15 a16 a17 a18 a19 a20 a21 a22
    a23 a24 a25.

#[export] Instance set_showSheetSelector : Setter showSheetSelector :=
  fun f '(Build_State a0 a1 a2 a3 a4 a5 a6 a7 a8 a9 a10 a11 a12 a13 a14 a15
    a16 a17 a18 a19 a20 a21 a22 a23 a24 a25) => Build_State a0 a1 a2 a3 a4
    a5 a6 (f a7) a8 a9 a10 a11 a12 a13 a14 a15 a16 a17 a18 a19 a20 a21 a22
    a23 a24 a25.

#[export] Instance set_showPreview : Setter showPreview :=
  fun f '(Build_State a0 a1 a2 a3 a4 a5 a6 a7 a8 a9 a10 a11 a12 a13 a14 a15
    a16 a17 a18 a19 a20 a21 a22 a23 a24 a25) => Build_State a0 a1 a2 a3 a4
    a5 a6 a7 (f a8) a9 a10 a11 a12 a13 a14 a15 a16 a17 a18 a19 a20 a21 a22
    a23 a24 a25.

#[export] Instance set_previewData : Setter previewData :=
  fun f '(Build_State a0 a1 a2 a3 a4 a5 a6 a7 a8 a9 a10 a11 a12 a13 a14 a15
    a16 a17 a18 a19 a20 a21 a22 a23 a24 a25) => Build_State a0 a1 a2 a3 a4
    a5 a6 a7 a8 (f a9) a10 a11 a12 a13 a14 a15 a16 a17 a18 a19 a20 a21 a22
    a23 a24 a25.

#[export] Instance set_originalPreviewData : Setter originalPreviewData :=
  fun f '(Build_State a0 a1 a2 a3 a4 a5 a6 a7 a8 a9 a10 a11 a12 a13 a14 a15
    a16 a17 a18 a19 a20 a21 a22 a23 a24 a25) => Build_State a0 a1 a2 a3 a4
    a5 a6 a7 a8 a9 (f a10) a11 a12 a13 a14 a15 a16 a17 a18 a19 a20 a21 a22
    a23 a24 a25.

#[export] Instance set_totalRows : Setter totalRows :=
  fun f '(Build_State a0 a1 a2 a3 a4 a5 a6 a7 a8 a9 a10 a11 a12 a13 a14 a15
    a16 a17 a18 a19 a20 a21 a22 a23 a24 a25) => Build_State a0 a1 a2 a3 a4
    a5 a6 a7 a8 a9 a10 (f a11) a12 a13 a14 a15 a16 a17 a18 a19 a20 a21 a22
    a23 a24 a25.

#[export] Instance set_columns : Setter columns :=
  fun f '(Build_State a0 a1 a2 a3 a4 a5 a6 a7 a8 a9 a10 a11 a12 a13 a14 a15
    a16 a17 a18 a19 a20 a21 a22 a23 a24 a25) => Build_State a0 a1 a2 a3 a4
    a5 a6 a7 a8 a9 a10 a11 (f a12) a13 a14 a15 a16 a17 a18 a19 a20 a21 a22
    a23 a24 a25.

#[export] Instance set_hasDuplicates : Setter hasDuplicates :=
  fun f '(Build_State a0 a1 a2 a3 a4 a5 a6 a7 a8 a9 a10 a11 a12 a13 a14 a15
    a16 a17 a18 a19 a20 a21 a22 a23 a24 a25) => Build_State a0 a1 a2 a3 a4
    a5 a6 a7 a8 a9 a10 a11 a12 (f a13) a14 a15 a16 a17 a18 a19 a20 a21 a22
    a23 a24 a25.

#[export] Instance set_duplicatesCount : Setter duplicatesCount :=
  fun f '(Build_State a0 a1 a2 a3 a4 a5 a6 a7 a8 a9 a10 a11 a12 a13 a14 a15
    a16 a17 a18 a19 a20 a21 a22 a23 a24 a25) => Build_State a0 a1 a2 a3 a4
    a5 a6 a7 a8 a9 a10 a11 a12 a13 (f a14) a15 a16 a17 a18 a19 a20 a21 a22
    a23 a24 a25.

#[export] Instance set_newProductsCount : Setter newProductsCount :=
  fun f '(Build_State a0 a1 a2 a3 a4 a5 a6 a7 a8 a9 a10 a11 a12 a13 a14 a15
    a16 a17 a18 a19 a20 a21 a22 a23 a24 a25) => Build_State a0 a1 a2 a3 a4
    a5 a6 a7 a8 a9 a10 a11 a12 a13 a14 (f a15) a16 a17 a18 a19 a20 a21 a22
    a23 a24 a25.

#[export] Instance set_showDuplicatesModal : Setter showDuplicatesModal :=
  fun f '(Build_State a0 a1 a2 a3 a4 a5 a6 a7 a8 a9 a10 a11 a12 a13 a14 a15
    a16 a17 a18 a19 a20 a21 a22 a23 a24 a25) => Build_State a0 a1 a2 a3 a4
    a5 a6 a7 a8 a9 a10 a11 a12 a13 a14 a15 (f a16) a17 a18 a19 a20 a21 a22
    a23 a24 a25.

#[export] Instance set_selectedDuplicateAction : Setter selectedDuplicateAction :=
  fun f '(Build_State a0 a1 a2 a3 a4 a5 a6 a7 a8 a9 a10 a11 a12 a13 a14 a15
    a16 a17 a18 a19 a20 a21 a22 a23 a24 a25) => Build_State a0 a1 a2 a3 a4
    a5 a6 a7 a8 a9 a10 a11 a12 a13 a14 a15 a16 (f a17) a18 a19 a20 a21 a22
    a23 a24 a25.

#[export] Instance set_editingRow : Setter editingRow :=
  fun f '(Build_State a0 a1 a2 a3 a4 a5 a6 a7 a8 a9 a10 a11 a12 a13 a14 a15
    a16 a17 a18 a19 a20 a21 a22 a23 a24 a25) => Build_State a0 a1 a2 a3 a4
    a5 a6 a7 a8 a9 a10 a11 a12 a13 a14 a15 a16 a17 (f a18) a19 a20 a21 a22
    a23 a24 a25.

#[export] Instance set_editingRowCopy : Setter editingRowCopy :=
  fun f '(Build_State a0 a1 a2 a3 a4 a5 a6 a7 a8 a9 a10 a11 a12 a13 a14 a15
    a16 a17 a18 a19 a20 a21 a22 a23 a24 a25) => Build_State a0 a1 a2 a3 a4
    a5 a6 a7 a8 a9 a10 a11 a12 a13 a14 a15 a16 a17 a18 (f a19) a20 a21 a22
    a23 a24 a25.

#[export] Instance set_isUploading : Setter isUploading :=
  fun f '(Build_State a0 a1 a2 a3 a4 a5 a6 a7 a8 a9 a10 a11 a12 a13 a14 a15
    a16 a17 a18 a19 a20 a21 a22 a23 a24 a25) => Build_State a0 a1 a2 a3 a4
    a5 a6 a7 a8 a9 a10 a11 a12 a13 a14 a15 a16 a17 a18 a19 (f a20) a21 a22
    a23 a24 a25.

#[export] Instance set_uploadProgress : Setter uploadProgress :=
  fun f '(Build_State a0 a1 a2 a3 a4 a5 a6 a7 a8 a9 a10 a11 a12 a13 a14 a15
    a16 a17 a18 a19 a20 a21 a22 a23 a24 a25) => Build_State a0 a1 a2 a3 a4
    a5 a6 a7 a8 a9 a10 a11 a12 a13 a14 a15 a16 a17 a18 a19 a20 (f a21) a22
    a23 a24 a25.

#[export] Instance set_uploadMessage : Setter uploadMessage :=
  fun f '(Build_State a0 a1 a2 a3 a4 a5 a6 a7 a8 a9 a10 a11 a12 a13 a14 a15
    a16 a17 a18 a19 a20 a21 a22 a23 a24 a25) => Build_State a0 a1 a2 a3 a4
    a5 a6 a7 a8 a9 a10 a11 a12 a13 a14 a15 a16 a17 a18 a19 a20 a21 (f a22)
    a23 a24 a25.

#[export] Instance set_uploadStats : Setter uploadStats :=
  fun f '(Build_State a0 a1 a2 a3 a4 a5 a6 a7 a8 a9 a10 a11 a12 a13 a14 a15
    a16 a17 a18 a19 a20 a21 a22 a23 a24 a25) => Build_State a0 a1 a2 a3 a4
    a5 a6 a7 a8 a9 a10 a11 a12 a13 a14 a15 a16 a17 a18 a19 a20 a21 a22 (f
    a23) a24 a25.

#[export] Instance set_errors : Setter errors :=
  fun f '(Build_State a0 a1 a2 a3 a4 a5 a6 a7 a8 a9 a10 a11 a12 a13 a14 a15
    a16 a17 a18 a19 a20 a21 a22 a23 a24 a25) => Build_State a0 a1 a2 a3 a4
    a5 a6 a7 a8 a9 a10 a11 a12 a13 a14 a15 a16 a17 a18 a19 a20 a21 a22 a23
    (f a24) a25.

#[export] Instance set_generalError : Setter generalError :=
  fun f '(Build_State a0 a1 a2 a3 a4 a5 a6 a7 a8 a9 a10 a11 a12 a13 a14 a15
    a16 a17 a18 a19 a20 a21 a22 a23 a24 a25) => Build_State a0 a1 a2 a3 a4
    a5 a6 a7 a8 a9 a10 a11 a12 a13 a14 a15 a16 a17 a18 a19 a20 a21 a22 a23
    a24 (f a25).

#[warnings="-postfix-notation-not-level-1"]
Notation "s <| f := v |>" := (set f (fun _ => v) s)
  (at level 12, f at level 9, left associativity, format "s  <| f  :=  v |>").

Definition zeroStats : UploadStats :=
  {| created := 0; updated := 0; skipped := 0; errors_count := 0 |}.

(** The field initialisers of the class. *)
Definition initial : State :=
  {| store := ∅; wsOpen := false; selectedFile := None; fileName := "";
     fileSize := 0; sheets := []; selectedSheet := "";
     showSheetSelector := false; showPreview := false; previewData := [];
     originalPreviewData := []; totalRows := 0; columns := [];
     hasDuplicates := false; duplicatesCount := 0; newProductsCount := 0;
     showDuplicatesModal := false; selectedDuplicateAction := "skip";
     editingRow := None; editingRowCopy := None; isUploading := false;
     uploadProgress := 0; uploadMessage := ""; uploadStats := zeroStats;
     errors := []; generalError := NoNotice |}.

Definition showError (message : Notice) (s : State) : State * list Effect :=
  (s <| generalError := message |>, [ClearNoticeLater]).

Definition validExtensions : list string := [".xls"; ".xlsx"].

Definition fileExtension (name : string) : string :=
  JSString.toLowerCase
    (JSString.substring (JSString.lastIndexOf "."%char name) name).

Definition maxSize : Z := 10 * 1024 * 1024.

(** [analyzeFile()]: the request; the response arrives in a later turn. *)
Definition analyzeFile (s : State) : list Effect :=
  match s.(selectedFile) with
  | None => []
  | Some f => [AnalyzeExcel f]
  end.

(** [onFileSelected(event)], with [file] standing for
    [event.target.files[0]]. *)
Definition onFileSelected (file : option File) (s : State) : State * list Effect :=
  match file with
  | None => (s, [])
  | Some f =>
      if negb (JSString.includes validExtensions (fileExtension f.(file_name))) then
        let '(s1, e1) := showError NotAnExcelFile s in
        (s1, e1 ++ [ClearFileInput])
      else if f.(file_size) >? maxSize then
        let '(s1, e1) := showError (FileTooLarge f.(file_size)) s in
        (s1, e1 ++ [ClearFileInput])
      else
        let s1 := s <| selectedFile := Some f |>
                    <| fileName := f.(file_name) |>
                    <| fileSize := f.(file_size) |>
                    <| errors := [] |>
                    <| generalError := NoNotice |> in
        (s1, analyzeFile s1)
  end.

(** [loadPreviewWithDuplicates()]: the request. *)
Definition loadPreviewWithDuplicates (s : State) : list Effect :=
  match s.(selectedFile) with
  | None => []
  | Some f =>
      if bool_decide (s.(selectedSheet) = "") then []
      else [ValidateDuplicates f s.(selectedSheet)]
  end.

Definition hiddenColumns : list string :=
  ["temp_id"; "status"; "status_label"; "existing_id"; "existing_data"; "errors"].

(** The [next] callback of [loadPreviewWithDuplicates]: the rows of the
    response become [previewData]; a JSON copy of them, made of new objects,
    becomes [originalPreviewData]. *)
Definition onPreviewResponse (r : PreviewResponse) (s : State) : State :=
  if r.(success) then
    let '(h1, rows) := JS.alloc_list r.(preview_rows) s.(store) in
    let '(h2, copies) := JS.alloc_list (map JS.json_copy_obj r.(preview_rows)) h1 in
    let s1 := s <| store := h2 |>
                <| previewData := rows |>
                <| originalPreviewData := copies |>
                <| totalRows := r.(total_rows) |>
                <| columns := filter (fun col => negb (JSString.includes hiddenColumns col))
                                     r.(resp_columns) |>
                <| hasDuplicates := r.(has_duplicates) |>
                <| duplicatesCount := r.(duplicates_found) |>
                <| newProductsCount := r.(new_products) |>
                <| showPreview := true |>
                <| showSheetSelector := false |> in
    if s1.(hasDuplicates) then s1 <| showDuplicatesModal := true |> else s1
  else s.

Definition selectDuplicateAction (action : string) (s : State) : State :=
  s <| selectedDuplicateAction := action |>.

Definition closeDuplicatesModal (s : State) : State :=
  s <| showDuplicatesModal := false |>.

Definition proceedWithDuplicates (s : State) : State :=
  s <| showDuplicatesModal := false |>.

(** [startEdit(row)]: [editingRow] is the row itself, [editingRowCopy] a new
    object with the row's properties. *)
Definition startEdit (row : loc) (s : State) : State :=
  let '(h1, copy) := JS.alloc (JS.deref s.(store) row) s.(store) in
  s <| store := h1 |> <| editingRow := Some row |> <| editingRowCopy := Some copy |>.

Definition cancelEdit (s : State) : State :=
  let s1 :=
    match s.(editingRow), s.(editingRowCopy) with
    | Some row, Some copy => s <| store := JS.object_assign row copy s.(store) |>
    | _, _ => s
    end in
  s1 <| editingRow := None |> <| editingRowCopy := None |>.

Definition saveEdit (s : State) : State :=
  s <| editingRow := None |> <| editingRowCopy := None |>.

(** A write [row.k = v] to a property of a row object, as the input
    bindings of the preview table make while the row is under edit. *)
Definition writeField (row : loc) (k : string) (v : jsval) (s : State) : State :=
  s <| store := JS.write row k v s.(store) |>.

(** A run of such writes to one row. *)
Definition writes (row : loc) (ws : list (string * jsval)) (s : State) : State :=
  foldl (fun s kv => writeField row kv.1 kv.2 s) s ws.

(** The same writes, on the object. *)
Definition assign_all (ws : list (string * jsval)) (o : obj) : obj :=
  foldl (fun o kv => <[kv.1 := kv.2]> o) o ws.

(** [o.status === st] *)
Definition status_is (st : string) (o : obj) : bool :=
  JS.strict_eq (JS.get o "status") (JStr st).

(** [r.temp_id === row.temp_id] *)
Definition same_temp_id (h : heap) (row r : loc) : bool :=
  JS.strict_eq (JS.get (JS.deref h r) "temp_id")
               (JS.get (JS.deref h row) "temp_id").

Definition deleteRow (row : loc) (s : State) : State :=
  let index := JS.findIndex (same_temp_id s.(store) row) s.(previewData) in
  if index >? -1 then
    let s1 := s <| previewData := JS.splice1 index s.(previewData) |>
                <| totalRows := s.(totalRows) - 1 |> in
    if status_is "duplicate" (JS.deref s1.(store) row) then
      let s2 := s1 <| duplicatesCount := s1.(duplicatesCount) - 1 |> in
      if s2.(duplicatesCount) =? 0 then s2 <| hasDuplicates := false |> else s2
    else if status_is "new" (JS.deref s1.(store) row) then
      s1 <| newProductsCount := s1.(newProductsCount) - 1 |>
    else s1
  else s.

(** [l.temp_id] *)
Definition temp_id_of (h : heap) (l : loc) : jsval :=
  JS.get (JS.deref h l) "temp_id".

(** The data model's invariant on a session: no two staged rows share a
    [temp_id]. *)
Definition unique_temp_ids (s : State) : Prop :=
  NoDup (temp_id_of s.(store) <$> s.(previewData)).

(** The object literal of [confirmUpload], before [JSON.stringify]. *)
Definition uploadCommand (s : State) : Message :=
  [("action", PStr "start_upload");
   ("rows", PRows (map (JS.deref s.(store)) s.(previewData)));
   ("duplicate_action", PStr s.(selectedDuplicateAction))].

Definition confirmUpload (s : State) : State * list Effect :=
  if negb s.(wsOpen) then
    let '(s1, e1) := showError NoConnection s in
    (s1, e1 ++ [ConnectWebSocket; RetryConfirmUpload])
  else
    let s1 := s <| isUploading := true |>
                <| uploadProgress := 0 |>
                <| uploadMessage := "Iniciando carga..." |>
                <| errors := [] |>
                <| uploadStats := zeroStats |> in
    (s1, [WsSend (uploadCommand s1)]).

Definition resetUploadState (s : State) : State :=
  s <| selectedFile := None |>
    <| fileName := "" |>
    <| fileSize := 0 |>
    <| sheets := [] |>
    <| selectedSheet := "" |>
    <| showSheetSelector := false |>
    <| showPreview := false |>
    <| previewData := [] |>
    <| originalPreviewData := [] |>
    <| totalRows := 0 |>
    <| columns := [] |>
    <| uploadProgress := 0 |>
    <| uploadMessage := "" |>
    <| uploadStats := zeroStats |>
    <| errors := [] |>
    <| generalError := NoNotice |>
    <| isUploading := false |>
    <| hasDuplicates := false |>
    <| duplicatesCount := 0 |>
    <| newProductsCount := 0 |>
    <| showDuplicatesModal := false |>
    <| selectedDuplicateAction := "skip" |>.

Definition cancelPreview (s : State) : State :=
  let s1 := s <| showPreview := false |>
              <| previewData := [] |>
              <| selectedSheet := "" |>
              <| hasDuplicates := false |>
              <| duplicatesCount := 0 |>
              <| newProductsCount := 0 |> in
  if (1 <? length s1.(sheets))%nat then s1 <| showSheetSelector := true |>
  else resetUploadState s1.

(** The session part of the state: the selected file, its sheets and the
    preview. *)
Definition same_session (s s' : State) : Prop :=
  s'.(store) = s.(store) /\
  s'.(selectedFile) = s.(selectedFile) /\
  s'.(fileName) = s.(fileName) /\
  s'.(fileSize) = s.(fileSize) /\
  s'.(sheets) = s.(sheets) /\
  s'.(selectedSheet) = s.(selectedSheet) /\
  s'.(showPreview) = s.(showPreview) /\
  s'.(previewData) = s.(previewData) /\
  s'.(originalPreviewData) = s.(originalPreviewData) /\
  s'.(totalRows) = s.(totalRows) /\
  s'.(columns) = s.(columns).

(** The operations on the preview that the operator can interleave between
    the preview and the commit; a row is named by its position in
    [previewData], as the table rows are. *)
Inductive PreviewOp : Type :=
| OpStartEdit (i : nat)
| OpWrite (k : string) (v : jsval)
| OpCancelEdit
| OpSaveEdit
| OpDeleteRow (i : nat).

Definition applyOp (op : PreviewOp) (s : State) : State :=
  match op with
  | OpStartEdit i =>
      match s.(previewData) !! i with
      | Some row => startEdit row s
      | None => s
      end
  | OpWrite k v =>
      match s.(editingRow) with
      | Some row => writeField row k v s
      | None => s
      end
  | OpCancelEdit => cancelEdit s
  | OpSaveEdit => saveEdit s
  | OpDeleteRow i =>
      match s.(previewData) !! i with
      | Some row => deleteRow row s
      | None => s
      end
  end.

Definition applyOps (ops : list PreviewOp) (s : State) : State :=
  foldl (fun s op => applyOp op s) s ops.

(** The snapshot [snap], with the contents it has in the store [h0], is
    still what [originalPreviewData] holds in [s], and neither a staged row
    nor the row under edit is one of its objects. *)
Definition snapshot_intact (snap : list loc) (h0 : heap) (s : State) : Prop :=
  s.(originalPreviewData) = snap /\
  (forall l, In l snap -> s.(store) !! l = h0 !! l /\ is_Some (h0 !! l)) /\
  (forall l, In l s.(previewData) -> ~ In l snap) /\
  (forall l, s.(editingRow) = Some l -> ~ In l snap).

(** A session for the examples: the preview of the sheet Bolt, Nut, Screw
    against a catalog that lists Bolt. *)
Definition rowObject (tid : Z) (n : string) (p q : jsval) (st : string)
           (existing : jsval) : obj :=
  list_to_map [("temp_id", JNum tid); ("name", JStr n); ("description", JStr "");
               ("price", p); ("quantity", q); ("status", JStr st);
               ("existing_id", existing)].

Definition demoResponse : PreviewResponse :=
  {| success := true;
     preview_rows := [rowObject 1 "Bolt" (JNum 6) (JNum 10) "duplicate" (JNum 40);
                      rowObject 2 "Nut" (JNum 2) (JNum 5) "new" JNull;
                      rowObject 3 "Screw" (JStr "abc") (JNum 3) "error" JNull];
     total_rows := 3;
     resp_columns := ["temp_id"; "name"; "description"; "price"; "quantity"; "status"];
     has_duplicates := true;
     duplicates_found := 1;
     new_products := 1 |}.

Definition demoState : State :=
  onPreviewResponse demoResponse (initial <| wsOpen := true |>).

End Inventory.

(** ** The component without duplicate handling

    [frontend/src/app/inventory/inventory.component.ts] is the same
    component before duplicates were handled: it has no duplicate counters
    and no duplicate action.  File validation and the edit transaction are
    the same text; [deleteRow] and [confirmUpload] are shorter. *)
Module InventoryBasic.
Import Inventory.

Definition deleteRow (row : loc) (s : State) : State :=
  let index := JS.findIndex (same_temp_id s.(store) row) s.(previewData) in
  if index >? -1 then
    s <| previewData := JS.splice1 index s.(previewData) |>
      <| totalRows := s.(totalRows) - 1 |>
  else s.

Definition uploadCommand (s : State) : Message :=
  [("action", PStr "start_upload");
   ("rows", PRows (map (JS.deref s.(store)) s.(previewData)))].

Definition confirmUpload (s : State) : State * list Effect :=
  if negb s.(wsOpen) then
    let '(s1, e1) := showError NoConnection s in
    (s1, e1 ++ [ConnectWebSocket; RetryConfirmUpload])
  else
    let s1 := s <| isUploading := true |>
                <| uploadProgress := 0 |>
                <| uploadMessage := "Iniciando carga..." |>
                <| errors := [] |>
                <| uploadStats := zeroStats |> in
    (s1, [WsSend (uploadCommand s1)]).

End InventoryBasic.

(** ** The catalog list and [addItem]

    [items] is the product list loaded from the backend; [addItem] refuses a
    new product whose name matches a listed one. *)
Record CatalogEntry : Type := {
  entry_id : Z;
  entry_name : string;
  entry_description : string;
  entry_price : jsval;
  entry_quantity : jsval
}.

Record NewItem : Type := {
  new_name : string;
  new_description : string;
  new_price : jsval;
  new_quantity : jsval
}.

Module Catalog.

Inductive AddOutcome : Type :=
| Ignored                                   (* the early [return] *)
| DuplicateWarning (existing : CatalogEntry) (* duplicateWarning is set, nothing is posted *)
| Posted (item : NewItem).                  (* api.addItem(newItem) *)

(** [name.toLowerCase().trim()] *)
Definition nameKey {R : Runtime.Builtins} (name : string) : string :=
  Runtime.trim (Runtime.toLowerCase name).

(** [items.find(item => item.name.toLowerCase().trim() === nameToCheck)] *)
Definition findExisting {R : Runtime.Builtins}
  (items : list CatalogEntry) (name : string) : option CatalogEntry :=
  let nameToCheck := nameKey name in
  List.find (fun item => bool_decide (nameKey item.(entry_name) = nameToCheck)) items.

Definition addItem {R : Runtime.Builtins}
  (items : list CatalogEntry) (newItem : NewItem) : AddOutcome :=
  if bool_decide (newItem.(new_name) = "") || bool_decide (newItem.(new_description) = "")
  then Ignored
  else match findExisting items newItem.(new_name) with
       | Some existingProduct => DuplicateWarning existingProduct
       | None => Posted newItem
       end.


End Catalog.

(** ** The server side, from the specification

    The duplicate resolver and the import orchestrator are not part of the
    front end.  They are written here after sections 3, 4.2 and 4.4 of the
    specification. *)
Module Spec.

(** Modelled from the spec: the classification status of a staged row
    (section 3). *)
Inductive Status : Type := StNew | StDuplicate | StError.

#[export] Instance Status_eq_dec : EqDecision Status.
Proof. solve_decision. Defined.

(** Modelled from the spec: the conflict policy of a commit (section 3). *)
Inductive DuplicateAction : Type := Skip | Update | CreateNew.

(** Modelled from the spec: the staged row as the server holds it
    (section 3). *)
Record StagedRow : Type := {
  temp_id : Z;
  name : string;
  description : string;
  price : jsval;
  quantity : jsval;
  status : Status;
  existing_id : option Z;
  existing_data : option CatalogEntry;
  row_errors : list string
}.

(** Modelled from the spec: the name normalisation of the duplicate
    resolver, missing from the sources: trim the white space, then lower
    the case. *)
Definition normalize (name : string) : string :=
  JSString.toLowerCase (JSString.trim name).

(** The file name ends, letter case aside, with the extension [ext]. *)
Definition ends_with_ci (ext name : string) : Prop :=
  exists stem tail : string,
    name = (stem ++ tail)%string /\ JSString.toLowerCase tail = ext.

(** The extension of the file is [.xls] or [.xlsx], compared without regard
    to letter case. *)
Definition excel_name (name : string) : Prop :=
  ends_with_ci ".xls" name \/ ends_with_ci ".xlsx" name.

(** Modelled from the spec: the catalog lookup by normalised name,
    missing from the sources; the first match in catalog order wins. *)
Definition findByNormalizedName (catalog : list CatalogEntry) (n : string)
  : option CatalogEntry :=
  List.find (fun e => bool_decide (normalize e.(entry_name) = normalize n)) catalog.

(** Modelled from the spec: whether a cell is a non-negative number, for
    the classifier missing from the sources.  The decoder has coerced
    what it could; a cell that is still text does not parse. *)
Definition parses_nonneg (v : jsval) : bool :=
  match v with
  | JNum n => 0 <=? n
  | _ => false
  end.

(** Modelled from the spec: the classification of one row against the
    catalog snapshot, missing from the sources.  A bad price or quantity
    makes the row an error whatever its name; the name match is retained
    in either case. *)
Definition classify (catalog : list CatalogEntry) (n : string) (p q : jsval)
  : Status * option CatalogEntry :=
  let hit := findByNormalizedName catalog n in
  if negb (parses_nonneg p && parses_nonneg q) then (StError, hit)
  else match hit with
       | Some _ => (StDuplicate, hit)
       | None => (StNew, hit)
       end.

Record SheetRow : Type := {
  cell_name : string;
  cell_description : string;
  cell_price : jsval;
  cell_quantity : jsval
}.

Definition stage (catalog : list CatalogEntry) (tid : Z) (r : SheetRow) : StagedRow :=
  let '(st, hit) := classify catalog r.(cell_name) r.(cell_price) r.(cell_quantity) in
  {| temp_id := tid; name := r.(cell_name); description := r.(cell_description);
     price := r.(cell_price); quantity := r.(cell_quantity); status := st;
     existing_id := entry_id <$> hit; existing_data := hit;
     row_errors := match st with
                   | StError => ["invalid price or quantity"]
                   | _ => []
                   end |}.

Fixpoint stage_from (catalog : list CatalogEntry) (tid : Z) (rs : list SheetRow)
  : list StagedRow :=
  match rs with
  | [] => []
  | r :: rs' => stage catalog tid r :: stage_from catalog (tid + 1) rs'
  end.

Definition count_status (st : Status) (rows : list StagedRow) : Z :=
  Z.of_nat (length (filter (fun r => r.(status) = st) rows)).

Record PreviewSummary : Type := {
  sum_hasDuplicates : bool;
  sum_duplicatesFound : Z;
  sum_newProducts : Z
}.

(** Modelled from the spec: [buildPreview], missing from the sources: the
    rows in sheet order with [temp_id] 1..N, and the summary counted once. *)
Definition buildPreview (catalog : list CatalogEntry) (rs : list SheetRow)
  : list StagedRow * PreviewSummary :=
  let rows := stage_from catalog 1 rs in
  let d := count_status StDuplicate rows in
  (rows, {| sum_hasDuplicates := 0 <? d; sum_duplicatesFound := d;
            sum_newProducts := count_status StNew rows |}).

Definition statusName (st : Status) : string :=
  match st with
  | StNew => "new"
  | StDuplicate => "duplicate"
  | StError => "error"
  end.

(** The status the resolver would give a row object of the preview, from
    the row's current fields. *)
Definition classifyRow (catalog : list CatalogEntry) (o : obj) : string :=
  match JS.get o "name" with
  | JStr n => statusName (classify catalog n (JS.get o "price") (JS.get o "quantity")).1
  | _ => statusName StError
  end.

(** Modelled from the spec: the catalog collaborator (section 6), with the
    capabilities create, update and find.  A write that the store refuses (a
    persistence failure) returns [None]. *)
Class CatalogStore (C : Type) : Type := {
  create : StagedRow -> C -> option (Z * C);
  update : Z -> StagedRow -> C -> option C;
  find : Z -> C -> option CatalogEntry
}.

Inductive EventType : Type := EvProgress | EvComplete | EvError.

Record ProgressEvent : Type := {
  ev_type : EventType;
  ev_step : string;
  ev_progress : Z;
  ev_stats : UploadStats;
  ev_errors : list string
}.

Definition bump_created (st : UploadStats) : UploadStats :=
  {| created := st.(created) + 1; updated := st.(updated);
     skipped := st.(skipped); errors_count := st.(errors_count) |}.

Definition bump_updated (st : UploadStats) : UploadStats :=
  {| created := st.(created); updated := st.(updated) + 1;
     skipped := st.(skipped); errors_count := st.(errors_count) |}.

Definition bump_skipped (st : UploadStats) : UploadStats :=
  {| created := st.(created); updated := st.(updated);
     skipped := st.(skipped) + 1; errors_count := st.(errors_count) |}.

Definition bump_errors (st : UploadStats) : UploadStats :=
  {| created := st.(created); updated := st.(updated);
     skipped := st.(skipped); errors_count := st.(errors_count) + 1 |}.

Definition processed (st : UploadStats) : Z :=
  st.(created) + st.(updated) + st.(skipped) + st.(errors_count).

Record Running (C : Type) : Type := {
  run_store : C;
  run_stats : UploadStats;
  run_errors : list string
}.
Arguments run_store {C} _.
Arguments run_stats {C} _.
Arguments run_errors {C} _.

Section Orchestrator.
Context {C : Type} `{CatalogStore C}.

Definition ok (c : C) (f : UploadStats -> UploadStats) (r : Running C) : Running C :=
  {| run_store := c; run_stats := f r.(run_stats); run_errors := r.(run_errors) |}.

Definition failed (msg : string) (r : Running C) : Running C :=
  {| run_store := r.(run_store); run_stats := bump_errors r.(run_stats);
     run_errors := r.(run_errors) ++ [msg] |}.

Definition createRow (row : StagedRow) (r : Running C) : Running C :=
  match create row r.(run_store) with
  | Some (_, c) => ok c bump_created r
  | None => failed "PersistenceError" r
  end.

(** Modelled from the spec: the per-row table of the orchestrator,
    missing from the sources. *)
Definition processRow (action : DuplicateAction) (row : StagedRow)
           (r : Running C) : Running C :=
  match row.(status) with
  | StError => failed "RowCoercionError" r
  | StNew => createRow row r
  | StDuplicate =>
      match action with
      | Skip => ok r.(run_store) bump_skipped r
      | CreateNew => createRow row r
      | Update =>
          match row.(existing_id) with
          | None => failed "DuplicateTargetMissingError" r
          | Some id =>
              match find id r.(run_store) with
              | None => failed "DuplicateTargetMissingError" r
              | Some _ =>
                  match update id row r.(run_store) with
                  | Some c => ok c bump_updated r
                  | None => failed "PersistenceError" r
                  end
              end
          end
      end
  end.

Fixpoint insert_by_temp_id (row : StagedRow) (rows : list StagedRow)
  : list StagedRow :=
  match rows with
  | [] => [row]
  | x :: rows' =>
      if row.(temp_id) <? x.(temp_id) then row :: rows
      else x :: insert_by_temp_id row rows'
  end.

(** Modelled from the spec: the rows in [temp_id] order, in which the
    orchestrator processes them. *)
Definition in_temp_id_order (rows : list StagedRow) : list StagedRow :=
  foldr insert_by_temp_id [] rows.

Definition progressEvent (total : Z) (r : Running C) : ProgressEvent :=
  {| ev_type := EvProgress; ev_step := "processing";
     ev_progress := processed r.(run_stats) * 100 / total;
     ev_stats := r.(run_stats); ev_errors := r.(run_errors) |}.

Definition completeEvent (r : Running C) : ProgressEvent :=
  {| ev_type := EvComplete; ev_step := "complete"; ev_progress := 100;
     ev_stats := r.(run_stats); ev_errors := r.(run_errors) |}.

(** Modelled from the spec: the loop over the rows, with a progress event
    after each row carrying the running aggregates. *)
Fixpoint processRows (action : DuplicateAction) (total : Z)
         (rows : list StagedRow) (r : Running C)
  : Running C * list ProgressEvent :=
  match rows with
  | [] => (r, [])
  | row :: rows' =>
      let r1 := processRow action row r in
      let '(r2, evs) := processRows action total rows' r1 in
      (r2, progressEvent total r1 :: evs)
  end.

(** Modelled from the spec: one commit, missing from the sources: the
    rows one at a time in [temp_id] order, a progress event after each,
    and one complete event with the final aggregates. *)
Definition commit (action : DuplicateAction) (rows : list StagedRow) (c : C)
  : C * list ProgressEvent :=
  let start := {| run_store := c; run_stats := {| created := 0; updated := 0;
                    skipped := 0; errors_count := 0 |}; run_errors := [] |} in
  let '(r, evs) :=
    processRows action (Z.of_nat (length rows)) (in_temp_id_order rows) start in
  (r.(run_store), evs ++ [completeEvent r]).

(** Modelled from the spec: the terminal summary, the aggregates of the last
    event of a commit. *)
Definition terminalSummary (action : DuplicateAction) (rows : list StagedRow)
           (c : C) : option UploadStats :=
  ev_stats <$> last (commit action rows c).2.

End Orchestrator.

(** Modelled from the spec: an in-memory catalog store (section 9), the
    entries in insertion order.  [create] gives the next free id; nothing
    fails. *)
Definition next_id (c : list CatalogEntry) : Z :=
  1 + foldr (fun e m => Z.max e.(entry_id) m) 0 c.

Definition entry_of (id : Z) (row : StagedRow) : CatalogEntry :=
  {| entry_id := id; entry_name := row.(name);
     entry_description := row.(description); entry_price := row.(price);
     entry_quantity := row.(quantity) |}.

Definition overwrite (row : StagedRow) (e : CatalogEntry) : CatalogEntry :=
  {| entry_id := e.(entry_id); entry_name := e.(entry_name);
     entry_description := row.(description); entry_price := row.(price);
     entry_quantity := row.(quantity) |}.

#[global] Instance memoryStore : CatalogStore (list CatalogEntry) := {
  create row c := let id := next_id c in Some (id, c ++ [entry_of id row]);
  update id row c :=
    Some (map (fun e => if e.(entry_id) =? id then overwrite row e else e) c);
  find id c := List.find (fun e => e.(entry_id) =? id) c
}.

End Spec.

(** ** Reading a sent message, and the row status against the catalog *)
Module Channel.

(** the value under key [k] of a message *)
Fixpoint field (k : string) (m : Message) : option Payload :=
  match m with
  | [] => None
  | (k', v) :: m' => if bool_decide (k' = k) then Some v else field k m'
  end.

(** the messages a handler put on the socket, in order *)
Fixpoint sent (effs : list Effect) : list Message :=
  match effs with
  | [] => []
  | WsSend m :: effs' => m :: sent effs'
  | _ :: effs' => sent effs'
  end.

End Channel.

Module Scenario.
Import Inventory.

(** the catalog of the example session: one entry, Bolt *)
Definition demoCatalog : list CatalogEntry :=
  [{| entry_id := 40; entry_name := "Bolt"; entry_description := "";
      entry_price := JNum 5; entry_quantity := JNum 1 |}].

(** the sheet of the example session *)
Definition demoSheet : list Spec.SheetRow :=
  [{| Spec.cell_name := "Bolt"; Spec.cell_description := "";
      Spec.cell_price := JNum 6; Spec.cell_quantity := JNum 10 |};
   {| Spec.cell_name := "Nut"; Spec.cell_description := "";
      Spec.cell_price := JNum 2; Spec.cell_quantity := JNum 5 |};
   {| Spec.cell_name := "Screw"; Spec.cell_description := "";
      Spec.cell_price := JStr "abc"; Spec.cell_quantity := JNum 3 |}].

(** Whether the status a row object carries is the one the resolver gives
    its current fields. *)
Definition status_current (catalog : list CatalogEntry) (o : obj) : bool :=
  status_is (Spec.classifyRow catalog o) o.

(** The operator renames the row Nut to Bolt and saves the edit. *)
Definition demoRenamed : State :=
  saveEdit (writeField 2%positive "name" (JStr "Bolt") (startEdit 2%positive demoState)).

(** An edit that is saved, an edit that is cancelled, and a deletion. *)
Definition demoOps : list PreviewOp :=
  [OpStartEdit 1; OpWrite "name" (JStr "Washer"); OpSaveEdit;
   OpStartEdit 2; OpWrite "price" (JNum 4); OpCancelEdit;
   OpDeleteRow 0].

End Scenario.

(** ** The product list: search and pagination

    The fields of the component behind the product table: the loaded
    [items], the search result [filteredItems], the visible page
    [paginatedItems], and the page counter. *)
Module Pagination.

(** [hay.includes(needle)] on strings: the needle occurs in the text.  On
    well-formed text an occurrence as UTF-16 code units is an occurrence as
    UTF-8 bytes, and conversely. *)
Fixpoint is_prefix (p l : list ascii) : bool :=
  match p, l with
  | [], _ => true
  | c :: p', d :: l' => Ascii.eqb c d && is_prefix p' l'
  | _ :: _, [] => false
  end.

Fixpoint contains_chars (p l : list ascii) : bool :=
  is_prefix p l ||
  match l with
  | [] => false
  | _ :: l' => contains_chars p l'
  end.

Definition str_includes (hay needle : string) : bool :=
  contains_chars (JSString.chars needle) (JSString.chars hay).

(** [arr.slice(start, end)]: a negative index counts from the end, an index
    past the end is the end, and an empty range gives the empty array. *)
Definition slice {A} (start stop : Z) (l : list A) : list A :=
  let len := Z.of_nat (length l) in
  let from := if start <? 0 then Z.max (len + start) 0 else Z.min start len in
  let to := if stop <? 0 then Z.max (len + stop) 0 else Z.min stop len in
  take (Z.to_nat (to - from)) (drop (Z.to_nat from) l).

Record Pager : Type := {
  items : list CatalogEntry;
  filteredItems : list CatalogEntry;
  paginatedItems : list CatalogEntry;
  currentPage : Z;
  itemsPerPage : Z;
  searchTerm : string
}.

Definition with_page (n : Z) (p : Pager) : Pager :=
  {| items := p.(items); filteredItems := p.(filteredItems);
     paginatedItems := p.(paginatedItems); currentPage := n;
     itemsPerPage := p.(itemsPerPage); searchTerm := p.(searchTerm) |}.

Definition with_filtered (l : list CatalogEntry) (p : Pager) : Pager :=
  {| items := p.(items); filteredItems := l;
     paginatedItems := p.(paginatedItems); currentPage := p.(currentPage);
     itemsPerPage := p.(itemsPerPage); searchTerm := p.(searchTerm) |}.

Definition with_paginated (l : list CatalogEntry) (p : Pager) : Pager :=
  {| items := p.(items); filteredItems := p.(filteredItems);
     paginatedItems := l; currentPage := p.(currentPage);
     itemsPerPage := p.(itemsPerPage); searchTerm := p.(searchTerm) |}.

Definition updatePaginatedItems (p : Pager) : Pager :=
  let start := (p.(currentPage) - 1) * p.(itemsPerPage) in
  let stop := start + p.(itemsPerPage) in
  with_paginated (slice start stop p.(filteredItems)) p.

(** [Math.ceil(filteredItems.length / itemsPerPage)], for a page size other
    than zero (the field is initialised to 5 and never assigned). *)
Definition totalPages (p : Pager) : Z :=
  - ((- Z.of_nat (length p.(filteredItems))) / p.(itemsPerPage)).

Definition nextPage (p : Pager) : Pager :=
  if p.(currentPage) <? totalPages p then
    updatePaginatedItems (with_page (p.(currentPage) + 1) p)
  else p.

Definition prevPage (p : Pager) : Pager :=
  if p.(currentPage) >? 1 then
    updatePaginatedItems (with_page (p.(currentPage) - 1) p)
  else p.

Definition goToPage (page : Z) (p : Pager) : Pager :=
  if (page >=? 1) && (page <=? totalPages p) then
    updatePaginatedItems (with_page page p)
  else p.

(** the numbers pushed by [for (let i = start; i <= end; i++)] *)
Definition range (start stop : Z) : list Z := seqZ start (stop - start + 1).

(** [getPageNumbers()]; [-1] stands for an ellipsis. *)
Definition getPageNumbers (p : Pager) : list Z :=
  let total := totalPages p in
  let current := p.(currentPage) in
  if total <=? 7 then range 1 total
  else
    [1]
    ++ (if current >? 3 then [-1] else [])
    ++ range (Z.max 2 (current - 1)) (Z.min (total - 1) (current + 1))
    ++ (if current <? total - 2 then [-1] else [])
    ++ [total].

(** the test of the [filter] callback of [applyFilter] *)
Definition matches {R : Runtime.Builtins} (term : string) (item : CatalogEntry)
  : bool :=
  str_includes (Runtime.toLowerCase item.(entry_name)) term
  || str_includes (Runtime.toLowerCase item.(entry_description)) term.

Definition applyFilter {R : Runtime.Builtins} (p : Pager) : Pager :=
  let term := Runtime.trim (Runtime.toLowerCase p.(searchTerm)) in
  let p1 :=
    if bool_decide (term = "") then with_filtered p.(items) p
    else with_filtered (List.filter (matches term) p.(items)) p in
  updatePaginatedItems (with_page 1 p1).

(** The page invariant: the counter is on an existing page, or on page 1 of
    an empty list. *)
Definition page_ok (p : Pager) : Prop :=
  1 <= p.(currentPage) /\ (p.(currentPage) <= totalPages p \/ p.(currentPage) = 1).

(** the page [n] of a list *)
Definition page_of (n : Z) (p : Pager) : list CatalogEntry :=
  (updatePaginatedItems (with_page n p)).(paginatedItems).

(** the visible page is the page the counter names *)
Definition in_sync (p : Pager) : Prop :=
  p.(paginatedItems) = page_of p.(currentPage) p.

(** the search box is set to [t] *)
Definition with_search (t : string) (p : Pager) : Pager :=
  {| items := p.(items); filteredItems := p.(filteredItems);
     paginatedItems := p.(paginatedItems); currentPage := p.(currentPage);
     itemsPerPage := p.(itemsPerPage); searchTerm := t |}.

(** A product list for the examples: twelve products, five to a page. *)
Definition product (n : Z) (name : string) : CatalogEntry :=
  {| entry_id := n; entry_name := name; entry_description := "";
     entry_price := JNum 1; entry_quantity := JNum n |}.

Definition demoItems : list CatalogEntry :=
  [product 1 "Bolt"; product 2 "Nut"; product 3 "Screw"; product 4 "Washer";
   product 5 "Rivet"; product 6 "Anchor bolt"; product 7 "Nail"; product 8 "Pin";
   product 9 "Hinge"; product 10 "Clamp"; product 11 "BOLT cutter"; product 12 "Hook"].

Definition demoPager : Pager :=
  applyFilter (R := Runtime.asciiText)
              {| items := demoItems; filteredItems := []; paginatedItems := [];
                 currentPage := 1; itemsPerPage := 5; searchTerm := "" |}.

End Pagination.

(** ** The counters of the preview against its rows *)
Module Staging.
Import Inventory.

(** the number of staged rows whose status is [st] *)
Definition count_rows (st : string) (s : State) : Z :=
  Z.of_nat (length (List.filter (fun l => status_is st (JS.deref s.(store) l))
                                s.(previewData))).

(** The counters say what the preview holds: [totalRows] is the number of
    staged rows, [duplicatesCount] and [newProductsCount] are the numbers of
    rows with these statuses, and [hasDuplicates] says whether there is a
    duplicate. *)
Definition counters_consistent (s : State) : Prop :=
  s.(totalRows) = Z.of_nat (length s.(previewData)) /\
  s.(duplicatesCount) = count_rows "duplicate" s /\
  s.(newProductsCount) = count_rows "new" s /\
  s.(hasDuplicates) = (0 <? s.(duplicatesCount)).

End Staging.

(** ** Sheet analysis and sheet selection *)
Module Sheets.
Import Inventory.

(** The body of an [analyzeExcel] response; [a_selected_sheet] is [None]
    when the server names no sheet. *)
Record AnalyzeResponse : Type := {
  a_success : bool;
  a_sheets : list SheetInfo;
  a_total_sheets : Z;
  a_selected_sheet : option string
}.

Definition dquote : string := String (ascii_of_nat 34) EmptyString.

(** the notice [La hoja "<name>" tiene errores: <errors joined by ", ">] *)
Definition sheetErrors (n : string) (errs : list string) : Notice :=
  OtherNotice ("La hoja " ++ dquote ++ n ++ dquote ++ " tiene errores: "
               ++ String.concat ", " errs)%string.

(** How a callback ends: it returns, or it throws with the state as the
    assignments before the throw left it. *)
Inductive Completion : Type :=
| Returns (s : State) (effs : list Effect)
| Throws (s : State).

Definition select_and_load (n : string) (s : State) : State * list Effect :=
  let s1 := s <| selectedSheet := n |> in
  (s1, loadPreviewWithDuplicates s1).

(** The [next] callback of [analyzeFile].  With [total_sheets === 1] and an
    empty sheet list, [sheet.is_valid] reads a property of [undefined] and
    throws. *)
Definition onAnalyzeResponse (r : AnalyzeResponse) (s : State) : Completion :=
  if r.(a_success) then
    let s1 := s <| sheets := r.(a_sheets) |> in
    if r.(a_total_sheets) >? 1 then
      let s2 := s1 <| showSheetSelector := true |> in
      match r.(a_selected_sheet) with
      | Some n =>
          if bool_decide (n = "") then Returns s2 []
          else let '(s3, e) := select_and_load n s2 in Returns s3 e
      | None => Returns s2 []
      end
    else if r.(a_total_sheets) =? 1 then
      match s1.(sheets) !! 0%nat with
      | None => Throws s1
      | Some sheet =>
          if sheet.(is_valid) then
            let '(s3, e) := select_and_load sheet.(sheet_name) s1 in Returns s3 e
          else
            let '(s3, e) :=
              showError (sheetErrors sheet.(sheet_name) sheet.(sheet_errors)) s1 in
            Returns s3 e
      end
    else Returns s1 []
  else Returns s [].

Definition selectSheet (sheetName : string) (s : State) : State * list Effect :=
  match List.find (fun sh => bool_decide (sh.(sheet_name) = sheetName)) s.(sheets) with
  | Some sheet =>
      if negb sheet.(is_valid) then
        showError (sheetErrors sheetName sheet.(sheet_errors)) s
      else select_and_load sheetName s
  | None => select_and_load sheetName s
  end.

(** the effects of a completion; a throw leaves none *)
Definition effects_of (c : Completion) : list Effect :=
  match c with
  | Returns _ effs => effs
  | Throws _ => []
  end.

Definition state_of (c : Completion) : State :=
  match c with
  | Returns s _ => s
  | Throws s => s
  end.

(** A workbook for the examples: one good sheet and one with a bad header. *)
Definition goodSheet : SheetInfo :=
  {| sheet_name := "Stock"; sheet_rows := 3;
     sheet_columns := ["name"; "description"; "price"; "quantity"];
     is_valid := true; sheet_errors := [] |}.

Definition badSheet : SheetInfo :=
  {| sheet_name := "Notes"; sheet_rows := 7; sheet_columns := ["text"];
     is_valid := false;
     sheet_errors := ["missing column price"; "missing column quantity"] |}.

Definition demoFile : File := {| file_name := "stock.xlsx"; file_size := 2048 |}.

Definition twoSheets : State :=
  (onFileSelected (Some demoFile) initial).1 <| sheets := [goodSheet; badSheet] |>.

End Sheets.

(** ** Progress messages from the server

    [handleWebSocketMessage] and the fields it writes.  The message is typed
    as the interface [UploadProgress] says; its [data] is untyped in the
    source and is carried as a value.  The statistics are kept as the values
    the handler stores, which need not be numbers. *)
Module Progress.

Record UploadProgress : Type := {
  msg_type : string;
  msg_step : string;
  msg_progress : Z;
  msg_message : string;
  msg_data : jsval            (* [undefined] when the message has no data *)
}.

(** JavaScript truthiness *)
Definition truthy (v : jsval) : bool :=
  match v with
  | JUndefined | JNull => false
  | JBool b => b
  | JNum n => negb (n =? 0)
  | JStr s => negb (bool_decide (s = ""))
  | JArr _ | JObj _ => true
  end.

(** [a || b] *)
Definition or_else (a b : jsval) : jsval := if truthy a then a else b.

(** [v.k] for the keys the handler reads: a property of an object, and
    [undefined] on anything else.  The fields of an object have distinct
    keys. *)
Fixpoint assoc (k : string) (fs : list (string * jsval)) : jsval :=
  match fs with
  | [] => JUndefined
  | (k', v) :: fs' => if bool_decide (k' = k) then v else assoc k fs'
  end.

Definition prop (v : jsval) (k : string) : jsval :=
  match v with
  | JObj fs => assoc k fs
  | _ => JUndefined
  end.

Record StatsView : Type := {
  v_created : jsval;
  v_updated : jsval;
  v_skipped : jsval;
  v_errors : jsval
}.

Record View : Type := {
  isUploading : bool;
  showPreview : bool;
  uploadProgress : Z;
  uploadMessage : string;
  uploadStep : string;
  uploadStats : StatsView;
  errors : list jsval;
  showErrorDialog : bool;
  generalError : string
}.

Inductive Request : Type :=
| ReloadItems                 (* this.loadItems() *)
| CloseModalIfNoErrorsLater   (* setTimeout(.. if (errors.length === 0) closeExcelModal() .., 3000) *)
| ClearErrorLater.            (* the timer of showError *)

Definition with_stats (st : StatsView) (es : list jsval) (v : View) : View :=
  {| isUploading := v.(isUploading); showPreview := v.(showPreview);
     uploadProgress := v.(uploadProgress); uploadMessage := v.(uploadMessage);
     uploadStep := v.(uploadStep); uploadStats := st; errors := es;
     showErrorDialog := v.(showErrorDialog); generalError := v.(generalError) |}.

(** the statistics read from the data of a message *)
Definition statsOf (d : jsval) : StatsView :=
  {| v_created := or_else (prop d "created") (JNum 0);
     v_updated := or_else (prop d "updated") (JNum 0);
     v_skipped := or_else (prop d "skipped") (JNum 0);
     v_errors := or_else (or_else (prop d "errors_count") (prop d "errors")) (JNum 0) |}.

(** the error list after a message with data [d]: the array under [errors]
    when there is one *)
Definition errorsOf (d : jsval) (old : list jsval) : list jsval :=
  match prop d "errors" with
  | JArr l => l
  | _ => old
  end.

Definition handleWebSocketMessage (m : UploadProgress) (v : View)
  : View * list Request :=
  let v1 :=
    {| isUploading := v.(isUploading); showPreview := v.(showPreview);
       uploadProgress := m.(msg_progress); uploadMessage := m.(msg_message);
       uploadStep := m.(msg_step); uploadStats := v.(uploadStats);
       errors := v.(errors); showErrorDialog := v.(showErrorDialog);
       generalError := v.(generalError) |} in
  let v2 :=
    if truthy m.(msg_data)
    then with_stats (statsOf m.(msg_data)) (errorsOf m.(msg_data) v1.(errors)) v1
    else v1 in
  let '(v3, e3) :=
    if bool_decide (m.(msg_type) = "complete") then
      ({| isUploading := false; showPreview := false;
          uploadProgress := v2.(uploadProgress); uploadMessage := v2.(uploadMessage);
          uploadStep := v2.(uploadStep); uploadStats := v2.(uploadStats);
          errors := v2.(errors);
          showErrorDialog := if (0 <? length v2.(errors))%nat then true
                             else v2.(showErrorDialog);
          generalError := v2.(generalError) |},
       [ReloadItems; CloseModalIfNoErrorsLater])
    else (v2, []) in
  if bool_decide (m.(msg_type) = "error") then
    ({| isUploading := false; showPreview := v3.(showPreview);
        uploadProgress := v3.(uploadProgress); uploadMessage := v3.(uploadMessage);
        uploadStep := v3.(uploadStep); uploadStats := v3.(uploadStats);
        errors := v3.(errors); showErrorDialog := v3.(showErrorDialog);
        generalError := m.(msg_message) |},
     e3 ++ [ClearErrorLater])
  else (v3, e3).

(** a run of messages, in the order they arrive *)
Fixpoint handleAll (ms : list UploadProgress) (v : View) : View * list Request :=
  match ms with
  | [] => (v, [])
  | m :: ms' =>
      let '(v1, e1) := handleWebSocketMessage m v in
      let '(v2, e2) := handleAll ms' v1 in
      (v2, e1 ++ e2)
  end.

(** a message that ends the upload *)
Definition is_terminal (m : UploadProgress) : bool :=
  bool_decide (m.(msg_type) = "complete") || bool_decide (m.(msg_type) = "error").

(** the data of a summary: the four counters and the error messages *)
Definition summaryData (c u k e : Z) (msgs : list string) : jsval :=
  JObj [("created", JNum c); ("updated", JNum u); ("skipped", JNum k);
        ("errors_count", JNum e); ("errors", JArr (map JStr msgs))].

(** the state [confirmUpload] leaves: uploading, nothing counted yet *)
Definition uploading : View :=
  {| isUploading := true; showPreview := true; uploadProgress := 0;
     uploadMessage := "Iniciando carga..."; uploadStep := "";
     uploadStats := {| v_created := JNum 0; v_updated := JNum 0;
                       v_skipped := JNum 0; v_errors := JNum 0 |};
     errors := []; showErrorDialog := false; generalError := "" |}.

Definition progressMessage (pct : Z) (d : jsval) : UploadProgress :=
  {| msg_type := "progress"; msg_step := "processing"; msg_progress := pct;
     msg_message := "Procesando"; msg_data := d |}.

Definition completeMessage (d : jsval) : UploadProgress :=
  {| msg_type := "complete"; msg_step := "complete"; msg_progress := 100;
     msg_message := "Listo"; msg_data := d |}.

End Progress.

(** ** The stock charts

    The response callbacks of [LowStockChartComponent] and
    [HighStockChartComponent].  A product is its name and its quantity. *)
Module Charts.

Record Product : Type := { p_name : string; p_quantity : Z }.

Record ChartState : Type := {
  loading : bool;
  error : string;
  noData : bool;
  productCount : Z
}.

(** [setTimeout(() => this.createChart(labels, quantities), 100)] *)
Inductive ChartRequest : Type :=
| CreateChartLater (labels : list string) (quantities : list Z).

(** [arr.sort(cmp)]: the sort is stable; an element goes before the first
    element it does not compare greater than. *)
Fixpoint insert_sorted (cmp : Product -> Product -> Z) (x : Product)
         (l : list Product) : list Product :=
  match l with
  | [] => [x]
  | y :: l' => if cmp x y <=? 0 then x :: l else y :: insert_sorted cmp x l'
  end.

Definition sort (cmp : Product -> Product -> Z) (l : list Product) : list Product :=
  foldr (insert_sorted cmp) [] l.

(** [(a, b) => a.quantity - b.quantity] and [(a, b) => b.quantity - a.quantity] *)
Definition ascending (a b : Product) : Z := a.(p_quantity) - b.(p_quantity).
Definition descending (a b : Product) : Z := b.(p_quantity) - a.(p_quantity).

(** The [next] callback; [data] is [None] when [result.data] is missing or
    null. *)
Definition onProducts (cmp : Product -> Product -> Z)
           (data : option (list Product)) (st : ChartState)
  : ChartState * list ChartRequest :=
  match data with
  | Some (x :: l) =>
      let sortedProducts := sort cmp (x :: l) in
      let labels := map p_name sortedProducts in
      let quantities := map p_quantity sortedProducts in
      ({| loading := false; error := st.(error); noData := false;
          productCount := Z.of_nat (length sortedProducts) |},
       [CreateChartLater labels quantities])
  | _ =>
      ({| loading := false; error := st.(error); noData := true;
          productCount := st.(productCount) |}, [])
  end.

Definition onLowStock := onProducts ascending.
Definition onHighStock := onProducts descending.

(** products of one quantity, in their order in the list *)
Definition of_quantity (k : Z) (l : list Product) : list Product :=
  List.filter (fun p => p.(p_quantity) =? k) l.

(** the state while the request is out: [loading = true; error = ''] *)
Definition requested (st : ChartState) : ChartState :=
  {| loading := true; error := ""; noData := st.(noData);
     productCount := st.(productCount) |}.

End Charts.

(** ** The preview request of [ApiService]

    [previewExcel] puts the sheet name in the query string through
    [encodeURIComponent].  On strings as UTF-8 bytes, that function keeps
    the unreserved characters and writes every other byte as a percent sign
    and two upper-case hexadecimal digits.  [apiUrl] comes from the
    environment file and is a parameter. *)
Module Api.

Definition is_digit (c : ascii) : bool :=
  let n := nat_of_ascii c in (48 <=? n)%nat && (n <=? 57)%nat.

(** the characters [encodeURIComponent] leaves alone:
    letters, digits and [- _ . ! ~ * ' ( )] *)
Definition unreserved (c : ascii) : bool :=
  JSString.is_upper c || JSString.is_lower c || is_digit c
  || existsb (Ascii.eqb c)
       ["-"; "_"; "."; "!"; "~"; "*"; "'"; "("; ")"]%char.

Definition hex_digit (n : nat) : ascii :=
  nth n ["0"; "1"; "2"; "3"; "4"; "5"; "6"; "7"; "8"; "9";
         "A"; "B"; "C"; "D"; "E"; "F"]%char "0"%char.

Definition encode_byte (c : ascii) : list ascii :=
  if unreserved c then [c]
  else ["%"%char; hex_digit (nat_of_ascii c / 16); hex_digit (nat_of_ascii c mod 16)].

Definition encodeURIComponent (s : string) : string :=
  JSString.of_chars (flat_map encode_byte (JSString.chars s)).

(** the URL of [previewExcel(formData, sheetName)] *)
Definition previewExcelUrl (apiUrl sheetName : string) : string :=
  (apiUrl ++ "/upload-excel/preview?sheet_name=" ++ encodeURIComponent sheetName)%string.

(** the value of a hexadecimal digit, and the reading back of an encoded
    text, used to show that the encoding loses nothing *)
Definition unhex (c : ascii) : nat :=
  let n := nat_of_ascii c in
  if is_digit c then n - 48 else n - 55.

Fixpoint decode (l : list ascii) : list ascii :=
  match l with
  | [] => []
  | c :: r =>
      if Ascii.eqb c "%"%char then
        match r with
        | a :: b :: r' => ascii_of_nat (unhex a * 16 + unhex b) :: decode r'
        | _ => l
        end
      else c :: decode r
  end.

End Api.

(* ===================================================================== *)
(** * Part II: theorems                                                   *)
(* ===================================================================== *)

Example lower_XLSX : JSString.toLowerCase "Report.XLSX" = "report.xlsx".
Proof. reflexivity. Qed.

Example trim_widget : JSString.trim "  Widget " = "Widget".
Proof. reflexivity. Qed.

Example lastIndexOf_two : JSString.lastIndexOf "."%char "a.b.xls" = 3.
Proof. reflexivity. Qed.

Example lastIndexOf_none : JSString.lastIndexOf "."%char "xlsx" = -1.
Proof. reflexivity. Qed.

Example substring_neg : JSString.substring (-1) "xlsx" = "xlsx".
Proof. reflexivity. Qed.

(** ** Strings *)
Section StringFacts.
Import JSString.

Lemma chars_of_chars (l : list ascii) : chars (of_chars l) = l.
Proof. apply list_ascii_of_string_of_list_ascii. Qed.

Lemma of_chars_chars (s : string) : of_chars (chars s) = s.
Proof. apply string_of_list_ascii_of_string. Qed.

Lemma chars_inj (s t : string) : chars s = chars t -> s = t.
Proof.
  intros E. rewrite <- (of_chars_chars s), <- (of_chars_chars t). now rewrite E.
Qed.

Lemma chars_app (s t : string) : chars (s ++ t)%string = chars s ++ chars t.
Proof.
  induction s as [|c s IH]; simpl; [reflexivity|].
  unfold chars in *. simpl. now rewrite IH.
Qed.


Lemma is_space_upper (c : ascii) : is_space (upper_char c) = is_space c.
Proof. destruct c as [[] [] [] [] [] [] [] []]; reflexivity. Qed.


Lemma lower_upper (c : ascii) : lower_char (upper_char c) = lower_char c.
Proof. destruct c as [[] [] [] [] [] [] [] []]; reflexivity. Qed.




Lemma drop_spaces_blanks (n : nat) (l : list ascii) :
  drop_spaces (repeat " "%char n ++ l) = drop_spaces l.
Proof. induction n as [|n IH]; simpl; [reflexivity | exact IH]. Qed.

Lemma rev_blanks (n : nat) : rev (repeat " "%char n) = repeat " "%char n.
Proof.
  induction n as [|n IH]; simpl; [reflexivity|].
  rewrite IH. clear IH. induction n as [|n IH]; simpl; [reflexivity|].
  now rewrite IH.
Qed.

Lemma drop_spaces_app (l t : list ascii) :
  drop_spaces l <> [] -> drop_spaces (l ++ t) = drop_spaces l ++ t.
Proof.
  induction l as [|c l IH]; simpl; [congruence|].
  destruct (is_space c); [exact IH | reflexivity].
Qed.

Lemma drop_spaces_all_blank (l : list ascii) (m : nat) :
  drop_spaces l = [] -> drop_spaces (l ++ repeat " "%char m) = [].
Proof.
  induction l as [|c l IH]; simpl.
  - intros _. rewrite <- (app_nil_r (repeat _ m)). now rewrite drop_spaces_blanks.
  - destruct (is_space c); [exact IH | discriminate].
Qed.

Lemma trim_chars_padded (n m : nat) (l : list ascii) :
  trim_chars (repeat " "%char n ++ l ++ repeat " "%char m) = trim_chars l.
Proof.
  unfold trim_chars. rewrite drop_spaces_blanks.
  destruct (drop_spaces l) as [|c l'] eqn:E.
  - now rewrite drop_spaces_all_blank.
  - rewrite drop_spaces_app by (rewrite E; discriminate).
    rewrite E, rev_app_distr, rev_blanks. now rewrite drop_spaces_blanks.
Qed.

Lemma trim_padded (n m : nat) (s : string) :
  trim (spaces n ++ s ++ spaces m)%string = trim s.
Proof.
  unfold trim, spaces. rewrite !chars_app, !chars_of_chars.
  now rewrite trim_chars_padded.
Qed.

Lemma toLowerCase_app (s t : string) :
  toLowerCase (s ++ t)%string = (toLowerCase s ++ toLowerCase t)%string.
Proof.
  unfold toLowerCase. apply chars_inj.
  now rewrite chars_of_chars, !chars_app, !chars_of_chars, map_app.
Qed.

Lemma toLowerCase_spaces (n : nat) : toLowerCase (spaces n) = spaces n.
Proof.
  unfold toLowerCase, spaces. rewrite chars_of_chars. f_equal.
  induction n as [|n IH]; simpl; [reflexivity | now rewrite IH].
Qed.


Lemma toLowerCase_toUpperCase (s : string) :
  toLowerCase (toUpperCase s) = toLowerCase s.
Proof.
  unfold toLowerCase, toUpperCase. rewrite chars_of_chars, map_map. f_equal.
  apply map_ext. exact lower_upper.
Qed.

Lemma lower_char_blank (c : ascii) : is_space c = true -> lower_char c = c.
Proof. destruct c as [[] [] [] [] [] [] [] []]; (reflexivity || discriminate). Qed.

Lemma lower_char_ascii (c : ascii) :
  (nat_of_ascii (lower_char c) <? 128)%nat = (nat_of_ascii c <? 128)%nat.
Proof. destruct c as [[] [] [] [] [] [] [] []]; reflexivity. Qed.

Lemma upper_char_ascii (c : ascii) :
  (nat_of_ascii (upper_char c) <? 128)%nat = (nat_of_ascii c <? 128)%nat.
Proof. destruct c as [[] [] [] [] [] [] [] []]; reflexivity. Qed.

Lemma is_space_ascii (c : ascii) :
  is_space c = true -> (nat_of_ascii c <? 128)%nat = true.
Proof. destruct c as [[] [] [] [] [] [] [] []]; (reflexivity || discriminate). Qed.

Lemma forallb_map_same {A} (f : A -> bool) (g : A -> A) (l : list A) :
  (forall x, f (g x) = f x) -> forallb f (map g l) = forallb f l.
Proof.
  intros H. induction l as [|x l IH]; simpl; [reflexivity|]. now rewrite H, IH.
Qed.

Lemma is_ascii_toLowerCase (s : string) :
  Runtime.is_ascii (toLowerCase s) = Runtime.is_ascii s.
Proof.
  unfold Runtime.is_ascii, toLowerCase. rewrite chars_of_chars.
  apply forallb_map_same. exact lower_char_ascii.
Qed.

Lemma is_ascii_toUpperCase (s : string) :
  Runtime.is_ascii (toUpperCase s) = Runtime.is_ascii s.
Proof.
  unfold Runtime.is_ascii, toUpperCase. rewrite chars_of_chars.
  apply forallb_map_same. exact upper_char_ascii.
Qed.

Lemma is_ascii_app (s t : string) :
  Runtime.is_ascii (s ++ t)%string = Runtime.is_ascii s && Runtime.is_ascii t.
Proof. unfold Runtime.is_ascii. now rewrite chars_app, forallb_app. Qed.

Lemma blank_is_ascii (w : string) :
  Runtime.blank w = true -> Runtime.is_ascii w = true.
Proof.
  unfold Runtime.blank, Runtime.is_ascii. rewrite !forallb_forall.
  intros H c Hc. apply is_space_ascii. now apply H.
Qed.

(** White space before the text is dropped. *)
Lemma drop_spaces_blank (w l : list ascii) :
  forallb is_space w = true -> drop_spaces (w ++ l) = drop_spaces l.
Proof.
  induction w as [|c w IH]; simpl; [reflexivity|].
  intros H. apply andb_true_iff in H as [Hc Hw]. rewrite Hc. now apply IH.
Qed.

Lemma drop_spaces_then_blank (l w : list ascii) :
  forallb is_space w = true -> drop_spaces l = [] -> drop_spaces (l ++ w) = [].
Proof.
  intros Hw. induction l as [|c l IH]; simpl.
  - intros _. rewrite <- (app_nil_r w). now rewrite drop_spaces_blank.
  - destruct (is_space c); [exact IH | discriminate].
Qed.

Lemma forallb_rev {A} (f : A -> bool) (l : list A) :
  forallb f (rev l) = forallb f l.
Proof.
  induction l as [|x l IH]; simpl; [reflexivity|].
  rewrite forallb_app, IH. simpl. rewrite andb_true_r. apply andb_comm.
Qed.

Lemma trim_chars_blank_padded (w1 w2 l : list ascii) :
  forallb is_space w1 = true -> forallb is_space w2 = true ->
  trim_chars (w1 ++ l ++ w2) = trim_chars l.
Proof.
  intros H1 H2. unfold trim_chars. rewrite (drop_spaces_blank w1) by exact H1.
  destruct (drop_spaces l) as [|c l'] eqn:E.
  - now rewrite (drop_spaces_then_blank l w2 H2 E).
  - rewrite drop_spaces_app by (rewrite E; discriminate).
    rewrite E, rev_app_distr.
    rewrite drop_spaces_blank by (now rewrite forallb_rev). reflexivity.
Qed.

Lemma trim_blank_padded (w1 w2 s : string) :
  Runtime.blank w1 = true -> Runtime.blank w2 = true ->
  trim (w1 ++ s ++ w2)%string = trim s.
Proof.
  intros H1 H2. unfold trim. rewrite !chars_app.
  now rewrite trim_chars_blank_padded.
Qed.

Lemma trim_blank (w : string) : Runtime.blank w = true -> trim w = "".
Proof.
  intros H. unfold trim, trim_chars.
  rewrite <- (app_nil_r (chars w)), (drop_spaces_blank _ [] H). reflexivity.
Qed.

Lemma toLowerCase_blank (w : string) :
  Runtime.blank w = true -> toLowerCase w = w.
Proof.
  intros H. unfold toLowerCase. rewrite <- (of_chars_chars w) at 2. f_equal.
  unfold Runtime.blank in H. rewrite forallb_forall in H.
  rewrite <- (map_id (chars w)) at 2. apply map_ext_in.
  intros c Hc. apply lower_char_blank. now apply H.
Qed.

End StringFacts.

(** ** Name matching in [addItem] *)

Lemma asciiText_conforms : Runtime.Conforms Runtime.asciiText.
Proof. split; intros s _; reflexivity. Qed.

(** On a name of ASCII characters the key of [addItem] is the name lowered
    and trimmed as [JSString] does. *)
Lemma nameKey_ascii {R : Runtime.Builtins} (L : Runtime.Conforms R) (s : string) :
  Runtime.is_ascii s = true ->
  Catalog.nameKey s = JSString.trim (JSString.toLowerCase s).
Proof.
  intros H. unfold Catalog.nameKey.
  rewrite (Runtime.toLowerCase_ascii R L s H).
  apply (Runtime.trim_ascii R L). now rewrite is_ascii_toLowerCase.
Qed.


Lemma nameKey_padded {R : Runtime.Builtins} (L : Runtime.Conforms R)
  (w1 w2 s : string) :
  Runtime.is_ascii s = true -> Runtime.blank w1 = true -> Runtime.blank w2 = true ->
  Catalog.nameKey (w1 ++ s ++ w2)%string = Catalog.nameKey s.
Proof.
  intros Hs H1 H2. rewrite !(nameKey_ascii L).
  - rewrite !toLowerCase_app, (toLowerCase_blank w1 H1), (toLowerCase_blank w2 H2).
    now apply trim_blank_padded.
  - exact Hs.
  - rewrite !is_ascii_app, Hs, (blank_is_ascii w1 H1), (blank_is_ascii w2 H2).
    reflexivity.
Qed.

Lemma nameKey_toUpperCase {R : Runtime.Builtins} (L : Runtime.Conforms R) (s : string) :
  Runtime.is_ascii s = true ->
  Catalog.nameKey (Runtime.toUpperCase s) = Catalog.nameKey s.
Proof.
  intros H. rewrite (Runtime.toUpperCase_ascii R L s H).
  rewrite !(nameKey_ascii L); [| exact H | now rewrite is_ascii_toUpperCase].
  now rewrite toLowerCase_toUpperCase.
Qed.


Lemma nameKey_blank {R : Runtime.Builtins} (L : Runtime.Conforms R) (w : string) :
  Runtime.blank w = true -> Catalog.nameKey w = "".
Proof.
  intros H. rewrite (nameKey_ascii L) by now apply blank_is_ascii.
  rewrite (toLowerCase_blank w H). now apply trim_blank.
Qed.

(** [find] returns an entry exactly when some listed name has the key of
    the name looked for. *)
Lemma findExisting_Some {R : Runtime.Builtins} (items : list CatalogEntry) (n : string) :
  is_Some (Catalog.findExisting items n) <->
  exists e, In e items /\ Catalog.nameKey e.(entry_name) = Catalog.nameKey n.
Proof.
  unfold Catalog.findExisting. split.
  - intros [e He]. apply find_some in He as [Hin Hk].
    apply bool_decide_eq_true in Hk. eauto.
  - intros (e & Hin & Hk).
    destruct (List.find _ items) as [x|] eqn:F; [eauto|].
    exfalso. apply (find_none _ _ F) in Hin.
    apply bool_decide_eq_false in Hin. auto.
Qed.



Example addItem_widget :
  Catalog.addItem (R := Runtime.asciiText)
    [{| entry_id := 7; entry_name := "Widget "; entry_description := "w";
        entry_price := JNum 5; entry_quantity := JNum 1 |}]
    {| new_name := "  wIDGET"; new_description := "again";
       new_price := JNum 1; new_quantity := JNum 1 |}
  = Catalog.DuplicateWarning
      {| entry_id := 7; entry_name := "Widget "; entry_description := "w";
         entry_price := JNum 5; entry_quantity := JNum 1 |}.
Proof. reflexivity. Qed.

(** ** File validation *)
Section Validation.
Import JSString Inventory.

Lemma lastIndexOf_from_absent (c : ascii) (l : list ascii) (i found : Z) :
  ~ In c l -> lastIndexOf_from c l i found = found.
Proof.
  revert i found. induction l as [|x l IH]; intros i found Hn; simpl; [reflexivity|].
  destruct (Ascii.eqb_spec x c) as [->|Hne].
  - exfalso. apply Hn. now left.
  - apply IH. intros Hin. apply Hn. now right.
Qed.

Lemma lastIndexOf_from_last (c : ascii) (l1 l2 : list ascii) (i found : Z) :
  ~ In c l2 ->
  lastIndexOf_from c (l1 ++ c :: l2) i found = i + Z.of_nat (length l1).
Proof.
  revert i found. induction l1 as [|x l1 IH]; intros i found Hn; simpl.
  - rewrite Ascii.eqb_refl, lastIndexOf_from_absent by assumption. lia.
  - rewrite IH by assumption. lia.
Qed.

Lemma lower_char_dot (c : ascii) : lower_char c = "."%char -> c = "."%char.
Proof. destruct c as [[] [] [] [] [] [] [] []]; vm_compute; congruence. Qed.

Lemma lower_char_not_dot (c d : ascii) :
  lower_char c = d -> d <> "."%char -> c <> "."%char.
Proof. intros E Hd ->. apply Hd. now rewrite <- E. Qed.

(** A name that ends with a dot followed by dot-free characters has that
    tail as its [fileExtension], lowered. *)
Lemma fileExtension_tail (stem : string) (rest : list ascii) :
  ~ In "."%char rest ->
  fileExtension (stem ++ of_chars ("."%char :: rest))%string
  = toLowerCase (of_chars ("."%char :: rest)).
Proof.
  intros Hn. unfold fileExtension, lastIndexOf, substring.
  rewrite chars_app, chars_of_chars, lastIndexOf_from_last by assumption.
  f_equal. f_equal.
  replace (Z.to_nat (Z.max 0 (0 + Z.of_nat (length (chars stem)))))
    with (length (chars stem)) by lia.
  now rewrite drop_app_length.
Qed.

Lemma ends_with_ci_fileExtension (ext name : string) :
  In ext validExtensions ->
  Spec.ends_with_ci ext name -> fileExtension name = ext.
Proof.
  intros Hext (stem & tail & -> & Hlow).
  assert (Hc : map lower_char (chars tail) = chars ext).
  { rewrite <- Hlow. unfold toLowerCase. now rewrite chars_of_chars. }
  rewrite <- (of_chars_chars tail) in Hlow |- *.
  destruct Hext as [<-|[<-|[]]]; simpl in Hc.
  - destruct (chars tail) as [|c1 [|c2 [|c3 [|c4 [|]]]]]; try discriminate.
    injection Hc as H1 H2 H3 H4. apply lower_char_dot in H1 as ->.
    rewrite fileExtension_tail; [exact Hlow|].
    intros [E|[E|[E|[]]]]; revert E;
      eapply lower_char_not_dot; eauto; discriminate.
  - destruct (chars tail) as [|c1 [|c2 [|c3 [|c4 [|c5 [|]]]]]]; try discriminate.
    injection Hc as H1 H2 H3 H4 H5. apply lower_char_dot in H1 as ->.
    rewrite fileExtension_tail; [exact Hlow|].
    intros [E|[E|[E|[E|[]]]]]; revert E;
      eapply lower_char_not_dot; eauto; discriminate.
Qed.

Lemma fileExtension_ends_with_ci (name : string) :
  Spec.ends_with_ci (fileExtension name) name.
Proof.
  unfold fileExtension, substring.
  set (k := Z.to_nat _).
  exists (of_chars (take k (chars name))), (of_chars (drop k (chars name))).
  split; [|reflexivity].
  apply chars_inj. now rewrite chars_app, !chars_of_chars, take_drop.
Qed.

(** The extension test of [onFileSelected] accepts exactly the names that
    end in [.xls] or [.xlsx], letter case aside. *)
Lemma extension_check_spec (name : string) :
  includes validExtensions (fileExtension name) = true <-> Spec.excel_name name.
Proof.
  unfold includes, Spec.excel_name. rewrite existsb_exists. split.
  - intros (ext & Hin & E). apply bool_decide_eq_true in E. subst ext.
    pose proof (fileExtension_ends_with_ci name) as H.
    destruct Hin as [E|[E|[]]]; rewrite <- E in H; auto.
  - intros [H|H].
    + exists ".xls". split; [now left|]. apply bool_decide_eq_true. symmetry.
      apply ends_with_ci_fileExtension; [now left | exact H].
    + exists ".xlsx". split; [right; now left|]. apply bool_decide_eq_true.
      symmetry. apply ends_with_ci_fileExtension; [right; now left | exact H].
Qed.

Lemma showError_session (n : Notice) (s : State) :
  same_session s (showError n s).1.
Proof. destruct s. repeat split. Qed.

(** C7: a file whose extension, letter case aside, is neither [.xls] nor
    [.xlsx], or whose size exceeds 10 MiB, is rejected with an error notice;
    no analysis is requested and the session (selected file, name, size,
    sheets, preview) is left as it was, so what was unset stays unset.  A
    file with an Excel extension and a size of exactly 10 MiB is accepted:
    it becomes the selected file and its analysis is requested. *)
Theorem onFileSelected_validates (s : State) (f : File) :
  (~ Spec.excel_name f.(file_name) \/ f.(file_size) > 10 * 1024 * 1024 ->
   exists notice : Notice,
     notice <> NoNotice /\
     onFileSelected (Some f) s
     = (s <| generalError := notice |>, [ClearNoticeLater; ClearFileInput]) /\
     same_session s (onFileSelected (Some f) s).1 /\
     (forall e, In e (onFileSelected (Some f) s).2 ->
                forall g, e <> AnalyzeExcel g)) /\
  (Spec.excel_name f.(file_name) -> f.(file_size) = 10 * 1024 * 1024 ->
   (onFileSelected (Some f) s).1.(selectedFile) = Some f /\
   (onFileSelected (Some f) s).1.(fileName) = f.(file_name) /\
   (onFileSelected (Some f) s).1.(fileSize) = f.(file_size) /\
   (onFileSelected (Some f) s).2 = [AnalyzeExcel f]).
Proof.
  pose proof (extension_check_spec f.(file_name)) as Hext.
  split.
  - intros Hbad. unfold onFileSelected.
    destruct (includes validExtensions (fileExtension (file_name f))) eqn:E; simpl.
    + destruct Hbad as [Hbad|Hbig]; [exfalso; apply Hbad, Hext; reflexivity|].
      assert (G : (file_size f >? maxSize) = true)
        by (apply Z.gtb_lt; unfold maxSize; lia).
      rewrite G. exists (FileTooLarge (file_size f)).
      split; [discriminate|]. split; [reflexivity|]. split.
      * apply showError_session.
      * intros e [<-|[<-|[]]] g; discriminate.
    + exists NotAnExcelFile.
      split; [discriminate|]. split; [reflexivity|]. split.
      * apply showError_session.
      * intros e [<-|[<-|[]]] g; discriminate.
  - intros Hok Hsize. apply Hext in Hok. unfold onFileSelected. rewrite Hok. simpl.
    assert (G : (file_size f >? maxSize) = false).
    { rewrite Z.gtb_ltb. apply Z.ltb_ge. unfold maxSize. lia. }
    rewrite G. destruct s; simpl. repeat split.
Qed.

(** C7 at concrete files: a text file and an oversized workbook are
    rejected, a workbook of exactly 10 MiB is accepted. *)
Lemma onFileSelected_validates_witness :
  (exists notice : Notice,
     notice <> NoNotice /\
     onFileSelected (Some {| file_name := "big.XLSX"; file_size := 10485761 |}) initial
     = (initial <| generalError := notice |>, [ClearNoticeLater; ClearFileInput]) /\
     same_session initial
       (onFileSelected (Some {| file_name := "big.XLSX"; file_size := 10485761 |})
          initial).1 /\
     (forall e,
         In e (onFileSelected
                 (Some {| file_name := "big.XLSX"; file_size := 10485761 |})
                 initial).2 ->
         forall g, e <> AnalyzeExcel g)) /\
  (onFileSelected (Some {| file_name := "stock.Xlsx"; file_size := 10485760 |})
     initial).2
  = [AnalyzeExcel {| file_name := "stock.Xlsx"; file_size := 10485760 |}].
Proof.
  split.
  - apply (onFileSelected_validates initial
             {| file_name := "big.XLSX"; file_size := 10485761 |}).
    right. simpl. lia.
  - apply (onFileSelected_validates initial
             {| file_name := "stock.Xlsx"; file_size := 10485760 |}).
    + right. exists "stock", ".Xlsx". split; reflexivity.
    + reflexivity.
Defined.

Example onFileSelected_text_file :
  onFileSelected (Some {| file_name := "notes.txt"; file_size := 12 |}) initial
  = (initial <| generalError := NotAnExcelFile |>, [ClearNoticeLater; ClearFileInput]).
Proof. reflexivity. Qed.

Example onFileSelected_no_dot :
  (onFileSelected (Some {| file_name := "xlsx"; file_size := 12 |}) initial).2
  = [ClearNoticeLater; ClearFileInput].
Proof. reflexivity. Qed.

End Validation.

(** ** The preview store: [saveEdit] and [deleteRow] *)
Section PreviewStore.
Import Inventory.

Lemma strict_eq_true (a b : jsval) : JS.strict_eq a b = true -> a = b.
Proof.
  destruct a, b; simpl; try discriminate; try reflexivity; intros E.
  - now apply Bool.eqb_prop in E as ->.
  - now apply Z.eqb_eq in E as ->.
  - now apply bool_decide_eq_true in E as ->.
Qed.

Lemma strict_eq_refl (a : jsval) :
  JS.is_primitive a = true -> JS.strict_eq a a = true.
Proof.
  destruct a; simpl; try discriminate; intros _; try reflexivity.
  - apply Bool.eqb_reflx.
  - apply Z.eqb_refl.
  - now apply bool_decide_eq_true.
Qed.

Lemma findIndex_from_none {A} (p : A -> bool) (l : list A) (i : Z) :
  Forall (fun x => p x = false) l -> JS.findIndex_from p l i = -1.
Proof.
  intros H. revert i. induction H as [|x l Hx _ IH]; intros i; simpl.
  - reflexivity.
  - rewrite Hx. apply IH.
Qed.

Lemma findIndex_from_hit {A} (p : A -> bool) (l1 l2 : list A) (x : A) (i : Z) :
  Forall (fun y => p y = false) l1 -> p x = true ->
  JS.findIndex_from p (l1 ++ x :: l2) i = i + Z.of_nat (length l1).
Proof.
  intros H Hx. revert i. induction H as [|y l1 Hy _ IH]; intros i; simpl.
  - rewrite Hx. lia.
  - rewrite Hy, IH. lia.
Qed.

Lemma status_dup_not_new (o : obj) :
  status_is "duplicate" o = true -> status_is "new" o = false.
Proof.
  unfold status_is. intros E. apply strict_eq_true in E. now rewrite E.
Qed.

(** C3: [saveEdit] only closes the edit.  The store, and with it every
    property of every row (the values edited in place, the status,
    [existing_id] and [temp_id]), the staged-row list, [totalRows],
    [duplicatesCount], [newProductsCount] and [hasDuplicates] are as they
    were; no row is under edit afterwards. *)
Theorem saveEdit_frame (s : State) :
  (saveEdit s).(store) = s.(store) /\
  (forall row k,
      JS.get (JS.deref (saveEdit s).(store) row) k = JS.get (JS.deref s.(store) row) k) /\
  (saveEdit s).(previewData) = s.(previewData) /\
  (saveEdit s).(originalPreviewData) = s.(originalPreviewData) /\
  (saveEdit s).(totalRows) = s.(totalRows) /\
  (saveEdit s).(duplicatesCount) = s.(duplicatesCount) /\
  (saveEdit s).(newProductsCount) = s.(newProductsCount) /\
  (saveEdit s).(hasDuplicates) = s.(hasDuplicates) /\
  (saveEdit s).(editingRow) = None /\
  (saveEdit s).(editingRowCopy) = None.
Proof. destruct s. simpl. repeat split. Qed.

Lemma deleteRow_miss (row : loc) (s : State) :
  Forall (fun r => same_temp_id s.(store) row r = false) s.(previewData) ->
  deleteRow row s = s.
Proof.
  intros H. unfold deleteRow, JS.findIndex.
  now rewrite (findIndex_from_none _ _ 0 H).
Qed.

(** C10: [deleteRow] on a row whose [temp_id] matches no row of the preview
    changes nothing: the state, and so [previewData], [totalRows],
    [duplicatesCount], [newProductsCount] and [hasDuplicates], is exactly as
    it was. *)
Theorem deleteRow_no_match (row : loc) (s : State) :
  (forall r, In r s.(previewData) ->
             JS.strict_eq (temp_id_of s.(store) r) (temp_id_of s.(store) row) = false) ->
  deleteRow row s = s /\
  (deleteRow row s).(previewData) = s.(previewData) /\
  (deleteRow row s).(totalRows) = s.(totalRows) /\
  (deleteRow row s).(duplicatesCount) = s.(duplicatesCount) /\
  (deleteRow row s).(newProductsCount) = s.(newProductsCount) /\
  (deleteRow row s).(hasDuplicates) = s.(hasDuplicates).
Proof.
  intros H.
  assert (E : deleteRow row s = s).
  { apply deleteRow_miss. apply List.Forall_forall. exact H. }
  rewrite E. repeat split.
Qed.

Lemma delete_NoDup_gone {A} (l : list A) (i : nat) (x : A) :
  NoDup l -> l !! i = Some x -> ~ In x (delete i l).
Proof.
  intros Hnd Hi Hin. apply list_elem_of_In, list_elem_of_lookup in Hin as [j Hj].
  destruct (decide (j < i)%nat) as [Hlt|Hge].
  - rewrite list_lookup_delete_lt in Hj by assumption.
    pose proof (NoDup_lookup _ _ _ _ Hnd Hi Hj). lia.
  - rewrite list_lookup_delete_ge in Hj by lia.
    pose proof (NoDup_lookup _ _ _ _ Hnd Hi Hj). lia.
Qed.

Lemma findIndex_unique (s : State) (row : loc) (i : nat) :
  s.(previewData) !! i = Some row ->
  unique_temp_ids s ->
  JS.is_primitive (temp_id_of s.(store) row) = true ->
  JS.findIndex (same_temp_id s.(store) row) s.(previewData) = Z.of_nat i.
Proof.
  intros Hi Hu Hp. unfold unique_temp_ids in Hu.
  pose proof (take_drop_middle _ _ _ Hi) as Hsplit.
  unfold JS.findIndex. rewrite <- Hsplit.
  rewrite findIndex_from_hit.
  - rewrite length_take. apply lookup_lt_Some in Hi. lia.
  - apply List.Forall_forall. intros r Hr.
    apply list_elem_of_In, list_elem_of_lookup in Hr as [j Hj].
    apply lookup_take_Some in Hj as [Hj Hlt].
    destruct (same_temp_id (store s) row r) eqn:E; [|reflexivity].
    exfalso. apply strict_eq_true in E.
    assert (H1 : (temp_id_of (store s) <$> previewData s) !! j
                 = Some (temp_id_of (store s) row)).
    { rewrite list_lookup_fmap, Hj. simpl. f_equal. exact E. }
    assert (H2 : (temp_id_of (store s) <$> previewData s) !! i
                 = Some (temp_id_of (store s) row)).
    { now rewrite list_lookup_fmap, Hi. }
    pose proof (NoDup_lookup _ _ _ _ Hu H1 H2). lia.
  - apply strict_eq_refl. exact Hp.
Qed.

(** C4: [deleteRow] on a staged row of the preview, in a session whose
    [temp_id]s are distinct, removes exactly that row and keeps the others in
    order, takes one off [totalRows], takes one off [duplicatesCount] when
    the row's status is duplicate and one off [newProductsCount] when it is
    new (and off neither otherwise), and sets [hasDuplicates] to false
    exactly when the row was a duplicate and [duplicatesCount] has reached
    zero; the row objects are not touched. *)
Theorem deleteRow_present (s : State) (row : loc) (i : nat) :
  s.(previewData) !! i = Some row ->
  unique_temp_ids s ->
  JS.is_primitive (temp_id_of s.(store) row) = true ->
  let s' := deleteRow row s in
  let isDup := status_is "duplicate" (JS.deref s.(store) row) in
  let isNew := status_is "new" (JS.deref s.(store) row) in
  s'.(previewData) = delete i s.(previewData) /\
  ~ In row s'.(previewData) /\
  s'.(totalRows) = s.(totalRows) - 1 /\
  s'.(duplicatesCount) = (if isDup then s.(duplicatesCount) - 1 else s.(duplicatesCount)) /\
  s'.(newProductsCount) = (if isNew then s.(newProductsCount) - 1 else s.(newProductsCount)) /\
  s'.(hasDuplicates)
  = (if isDup && (s'.(duplicatesCount) =? 0) then false else s.(hasDuplicates)) /\
  s'.(store) = s.(store).
Proof.
  intros Hi Hu Hp s' isDup isNew.
  assert (Hnd : NoDup s.(previewData)) by exact (NoDup_fmap_1 _ _ Hu).
  pose proof (delete_NoDup_gone _ _ _ Hnd Hi) as Hgone.
  pose proof (findIndex_unique s row i Hi Hu Hp) as Hidx.
  pose proof (status_dup_not_new (JS.deref s.(store) row)) as Hdn.
  subst s' isDup isNew. unfold deleteRow. rewrite Hidx.
  replace (Z.of_nat i >? -1) with true by (symmetry; apply Z.gtb_lt; lia).
  unfold JS.splice1 in *. rewrite Nat2Z.id in *.
  destruct s as [h ws sf fn fs sh ss sss sp pd opd tr co hd dc np sdm sda er erc iu up um us es ge].
  simpl in *.
  destruct (status_is "duplicate" (JS.deref h row)) eqn:D; simpl.
  - rewrite (Hdn eq_refl).
    destruct (dc - 1 =? 0) eqn:Z0; simpl; rewrite ?Z0; repeat split; assumption.
  - destruct (status_is "new" (JS.deref h row)); simpl; repeat split; assumption.
Qed.

(** C10 on the example session: the row with [temp_id] 2 has been deleted;
    deleting it once more finds no row and changes nothing. *)
Lemma deleteRow_no_match_witness :
  deleteRow 2%positive (deleteRow 2%positive demoState) = deleteRow 2%positive demoState.
Proof.
  apply (deleteRow_no_match 2%positive (deleteRow 2%positive demoState)).
  intros r Hin. vm_compute in Hin. destruct Hin as [<-|[<-|[]]]; reflexivity.
Defined.

(** C4 on the example session: deleting the duplicate row Bolt. *)
Lemma deleteRow_present_witness :
  (deleteRow 1%positive demoState).(previewData) = [2%positive; 3%positive] /\
  (deleteRow 1%positive demoState).(totalRows) = 2 /\
  (deleteRow 1%positive demoState).(duplicatesCount) = 0 /\
  (deleteRow 1%positive demoState).(newProductsCount) = 1 /\
  (deleteRow 1%positive demoState).(hasDuplicates) = false.
Proof.
  assert (Hu : unique_temp_ids demoState).
  { unfold unique_temp_ids. apply NoDup_ListNoDup. vm_compute.
    repeat constructor; simpl; intuition discriminate. }
  destruct (deleteRow_present demoState 1%positive 0%nat eq_refl Hu eq_refl)
    as (H1 & _ & H3 & H4 & H5 & H6 & _).
  split; [exact H1|]. split; [exact H3|]. split; [exact H4|].
  split; [exact H5|]. rewrite H6. reflexivity.
Defined.

Example deleteRow_new_row :
  (deleteRow 2%positive demoState).(previewData) = [1%positive; 3%positive] /\
  (deleteRow 2%positive demoState).(newProductsCount) = 0 /\
  (deleteRow 2%positive demoState).(duplicatesCount) = 1 /\
  (deleteRow 2%positive demoState).(hasDuplicates) = true.
Proof. repeat split. Qed.

Example deleteRow_error_row :
  (deleteRow 3%positive demoState).(totalRows) = 2 /\
  (deleteRow 3%positive demoState).(newProductsCount) = 1 /\
  (deleteRow 3%positive demoState).(duplicatesCount) = 1.
Proof. repeat split. Qed.

(** The older [deleteRow] removes the same row and counts [totalRows] the
    same way; it leaves the store and the duplicate counters alone. *)
Lemma basic_deleteRow_agrees (row : loc) (s : State) :
  (InventoryBasic.deleteRow row s).(previewData) = (deleteRow row s).(previewData) /\
  (InventoryBasic.deleteRow row s).(totalRows) = (deleteRow row s).(totalRows) /\
  (InventoryBasic.deleteRow row s).(store) = s.(store) /\
  (InventoryBasic.deleteRow row s).(duplicatesCount) = s.(duplicatesCount) /\
  (InventoryBasic.deleteRow row s).(newProductsCount) = s.(newProductsCount) /\
  (InventoryBasic.deleteRow row s).(hasDuplicates) = s.(hasDuplicates).
Proof.
  unfold InventoryBasic.deleteRow, deleteRow.
  destruct (JS.findIndex (same_temp_id (store s) row) (previewData s) >? -1);
    [|repeat split].
  destruct s; simpl.
  destruct (status_is "duplicate" (JS.deref store0 row)); simpl;
    [destruct (duplicatesCount0 - 1 =? 0)
    |destruct (status_is "new" (JS.deref store0 row))];
    simpl; repeat split.
Qed.

End PreviewStore.

(** ** The edit transaction: [startEdit], writes, [cancelEdit] or [saveEdit] *)
Section EditTransaction.
Import Inventory.

Lemma set_store_same (s : State) : s <| store := s.(store) |> = s.
Proof. now destruct s. Qed.

Lemma set_store_twice (s : State) (h1 h2 : heap) :
  s <| store := h1 |> <| store := h2 |> = s <| store := h2 |>.
Proof. now destruct s. Qed.

Lemma store_set_store (s : State) (h : heap) : (s <| store := h |>).(store) = h.
Proof. now destruct s. Qed.

(** Writes change the store only. *)
Lemma writes_frame (row : loc) (ws : list (string * jsval)) (s : State) :
  writes row ws s = s <| store := (writes row ws s).(store) |>.
Proof.
  revert s. induction ws as [|[k v] ws IH]; intros s; simpl.
  - symmetry. apply set_store_same.
  - unfold writes in *. simpl. rewrite IH at 1. unfold writeField at 2.
    apply set_store_twice.
Qed.

Lemma writes_store_lookup (row : loc) (ws : list (string * jsval)) (s : State) (l : loc) :
  (writes row ws s).(store) !! l
  = if decide (row = l) then assign_all ws <$> s.(store) !! l else s.(store) !! l.
Proof.
  revert s. induction ws as [|[k v] ws IH]; intros s.
  - simpl. destruct (decide (row = l)); [|reflexivity].
    unfold assign_all. simpl. now rewrite option_fmap_id.
  - unfold writes, assign_all in *. simpl. rewrite IH. unfold writeField, JS.write.
    rewrite store_set_store, lookup_alter.
    destruct (decide (row = l)) as [<-|]; [|reflexivity].
    now destruct (store s !! row).
Qed.

Lemma assign_all_lookup_other (ws : list (string * jsval)) (o : obj) (k : string) :
  (forall kv, In kv ws -> kv.1 <> k) -> assign_all ws o !! k = o !! k.
Proof.
  revert o. induction ws as [|[k' v] ws IH]; intros o H; [reflexivity|].
  unfold assign_all in *. simpl. rewrite IH.
  - apply lookup_insert_ne. apply (H (k', v)). now left.
  - intros kv Hin. apply H. now right.
Qed.

(** What the whole transaction leaves in the store. *)
Lemma edit_cancel_store (s : State) (row : loc) (ws : list (string * jsval)) (o : obj) :
  s.(store) !! row = Some o ->
  let s' := cancelEdit (writes row ws (startEdit row s)) in
  s'.(store) !! row = Some (o ∪ assign_all ws o) /\
  (forall l, l <> row -> is_Some (s.(store) !! l) -> s'.(store) !! l = s.(store) !! l) /\
  s' = s <| store := s'.(store) |> <| editingRow := None |> <| editingRowCopy := None |>.
Proof.
  intros Hrow s'.
  set (copy := fresh (dom s.(store))).
  assert (Hfresh : s.(store) !! copy = None)
    by (apply not_elem_of_dom, is_fresh).
  assert (Hne : row <> copy) by (intros ->; congruence).
  assert (Hstart : startEdit row s
            = s <| store := <[copy := o]> s.(store) |>
                <| editingRow := Some row |> <| editingRowCopy := Some copy |>).
  { unfold startEdit, JS.alloc, JS.deref. now rewrite Hrow. }
  set (s1 := startEdit row s) in *.
  set (s2 := writes row ws s1) in *.
  assert (H2 : s2 = s1 <| store := s2.(store) |>) by apply writes_frame.
  assert (L2 : forall l, s2.(store) !! l
                 = if decide (row = l) then assign_all ws <$> s1.(store) !! l
                   else s1.(store) !! l) by (intros l; apply writes_store_lookup).
  assert (S1 : s1.(store) = <[copy := o]> s.(store))
    by (rewrite Hstart; now destruct s).
  assert (E2 : s2.(editingRow) = Some row /\ s2.(editingRowCopy) = Some copy).
  { rewrite H2, Hstart. now destruct s. }
  destruct E2 as [Er Ec].
  assert (Hcopy : JS.deref s2.(store) copy = o).
  { unfold JS.deref. rewrite L2. destruct (decide (row = copy)); [contradiction|].
    now rewrite S1, lookup_insert_eq. }
  assert (Hs' : s' = s2 <| store := JS.object_assign row copy s2.(store) |>
                        <| editingRow := None |> <| editingRowCopy := None |>).
  { subst s'. unfold cancelEdit. now rewrite Er, Ec. }
  assert (St : s'.(store) = JS.object_assign row copy s2.(store)).
  { rewrite Hs'. now destruct s2. }
  split; [|split].
  - rewrite St. unfold JS.object_assign. rewrite lookup_alter_eq, Hcopy, L2.
    destruct (decide (row = row)); [|contradiction].
    rewrite S1, lookup_insert_ne by (intros E; apply Hne; now symmetry).
    now rewrite Hrow.
  - intros l Hl Hsome. rewrite St. unfold JS.object_assign.
    rewrite lookup_alter_ne by (intros E; apply Hl; now symmetry).
    rewrite L2. destruct (decide (row = l)) as [E|_]; [exfalso; apply Hl; now symmetry|].
    rewrite S1. apply lookup_insert_ne. intros <-.
    rewrite Hfresh in Hsome. now destruct Hsome.
  - rewrite Hs', H2, Hstart. now destruct s.
Qed.

(** C9: [startEdit], any writes to the row's properties, then [cancelEdit]:
    every property the row had before the edit ([name], [description],
    [price], [quantity], [status], [existing_id], [temp_id], and any other)
    has its value from before the edit; when the writes went to properties
    the row had, the row object is exactly as before.  The other rows are
    untouched, no row is left under edit, and the rest of the state is as it
    was. *)
Theorem cancelEdit_restores (s : State) (row : loc) (ws : list (string * jsval)) :
  is_Some (s.(store) !! row) ->
  let s' := cancelEdit (writes row ws (startEdit row s)) in
  (forall k v, JS.deref s.(store) row !! k = Some v ->
               JS.deref s'.(store) row !! k = Some v) /\
  ((forall kv, In kv ws -> is_Some (JS.deref s.(store) row !! kv.1)) ->
   JS.deref s'.(store) row = JS.deref s.(store) row) /\
  (forall l, l <> row -> is_Some (s.(store) !! l) -> s'.(store) !! l = s.(store) !! l) /\
  s'.(editingRow) = None /\
  s'.(editingRowCopy) = None /\
  s' = s <| store := s'.(store) |> <| editingRow := None |> <| editingRowCopy := None |>.
Proof.
  intros [o Ho] s'.
  destruct (edit_cancel_store s row ws o Ho) as (Hrow & Hother & Hrest).
  fold s' in Hrow, Hother, Hrest.
  assert (D : JS.deref s.(store) row = o) by (unfold JS.deref; now rewrite Ho).
  assert (D' : JS.deref s'.(store) row = o ∪ assign_all ws o)
    by (unfold JS.deref; now rewrite Hrow).
  rewrite D, D'. repeat split.
  - intros k v Hk. rewrite lookup_union_l' by (now exists v). exact Hk.
  - intros Hws. apply map_eq. intros k. destruct (o !! k) as [v|] eqn:Hk.
    + rewrite lookup_union_l' by (now exists v). exact Hk.
    + rewrite lookup_union_r by exact Hk.
      rewrite assign_all_lookup_other; [exact Hk|].
      intros kv Hin <-. apply Hws in Hin. rewrite Hk in Hin. now destruct Hin.
  - exact Hother.
  - rewrite Hrest. now destruct s.
  - rewrite Hrest. now destruct s.
  - exact Hrest.
Qed.

(** C9 on the example session: the row Nut is renamed and repriced, and the
    edit is cancelled. *)
Lemma cancelEdit_restores_witness :
  JS.deref
    (cancelEdit
       (writes 2%positive [("name", JStr "Washer"); ("price", JNum 9)]
          (startEdit 2%positive demoState))).(store) 2%positive
  = JS.deref demoState.(store) 2%positive.
Proof.
  assert (Hrow : is_Some (demoState.(store) !! 2%positive))
    by (vm_compute; eauto).
  destruct (cancelEdit_restores demoState 2%positive
              [("name", JStr "Washer"); ("price", JNum 9)] Hrow)
    as (_ & Hsame & _).
  apply Hsame. intros kv [<-|[<-|[]]]; vm_compute; eauto.
Defined.

Example cancelEdit_new_property_stays :
  JS.get
    (JS.deref
       (cancelEdit
          (writes 2%positive [("note", JStr "x"); ("name", JStr "Washer")]
             (startEdit 2%positive demoState))).(store) 2%positive) "note"
  = JStr "x" /\
  JS.get
    (JS.deref
       (cancelEdit
          (writes 2%positive [("note", JStr "x"); ("name", JStr "Washer")]
             (startEdit 2%positive demoState))).(store) 2%positive) "name"
  = JStr "Nut".
Proof. split; reflexivity. Qed.

(** The state after a saved change of one property. *)
Lemma edit_save_store (s : State) (row : loc) (k : string) (v : jsval) (o : obj) :
  s.(store) !! row = Some o ->
  let s' := saveEdit (writeField row k v (startEdit row s)) in
  s'.(store) !! row = Some (<[k := v]> o) /\
  s' = s <| store := s'.(store) |> <| editingRow := None |> <| editingRowCopy := None |>.
Proof.
  intros Hrow s'.
  assert (Hfresh : s.(store) !! fresh (dom s.(store)) = None)
    by (apply not_elem_of_dom, is_fresh).
  assert (Hne : fresh (dom s.(store)) <> row) by (intros E; congruence).
  subst s'. unfold saveEdit, writeField, startEdit, JS.alloc, JS.write, JS.deref.
  rewrite Hrow. destruct s; simpl in *. split; [|reflexivity].
  rewrite lookup_alter_eq, lookup_insert_ne by exact Hne. now rewrite Hrow.
Qed.

(** C2, as the code has it: a change of the row's name saved with [saveEdit]
    stores the new name and leaves the row's status and [existing_id] as
    they were before the edit, whatever the catalog holds; the counters of
    the session are not touched either.  Nothing on the client classifies a
    row: the status is the one the server gave when it built the preview. *)
Theorem saveEdit_keeps_status (s : State) (row : loc) (n : string) :
  is_Some (s.(store) !! row) ->
  let s' := saveEdit (writeField row "name" (JStr n) (startEdit row s)) in
  JS.get (JS.deref s'.(store) row) "name" = JStr n /\
  JS.get (JS.deref s'.(store) row) "status" = JS.get (JS.deref s.(store) row) "status" /\
  JS.get (JS.deref s'.(store) row) "existing_id"
  = JS.get (JS.deref s.(store) row) "existing_id" /\
  s'.(hasDuplicates) = s.(hasDuplicates) /\
  s'.(duplicatesCount) = s.(duplicatesCount) /\
  s'.(newProductsCount) = s.(newProductsCount).
Proof.
  intros [o Ho] s'.
  destruct (edit_save_store s row "name" (JStr n) o Ho) as [Hrow Hrest].
  fold s' in Hrow, Hrest.
  unfold JS.get, JS.deref. rewrite Hrow, Ho. simpl.
  rewrite lookup_insert_eq, !lookup_insert_ne by discriminate.
  repeat split; rewrite Hrest; now destruct s.
Qed.

(** C2 on the example session: the row Nut is renamed to Bolt and saved. *)
Lemma saveEdit_keeps_status_witness :
  JS.get (JS.deref Scenario.demoRenamed.(store) 2%positive) "name" = JStr "Bolt" /\
  JS.get (JS.deref Scenario.demoRenamed.(store) 2%positive) "status" = JStr "new".
Proof.
  assert (Hrow : is_Some (demoState.(store) !! 2%positive))
    by (vm_compute; eauto).
  destruct (saveEdit_keeps_status demoState 2%positive "Bolt" Hrow)
    as (Hname & Hstatus & _).
  split; [exact Hname | etransitivity; [exact Hstatus | reflexivity]].
Defined.

(** The claim C2 fails on the example session: before the edit the status of
    the row Nut is the one the resolver gives it; after the row is renamed
    to Bolt and saved, the resolver gives its fields the status duplicate,
    and the row still carries the status new. *)
Lemma status_not_recomputed_on_save :
  Scenario.status_current Scenario.demoCatalog
    (JS.deref demoState.(store) 2%positive) = true /\
  JS.get (JS.deref Scenario.demoRenamed.(store) 2%positive) "name" = JStr "Bolt" /\
  Spec.classifyRow Scenario.demoCatalog
    (JS.deref Scenario.demoRenamed.(store) 2%positive) = "duplicate" /\
  JS.get (JS.deref Scenario.demoRenamed.(store) 2%positive) "status" = JStr "new" /\
  Scenario.status_current Scenario.demoCatalog
    (JS.deref Scenario.demoRenamed.(store) 2%positive) = false.
Proof. repeat split. Qed.

End EditTransaction.

(** ** The snapshot of the preview and [resetUploadState] *)
Section Snapshot.
Import Inventory.

(** Allocation keeps the objects that exist; the new references were not
    in use, and hold the given objects. *)
Lemma alloc_list_spec (os : list obj) (h h' : heap) (ls : list loc) :
  JS.alloc_list os h = (h', ls) ->
  (forall l, is_Some (h !! l) -> h' !! l = h !! l) /\
  (forall l, In l ls -> h !! l = None /\ is_Some (h' !! l)) /\
  (fun l => h' !! l) <$> ls = Some <$> os.
Proof.
  revert h h' ls. induction os as [|o os IH]; intros h h' ls E; simpl in E.
  - injection E as <- <-. split; [auto|]. split; [intros x []|reflexivity].
  - destruct (JS.alloc_list os (<[fresh (dom h) := o]> h)) as [h2 ls2] eqn:E2.
    injection E as <- <-.
    destruct (IH _ _ _ E2) as (Hold & Hnew & Hcont).
    assert (Hfresh : h !! fresh (dom h) = None) by (apply not_elem_of_dom, is_fresh).
    assert (Hhead : h2 !! fresh (dom h) = Some o).
    { rewrite Hold; rewrite lookup_insert_eq; eauto. }
    split; [|split].
    + intros l Hl. rewrite Hold.
      * apply lookup_insert_ne. intros <-. rewrite Hfresh in Hl. now destruct Hl.
      * rewrite lookup_insert_ne; [exact Hl|].
        intros <-. rewrite Hfresh in Hl. now destruct Hl.
    + intros l [<-|Hin].
      * split; [exact Hfresh | rewrite Hhead; eauto].
      * destruct (Hnew l Hin) as [Hn Hs]. split; [|exact Hs].
        apply lookup_insert_None in Hn. tauto.
    + now rewrite !fmap_cons, Hhead, Hcont.
Qed.

Lemma startEdit_parts (row : loc) (s : State) :
  (startEdit row s).(store)
  = <[fresh (dom s.(store)) := JS.deref s.(store) row]> s.(store) /\
  (startEdit row s).(previewData) = s.(previewData) /\
  (startEdit row s).(originalPreviewData) = s.(originalPreviewData) /\
  (startEdit row s).(editingRow) = Some row.
Proof. now destruct s. Qed.

Lemma writeField_parts (row : loc) (k : string) (v : jsval) (s : State) :
  (writeField row k v s).(store) = JS.write row k v s.(store) /\
  (writeField row k v s).(previewData) = s.(previewData) /\
  (writeField row k v s).(originalPreviewData) = s.(originalPreviewData) /\
  (writeField row k v s).(editingRow) = s.(editingRow).
Proof. now destruct s. Qed.

Lemma cancelEdit_parts (s : State) :
  (cancelEdit s).(store)
  = match s.(editingRow), s.(editingRowCopy) with
    | Some row, Some copy => JS.object_assign row copy s.(store)
    | _, _ => s.(store)
    end /\
  (cancelEdit s).(previewData) = s.(previewData) /\
  (cancelEdit s).(originalPreviewData) = s.(originalPreviewData) /\
  (cancelEdit s).(editingRow) = None.
Proof.
  unfold cancelEdit. destruct s; simpl.
  destruct editingRow0, editingRowCopy0; repeat split.
Qed.

Lemma delete_subset {A} (l : list A) (i : nat) (x : A) :
  In x (delete i l) -> In x l.
Proof.
  intros H. apply list_elem_of_In. apply list_elem_of_In in H.
  eapply elem_of_sublist; [exact H | apply sublist_delete].
Qed.

Lemma deleteRow_parts (row : loc) (s : State) :
  (deleteRow row s).(store) = s.(store) /\
  (deleteRow row s).(originalPreviewData) = s.(originalPreviewData) /\
  (deleteRow row s).(editingRow) = s.(editingRow) /\
  (forall l, In l (deleteRow row s).(previewData) -> In l s.(previewData)).
Proof.
  unfold deleteRow.
  destruct (JS.findIndex (same_temp_id (store s) row) (previewData s) >? -1);
    [|repeat split; auto].
  destruct s; simpl.
  destruct (status_is "duplicate" (JS.deref store0 row)); simpl;
    [destruct (duplicatesCount0 - 1 =? 0)
    |destruct (status_is "new" (JS.deref store0 row))];
    simpl; repeat split; auto; apply delete_subset.
Qed.

(** A step keeps the snapshot when it writes to no snapshot object, adds no
    staged row, and puts under edit only a staged row. *)
Lemma snapshot_intact_step (snap : list loc) (h0 : heap) (s s' : State) :
  snapshot_intact snap h0 s ->
  s'.(originalPreviewData) = s.(originalPreviewData) ->
  (forall l, In l snap -> s'.(store) !! l = s.(store) !! l) ->
  (forall l, In l s'.(previewData) -> In l s.(previewData)) ->
  (forall l, s'.(editingRow) = Some l ->
             s.(editingRow) = Some l \/ In l s.(previewData)) ->
  snapshot_intact snap h0 s'.
Proof.
  intros (Ho & Hs & Hp & He) Ho' Hs' Hp' He'. repeat split.
  - congruence.
  - rewrite Hs' by assumption. now apply Hs.
  - now apply Hs.
  - intros l Hl. apply Hp. now apply Hp'.
  - intros l Hl. destruct (He' l Hl) as [H|H]; [now apply He | now apply Hp].
Qed.

(** No operation on the preview writes to an object of the snapshot. *)
Lemma applyOp_snapshot (snap : list loc) (h0 : heap) (op : PreviewOp) (s : State) :
  snapshot_intact snap h0 s -> snapshot_intact snap h0 (applyOp op s).
Proof.
  intros Hinv. pose proof Hinv as (Ho & Hs & Hp & He).
  assert (Hdom : forall l, In l snap -> is_Some (s.(store) !! l)).
  { intros l Hl. destruct (Hs l Hl) as [-> ?]. assumption. }
  destruct op as [i|k v| | |i]; simpl.
  - destruct (previewData s !! i) as [row|] eqn:Hi; [|exact Hinv].
    destruct (startEdit_parts row s) as (Est & Epd & Eo & Eer).
    apply (snapshot_intact_step snap h0 s); auto.
    + intros l Hl. rewrite Est. apply lookup_insert_ne. intros E.
      specialize (Hdom l Hl). rewrite <- E in Hdom.
      assert (Hf : store s !! fresh (dom (store s)) = None)
        by (apply not_elem_of_dom, is_fresh).
      rewrite Hf in Hdom. now destruct Hdom.
    + intros l. now rewrite Epd.
    + intros l. rewrite Eer. intros [= <-]. right. apply list_elem_of_In.
      eapply list_elem_of_lookup_2. exact Hi.
  - destruct (editingRow s) as [row|] eqn:Er; [|exact Hinv].
    destruct (writeField_parts row k v s) as (Est & Epd & Eo & Eer).
    apply (snapshot_intact_step snap h0 s); auto.
    + intros l Hl. rewrite Est. unfold JS.write. apply lookup_alter_ne.
      intros <-. now apply (He row).
    + intros l. now rewrite Epd.
    + intros l. rewrite Eer, Er. auto.
  - destruct (cancelEdit_parts s) as (Est & Epd & Eo & Eer).
    apply (snapshot_intact_step snap h0 s); auto.
    + intros l Hl. rewrite Est.
      destruct (editingRow s) as [row|] eqn:Er; [|reflexivity].
      destruct (editingRowCopy s) as [copy|]; [|reflexivity].
      unfold JS.object_assign. apply lookup_alter_ne.
      intros <-. now apply (He row).
    + intros l. now rewrite Epd.
    + intros l. rewrite Eer. discriminate.
  - apply (snapshot_intact_step snap h0 s); auto; destruct s; simpl; auto.
    discriminate.
  - destruct (previewData s !! i) as [row|] eqn:Hi; [|exact Hinv].
    destruct (deleteRow_parts row s) as (Est & Eo & Eer & Hsub).
    apply (snapshot_intact_step snap h0 s); auto.
    + intros l Hl. now rewrite Est.
    + intros l. rewrite Eer. auto.
Qed.

Lemma applyOps_snapshot (snap : list loc) (h0 : heap) (ops : list PreviewOp) (s : State) :
  snapshot_intact snap h0 s -> snapshot_intact snap h0 (applyOps ops s).
Proof.
  revert s. induction ops as [|op ops IH]; intros s Hs; [exact Hs|].
  unfold applyOps in *. simpl. apply IH. now apply applyOp_snapshot.
Qed.

Lemma onPreviewResponse_parts (r : PreviewResponse) (s : State)
      (h1 h2 : heap) (rows copies : list loc) :
  r.(success) = true ->
  JS.alloc_list r.(preview_rows) s.(store) = (h1, rows) ->
  JS.alloc_list (map JS.json_copy_obj r.(preview_rows)) h1 = (h2, copies) ->
  (onPreviewResponse r s).(store) = h2 /\
  (onPreviewResponse r s).(previewData) = rows /\
  (onPreviewResponse r s).(originalPreviewData) = copies /\
  (onPreviewResponse r s).(editingRow) = s.(editingRow) /\
  (onPreviewResponse r s).(totalRows) = r.(total_rows) /\
  (onPreviewResponse r s).(hasDuplicates) = r.(has_duplicates) /\
  (onPreviewResponse r s).(duplicatesCount) = r.(duplicates_found) /\
  (onPreviewResponse r s).(newProductsCount) = r.(new_products).
Proof.
  intros Hok E1 E2. unfold onPreviewResponse. rewrite Hok, E1, E2.
  destruct s; simpl. destruct (has_duplicates r); simpl; repeat split.
Qed.

Lemma deref_of_lookups (h : heap) (ls : list loc) (os : list obj) :
  (fun l => h !! l) <$> ls = Some <$> os -> JS.deref h <$> ls = os.
Proof.
  revert os. induction ls as [|l ls IH]; intros [|o os] E; try discriminate.
  - reflexivity.
  - rewrite !fmap_cons in E. injection E as E1 E2.
    rewrite fmap_cons. unfold JS.deref at 1. rewrite E1. simpl. f_equal. now apply IH.
Qed.

(** After the preview is loaded, the snapshot holds a JSON copy of the
    preview rows, in objects of its own. *)
Lemma onPreviewResponse_snapshot (r : PreviewResponse) (s : State) :
  r.(success) = true ->
  (forall l, s.(editingRow) = Some l -> is_Some (s.(store) !! l)) ->
  let s0 := onPreviewResponse r s in
  snapshot_intact s0.(originalPreviewData) s0.(store) s0 /\
  JS.deref s0.(store) <$> s0.(originalPreviewData)
  = map JS.json_copy_obj r.(preview_rows).
Proof.
  intros Hok Hwf s0.
  destruct (JS.alloc_list r.(preview_rows) s.(store)) as [h1 rows] eqn:E1.
  destruct (JS.alloc_list (map JS.json_copy_obj r.(preview_rows)) h1)
    as [h2 copies] eqn:E2.
  destruct (onPreviewResponse_parts r s h1 h2 rows copies Hok E1 E2)
    as (Est & Epd & Eo & Eer & _).
  fold s0 in Est, Epd, Eo, Eer. rewrite Est, Eo.
  destruct (alloc_list_spec _ _ _ _ E1) as (Hold1 & Hnew1 & _).
  destruct (alloc_list_spec _ _ _ _ E2) as (Hold2 & Hnew2 & Hcont2).
  split; [|now apply deref_of_lookups].
  repeat split.
  - exact Eo.
  - now rewrite Est.
  - now apply Hnew2.
  - rewrite Epd. intros l Hl Hc.
    destruct (Hnew1 l Hl) as [_ Hsome]. destruct (Hnew2 l Hc) as [Hnone _].
    rewrite Hnone in Hsome. now destruct Hsome.
  - rewrite Eer. intros l Hl Hc.
    pose proof (Hwf l Hl) as Hsome. rewrite <- (Hold1 l Hsome) in Hsome.
    destruct (Hnew2 l Hc) as [Hnone _]. rewrite Hnone in Hsome. now destruct Hsome.
Qed.

Lemma resetUploadState_clears (s : State) :
  (resetUploadState s).(previewData) = [] /\
  (resetUploadState s).(originalPreviewData) = [] /\
  (resetUploadState s).(totalRows) = 0 /\
  (resetUploadState s).(duplicatesCount) = 0 /\
  (resetUploadState s).(newProductsCount) = 0 /\
  (resetUploadState s).(hasDuplicates) = false.
Proof. now destruct s. Qed.

(** C5, as the code has it: the component has no operation that restores
    the preview.  After the preview is loaded and any sequence of edits and
    deletions is applied, [originalPreviewData] still holds the JSON copy of
    the preview rows taken when the preview was loaded, untouched; and
    [resetUploadState], the only reset, empties [previewData] and
    [originalPreviewData] and sets [totalRows], [duplicatesCount] and
    [newProductsCount] to zero and [hasDuplicates] to false. *)
Theorem reset_clears_and_snapshot_stays
        (r : PreviewResponse) (s : State) (ops : list PreviewOp) :
  r.(success) = true ->
  (forall l, s.(editingRow) = Some l -> is_Some (s.(store) !! l)) ->
  let s1 := applyOps ops (onPreviewResponse r s) in
  JS.deref s1.(store) <$> s1.(originalPreviewData)
  = map JS.json_copy_obj r.(preview_rows) /\
  (resetUploadState s1).(previewData) = [] /\
  (resetUploadState s1).(originalPreviewData) = [] /\
  (resetUploadState s1).(totalRows) = 0 /\
  (resetUploadState s1).(duplicatesCount) = 0 /\
  (resetUploadState s1).(newProductsCount) = 0 /\
  (resetUploadState s1).(hasDuplicates) = false.
Proof.
  intros Hok Hwf s1. split; [|apply resetUploadState_clears].
  destruct (onPreviewResponse_snapshot r s Hok Hwf) as [Hinv Hcopy].
  pose proof (applyOps_snapshot _ _ ops _ Hinv) as (Ho & Hs & _).
  fold s1 in Ho, Hs. rewrite Ho, <- Hcopy.
  apply list_eq. intros i. rewrite !list_lookup_fmap.
  destruct (originalPreviewData (onPreviewResponse r s) !! i) as [l|] eqn:Hi;
    [|reflexivity].
  simpl. f_equal. unfold JS.deref. f_equal. apply Hs.
  apply list_elem_of_In. eapply list_elem_of_lookup_2. exact Hi.
Qed.

(** C5 on the example session: after a saved edit, a cancelled edit and a
    deletion the snapshot still has the three rows as loaded, and the reset
    leaves an empty preview. *)
Lemma reset_clears_and_snapshot_stays_witness :
  JS.deref (applyOps Scenario.demoOps demoState).(store)
    <$> (applyOps Scenario.demoOps demoState).(originalPreviewData)
  = map JS.json_copy_obj demoResponse.(preview_rows) /\
  (resetUploadState (applyOps Scenario.demoOps demoState)).(previewData) = [].
Proof.
  assert (Hwf : forall l, (initial <| wsOpen := true |>).(editingRow) = Some l ->
                          is_Some ((initial <| wsOpen := true |>).(store) !! l))
    by (simpl; discriminate).
  destruct (reset_clears_and_snapshot_stays demoResponse (initial <| wsOpen := true |>)
              Scenario.demoOps eq_refl Hwf) as (Hsnap & Hpd & _).
  split; [exact Hsnap | exact Hpd].
Defined.

(** The claim C5 fails on the example session: after the edits and the
    deletion, the reset leaves no staged row and zero counters, where the
    snapshot taken after the preview has three rows, one duplicate and one
    new product. *)
Lemma reset_does_not_restore :
  (resetUploadState (applyOps Scenario.demoOps demoState)).(previewData) = [] /\
  demoState.(previewData) = [1%positive; 2%positive; 3%positive] /\
  (resetUploadState (applyOps Scenario.demoOps demoState)).(totalRows) = 0 /\
  demoState.(totalRows) = 3 /\
  (resetUploadState (applyOps Scenario.demoOps demoState)).(duplicatesCount) = 0 /\
  demoState.(duplicatesCount) = 1 /\
  (resetUploadState (applyOps Scenario.demoOps demoState)).(newProductsCount) = 0 /\
  demoState.(newProductsCount) = 1.
Proof. repeat split. Qed.

Example demoOps_effect :
  (applyOps Scenario.demoOps demoState).(previewData) = [2%positive; 3%positive] /\
  JS.get (JS.deref (applyOps Scenario.demoOps demoState).(store) 2%positive) "name"
  = JStr "Washer" /\
  JS.get (JS.deref (applyOps Scenario.demoOps demoState).(store) 3%positive) "price"
  = JStr "abc" /\
  (applyOps Scenario.demoOps demoState).(totalRows) = 2 /\
  (applyOps Scenario.demoOps demoState).(duplicatesCount) = 0.
Proof. repeat split. Qed.

End Snapshot.

(** ** The commit command *)
Section CommitCommand.
Import Inventory.

Lemma selectDuplicateAction_sets (a : string) (s : State) :
  (selectDuplicateAction a s).(selectedDuplicateAction) = a /\
  (selectDuplicateAction a s).(wsOpen) = s.(wsOpen) /\
  (selectDuplicateAction a s).(previewData) = s.(previewData) /\
  (selectDuplicateAction a s).(store) = s.(store).
Proof. now destruct s. Qed.

Lemma confirmUpload_closed (s : State) :
  s.(wsOpen) = false -> Channel.sent (confirmUpload s).2 = [].
Proof. intros H. unfold confirmUpload. now rewrite H. Qed.

(** C6, as the code has it: a confirmed commit with the channel open sends
    exactly one message, the object with the keys [action], [rows] and
    [duplicate_action] in this order: the action is start_upload, the rows
    are the staged rows as they are now, and [duplicate_action] carries the
    selected duplicate action, which is skip until [selectDuplicateAction]
    sets another, and is then whatever string that call was given. *)
Theorem confirmUpload_sends_command (s : State) :
  s.(wsOpen) = true ->
  (confirmUpload s).2
  = [WsSend [("action", PStr "start_upload");
             ("rows", PRows (map (JS.deref s.(store)) s.(previewData)));
             ("duplicate_action", PStr s.(selectedDuplicateAction))]] /\
  (forall a : string,
      (confirmUpload (selectDuplicateAction a s)).2
      = [WsSend [("action", PStr "start_upload");
                 ("rows", PRows (map (JS.deref s.(store)) s.(previewData)));
                 ("duplicate_action", PStr a)]]) /\
  initial.(selectedDuplicateAction) = "skip" /\
  (resetUploadState s).(selectedDuplicateAction) = "skip".
Proof.
  intros Hopen. split; [|split; [|split]].
  - unfold confirmUpload. rewrite Hopen. now destruct s.
  - intros a. unfold confirmUpload, selectDuplicateAction.
    destruct s; simpl in *. now rewrite Hopen.
  - reflexivity.
  - now destruct s.
Qed.

(** C6 on the example session, with the duplicate action set to update. *)
Lemma confirmUpload_sends_command_witness :
  Channel.sent (confirmUpload (selectDuplicateAction "update" demoState)).2
  = [[("action", PStr "start_upload");
      ("rows", PRows (map (JS.deref demoState.(store)) demoState.(previewData)));
      ("duplicate_action", PStr "update")]].
Proof.
  destruct (confirmUpload_sends_command demoState eq_refl) as (_ & Hsel & _).
  now rewrite (Hsel "update").
Defined.

(** The claim C6 fails on the example session: the one message sent has no
    key [duplicateAction]; the duplicate action travels under
    [duplicate_action]. *)
Lemma duplicateAction_key_absent :
  length (Channel.sent (confirmUpload demoState).2) = 1%nat /\
  Channel.field "duplicateAction" <$> Channel.sent (confirmUpload demoState).2 = [None] /\
  Channel.field "duplicate_action" <$> Channel.sent (confirmUpload demoState).2
  = [Some (PStr "skip")].
Proof. repeat split. Qed.

(** The older [confirmUpload] sends the action and the rows, and no
    duplicate action under either name. *)
Lemma basic_confirmUpload_sends (s : State) :
  s.(wsOpen) = true ->
  (InventoryBasic.confirmUpload s).2
  = [WsSend [("action", PStr "start_upload");
             ("rows", PRows (map (JS.deref s.(store)) s.(previewData)))]].
Proof.
  intros Hopen. unfold InventoryBasic.confirmUpload. rewrite Hopen. now destruct s.
Qed.

End CommitCommand.

(** ** The commit loop of the specification *)
Section Commit.
Import Spec.
Context {C : Type} `{CatalogStore C}.

Lemma createRow_counts (row : StagedRow) (r : Running C) :
  processed (createRow row r).(run_stats) = processed r.(run_stats) + 1.
Proof.
  unfold createRow. destruct (create row (run_store r)) as [[id c]|];
    unfold processed; simpl; lia.
Qed.

(** Every row moves exactly one counter by one. *)
Lemma processRow_counts (action : DuplicateAction) (row : StagedRow) (r : Running C) :
  processed (processRow action row r).(run_stats) = processed r.(run_stats) + 1.
Proof.
  unfold processRow.
  destruct (status row); [apply createRow_counts | | unfold processed; simpl; lia].
  destruct action; [unfold processed; simpl; lia | | apply createRow_counts].
  destruct (existing_id row) as [id|]; [|unfold processed; simpl; lia].
  destruct (find id (run_store r)); [|unfold processed; simpl; lia].
  destruct (update id row (run_store r)); unfold processed; simpl; lia.
Qed.

(** Every failure leaves its message: the error list grows with the count. *)
Lemma processRow_errors (action : DuplicateAction) (row : StagedRow) (r : Running C) :
  Z.of_nat (length r.(run_errors)) = r.(run_stats).(errors_count) ->
  Z.of_nat (length (processRow action row r).(run_errors))
  = (processRow action row r).(run_stats).(errors_count).
Proof.
  intros Hr.
  assert (Hf : forall msg, Z.of_nat (length (failed msg r).(run_errors))
                           = (failed msg r).(run_stats).(errors_count)).
  { intros msg. simpl. rewrite length_app. simpl. lia. }
  assert (Hc : Z.of_nat (length (createRow row r).(run_errors))
               = (createRow row r).(run_stats).(errors_count)).
  { unfold createRow. destruct (create row (run_store r)) as [[id c]|];
      [exact Hr | apply Hf]. }
  unfold processRow.
  destruct (status row); [exact Hc | | apply Hf].
  destruct action; [exact Hr | | exact Hc].
  destruct (existing_id row) as [id|]; [|apply Hf].
  destruct (find id (run_store r)); [|apply Hf].
  destruct (update id row (run_store r)); [exact Hr | apply Hf].
Qed.

Lemma processRows_counts (action : DuplicateAction) (total : Z)
      (rows : list StagedRow) (r : Running C) :
  processed (processRows action total rows r).1.(run_stats)
  = processed r.(run_stats) + Z.of_nat (length rows).
Proof.
  revert r. induction rows as [|row rows IH]; intros r; simpl; [lia|].
  specialize (IH (processRow action row r)).
  destruct (processRows action total rows (processRow action row r)) as [r2 evs].
  simpl in *. rewrite IH, processRow_counts. lia.
Qed.

Lemma processRows_errors (action : DuplicateAction) (total : Z)
      (rows : list StagedRow) (r : Running C) :
  Z.of_nat (length r.(run_errors)) = r.(run_stats).(errors_count) ->
  Z.of_nat (length (processRows action total rows r).1.(run_errors))
  = (processRows action total rows r).1.(run_stats).(errors_count).
Proof.
  revert r. induction rows as [|row rows IH]; intros r Hr; simpl; [exact Hr|].
  specialize (IH (processRow action row r) (processRow_errors action row r Hr)).
  destruct (processRows action total rows (processRow action row r)) as [r2 evs].
  exact IH.
Qed.

Lemma insert_by_temp_id_length (row : StagedRow) (rows : list StagedRow) :
  length (insert_by_temp_id row rows) = S (length rows).
Proof.
  induction rows as [|x rows IH]; simpl; [reflexivity|].
  destruct (temp_id row <? temp_id x); simpl; [reflexivity | now rewrite IH].
Qed.

Lemma in_temp_id_order_length (rows : list StagedRow) :
  length (in_temp_id_order rows) = length rows.
Proof.
  induction rows as [|x rows IH]; simpl; [reflexivity|].
  now rewrite insert_by_temp_id_length, IH.
Qed.

Lemma terminalSummary_counts (action : DuplicateAction) (rows : list StagedRow) (c : C) :
  exists st : UploadStats,
    terminalSummary action rows c = Some st /\
    st.(created) + st.(updated) + st.(skipped) + st.(errors_count)
    = Z.of_nat (length rows).
Proof.
  unfold terminalSummary, commit.
  set (start := {| run_store := c; run_stats := _; run_errors := [] |}).
  pose proof (processRows_counts action (Z.of_nat (length rows))
                (in_temp_id_order rows) start) as Hn.
  destruct (processRows action (Z.of_nat (length rows)) (in_temp_id_order rows) start)
    as [r evs].
  simpl in *. rewrite last_snoc. simpl. exists (run_stats r). split; [reflexivity|].
  rewrite in_temp_id_order_length in Hn. unfold processed in Hn. simpl in Hn. lia.
Qed.

(** C1: the terminal summary of a commit exists and its four counters add up
    to the number of rows of that commit, whatever the catalog store does;
    a row taken out of the preview before the commit is not in the command
    and not in the sum, which is then one less. *)
Theorem commit_summary_counts_rows
        (action : DuplicateAction) (rows : list StagedRow) (c : C) :
  (exists st : UploadStats,
      terminalSummary action rows c = Some st /\
      st.(created) + st.(updated) + st.(skipped) + st.(errors_count)
      = Z.of_nat (length rows)) /\
  (forall (pre post : list StagedRow) (removed : StagedRow),
      exists st : UploadStats,
        terminalSummary action (pre ++ post) c = Some st /\
        st.(created) + st.(updated) + st.(skipped) + st.(errors_count)
        = Z.of_nat (length (pre ++ removed :: post)) - 1).
Proof.
  split; [apply terminalSummary_counts|].
  intros pre post removed.
  destruct (terminalSummary_counts action (pre ++ post) c) as (st & Hst & Hsum).
  exists st. split; [exact Hst|].
  rewrite Hsum, !length_app. simpl. lia.
Qed.

(** The terminal error list has one message per counted error. *)
Lemma commit_errors_accumulate (action : DuplicateAction) (rows : list StagedRow) (c : C) :
  exists ev : ProgressEvent,
    last (commit action rows c).2 = Some ev /\
    ev.(ev_type) = EvComplete /\ ev.(ev_progress) = 100 /\
    Z.of_nat (length ev.(ev_errors)) = ev.(ev_stats).(errors_count).
Proof.
  unfold commit.
  set (start := {| run_store := c; run_stats := _; run_errors := [] |}).
  pose proof (processRows_errors action (Z.of_nat (length rows))
                (in_temp_id_order rows) start eq_refl) as He.
  destruct (processRows action (Z.of_nat (length rows)) (in_temp_id_order rows) start)
    as [r evs].
  simpl in *. rewrite last_snoc. eexists. split; [reflexivity|]. simpl. auto.
Qed.

End Commit.

(** C1 on the in-memory catalog: the scenario of the specification, three
    rows committed with the action update. *)
Lemma commit_summary_counts_rows_witness :
  exists st : UploadStats,
    Spec.terminalSummary Spec.Update
      (Spec.buildPreview Scenario.demoCatalog Scenario.demoSheet).1
      Scenario.demoCatalog = Some st /\
    st.(created) + st.(updated) + st.(skipped) + st.(errors_count) = 3.
Proof.
  exact (proj1 (commit_summary_counts_rows Spec.Update
                  (Spec.buildPreview Scenario.demoCatalog Scenario.demoSheet).1
                  Scenario.demoCatalog)).
Defined.

(** The scenario of the specification: the preview of Bolt, Nut, Screw
    against a catalog with Bolt, committed with the action update. *)
Example scenario_preview :
  (Spec.buildPreview Scenario.demoCatalog Scenario.demoSheet).2
  = {| Spec.sum_hasDuplicates := true; Spec.sum_duplicatesFound := 1;
       Spec.sum_newProducts := 1 |} /\
  Spec.status <$> (Spec.buildPreview Scenario.demoCatalog Scenario.demoSheet).1
  = [Spec.StDuplicate; Spec.StNew; Spec.StError].
Proof. split; reflexivity. Qed.

Example scenario_commit :
  Spec.terminalSummary Spec.Update
    (Spec.buildPreview Scenario.demoCatalog Scenario.demoSheet).1 Scenario.demoCatalog
  = Some {| created := 1; updated := 1; skipped := 0; errors_count := 1 |} /\
  (Spec.commit Spec.Update
     (Spec.buildPreview Scenario.demoCatalog Scenario.demoSheet).1 Scenario.demoCatalog).1
  = [{| entry_id := 40; entry_name := "Bolt"; entry_description := "";
        entry_price := JNum 6; entry_quantity := JNum 10 |};
     {| entry_id := 41; entry_name := "Nut"; entry_description := "";
        entry_price := JNum 2; entry_quantity := JNum 5 |}].
Proof. split; reflexivity. Qed.

(** ** The product table: pages and search *)
Section PaginationFacts.
Import Pagination.

Lemma slice_window {A} (a k : Z) (l : list A) :
  0 <= a -> 0 <= k ->
  slice a (a + k) l = take (Z.to_nat k) (drop (Z.to_nat a) l).
Proof.
  intros Ha Hk. unfold slice.
  replace (a <? 0) with false by (symmetry; apply Z.ltb_ge; lia).
  replace (a + k <? 0) with false by (symmetry; apply Z.ltb_ge; lia).
  set (len := Z.of_nat (length l)).
  destruct (Z.le_gt_cases a len) as [Hin|Hout].
  - rewrite (Z.min_l a len) by lia.
    destruct (Z.le_gt_cases (a + k) len) as [Hfit|Hcut].
    + rewrite Z.min_l by lia. f_equal. lia.
    + rewrite Z.min_r by lia.
      rewrite !take_ge; [reflexivity | |]; rewrite length_drop; subst len; lia.
  - rewrite (Z.min_r a len), Z.min_r by lia.
    rewrite !drop_ge by (subst len; lia). now rewrite !take_nil.
Qed.

Lemma page_of_window (n : Z) (p : Pager) :
  0 < p.(itemsPerPage) -> 1 <= n ->
  page_of n p
  = take (Z.to_nat p.(itemsPerPage))
         (drop (Z.to_nat ((n - 1) * p.(itemsPerPage))) p.(filteredItems)).
Proof.
  intros Hk Hn. unfold page_of, updatePaginatedItems. simpl.
  apply slice_window; nia.
Qed.

Lemma chunks_concat {A} (k m : nat) (l : list A) :
  concat (map (fun i => take k (drop (i * k) l)) (seq 0 m)) = take (m * k) l.
Proof.
  induction m as [|m IH]; [reflexivity|].
  rewrite seq_S, map_app, concat_app, IH. simpl. rewrite app_nil_r.
  rewrite take_take_drop. f_equal. lia.
Qed.

(** [totalPages] pages are enough, and one fewer is not. *)
Lemma totalPages_bounds (p : Pager) :
  0 < p.(itemsPerPage) ->
  Z.of_nat (length p.(filteredItems)) <= totalPages p * p.(itemsPerPage) /\
  (totalPages p - 1) * p.(itemsPerPage) < Z.of_nat (length p.(filteredItems))
  \/ (totalPages p = 0 /\ p.(filteredItems) = []).
Proof.
  intros Hk. unfold totalPages.
  set (len := Z.of_nat (length (filteredItems p))).
  pose proof (Z.div_mod (- len) (itemsPerPage p) ltac:(lia)) as Hdm.
  pose proof (Z.mod_pos_bound (- len) (itemsPerPage p) Hk) as Hr.
  destruct (filteredItems p) as [|x l] eqn:E.
  - right. split; [|reflexivity]. subst len. simpl. now rewrite Z.div_0_l by lia.
  - left. assert (0 < len) by (subst len; simpl; lia). nia.
Qed.

(** X2: the pages 1 to [totalPages], one after the other, are the filtered
    list: no product is lost or shown twice; each of these pages has at
    least one product and at most [itemsPerPage]. *)
Theorem pages_partition (p : Pager) :
  0 < p.(itemsPerPage) ->
  concat (map (fun n => page_of n p) (seqZ 1 (totalPages p))) = p.(filteredItems) /\
  (forall n, 1 <= n <= totalPages p ->
             (0 < length (page_of n p))%nat /\
             Z.of_nat (length (page_of n p)) <= p.(itemsPerPage)).
Proof.
  intros Hk. pose proof (totalPages_bounds p Hk) as Hb. split.
  - unfold seqZ.
    change (concat (map (fun n => page_of n p)
                      (map (fun i : nat => Z.of_nat i + 1)
                         (seq 0 (Z.to_nat (totalPages p))))) = filteredItems p).
    rewrite map_map.
    rewrite (map_ext_in _
               (fun i : nat => take (Z.to_nat (itemsPerPage p))
                          (drop (i * Z.to_nat (itemsPerPage p)) (filteredItems p)))).
    + rewrite chunks_concat.
      apply take_ge. destruct Hb as [[Hb _]|[Hz ->]]; [nia | simpl; lia].
    + intros i _. rewrite page_of_window by lia. do 2 f_equal. nia.
  - intros n Hn. rewrite page_of_window by lia.
    rewrite length_take, length_drop.
    destruct Hb as [[_ Hb]|[Hz _]]; [|lia].
    split; [|lia]. nia.
Qed.

(** X2 on the example list: twelve products on three pages. *)
Lemma pages_partition_witness :
  concat (map (fun n => page_of n demoPager) (seqZ 1 (totalPages demoPager)))
  = demoItems.
Proof. apply (pages_partition demoPager). reflexivity. Defined.

Lemma totalPages_with_page (n : Z) (p : Pager) :
  totalPages (with_page n p) = totalPages p.
Proof. reflexivity. Qed.

Lemma turn_to (n : Z) (p : Pager) :
  let q := updatePaginatedItems (with_page n p) in
  q.(currentPage) = n /\ totalPages q = totalPages p /\ in_sync q /\
  q.(filteredItems) = p.(filteredItems) /\ q.(items) = p.(items).
Proof. repeat split. Qed.

(** X1: the page counter stays on an existing page (or on page 1 of an
    empty list) and the visible page stays the page it names, through
    [nextPage], [prevPage] and [goToPage] with any argument; [applyFilter]
    puts the counter on page 1 with the first page visible, whatever the
    state before. *)
Theorem paging_keeps_page_in_range {R : Runtime.Builtins} (p : Pager) :
  (page_ok p /\ in_sync p ->
   (page_ok (nextPage p) /\ in_sync (nextPage p)) /\
   (page_ok (prevPage p) /\ in_sync (prevPage p)) /\
   (forall n, page_ok (goToPage n p) /\ in_sync (goToPage n p))) /\
  (page_ok (applyFilter p) /\ in_sync (applyFilter p) /\
   (applyFilter p).(currentPage) = 1).
Proof.
  split.
  - intros [[H1 H2] Hs]. split; [|split].
    + unfold nextPage. destruct (currentPage p <? totalPages p) eqn:E.
      * apply Z.ltb_lt in E. split; [|apply turn_to].
        unfold page_ok. simpl.
        change (totalPages (updatePaginatedItems (with_page (currentPage p + 1) p)))
          with (totalPages p). lia.
      * now repeat split.
    + unfold prevPage. destruct (currentPage p >? 1) eqn:E.
      * apply Z.gtb_lt in E. split; [|apply turn_to].
        unfold page_ok. simpl.
        change (totalPages (updatePaginatedItems (with_page (currentPage p - 1) p)))
          with (totalPages p). lia.
      * now repeat split.
    + intros n. unfold goToPage.
      destruct ((n >=? 1) && (n <=? totalPages p)) eqn:E.
      * apply andb_true_iff in E as [E1 E2].
        apply Z.geb_le in E1. apply Z.leb_le in E2.
        split; [|apply turn_to]. unfold page_ok. simpl.
        change (totalPages (updatePaginatedItems (with_page n p)))
          with (totalPages p). lia.
      * now repeat split.
  - split; [|split].
    + unfold page_ok, applyFilter. simpl. split; [lia | now right].
    + apply turn_to.
    + reflexivity.
Qed.

(** X1 on the example list: from page 3 of 3, [nextPage] stays on page 3. *)
Lemma paging_keeps_page_in_range_witness :
  (nextPage (goToPage 3 demoPager)).(currentPage) = 3 /\
  page_ok (nextPage (goToPage 3 demoPager)).
Proof.
  assert (H : page_ok (goToPage 3 demoPager) /\ in_sync (goToPage 3 demoPager)).
  { split; [|reflexivity]. split; [|left]; vm_compute; discriminate. }
  destruct (proj1 (paging_keeps_page_in_range (R := Runtime.asciiText)
                     (goToPage 3 demoPager)) H)
    as ((Hok & _) & _).
  split; [reflexivity | exact Hok].
Defined.

Lemma pager_eta (p : Pager) (l : list CatalogEntry) (n : Z) :
  p.(paginatedItems) = l -> p.(currentPage) = n ->
  {| items := p.(items); filteredItems := p.(filteredItems); paginatedItems := l;
     currentPage := n; itemsPerPage := p.(itemsPerPage);
     searchTerm := p.(searchTerm) |} = p.
Proof. intros <- <-. now destruct p. Qed.

(** X3: turning one page forward and one page back, or back and forward,
    returns to the same state, when the first turn is possible and the
    visible page was in step with the counter. *)
Theorem prev_next_round_trip (p : Pager) :
  in_sync p -> 1 <= p.(currentPage) ->
  (p.(currentPage) < totalPages p -> prevPage (nextPage p) = p) /\
  (1 < p.(currentPage) <= totalPages p -> nextPage (prevPage p) = p).
Proof.
  intros Hs H1. unfold in_sync, page_of, updatePaginatedItems in Hs. simpl in Hs.
  split.
  - intros Hlt. unfold nextPage.
    replace (currentPage p <? totalPages p) with true by (symmetry; now apply Z.ltb_lt).
    unfold prevPage. simpl.
    replace (currentPage p + 1 >? 1) with true by (symmetry; apply Z.gtb_lt; lia).
    unfold updatePaginatedItems, with_page. simpl.
    replace (currentPage p + 1 - 1) with (currentPage p) by lia.
    unfold with_paginated. simpl.
    apply pager_eta; [now symmetry | reflexivity].
  - intros [Hgt Hle]. unfold prevPage.
    replace (currentPage p >? 1) with true by (symmetry; apply Z.gtb_lt; lia).
    unfold nextPage. simpl.
    change (totalPages (updatePaginatedItems (with_page (currentPage p - 1) p)))
      with (totalPages p).
    replace (currentPage p - 1 <? totalPages p) with true
      by (symmetry; apply Z.ltb_lt; lia).
    unfold updatePaginatedItems, with_page. simpl.
    replace (currentPage p - 1 + 1) with (currentPage p) by lia.
    unfold with_paginated. simpl.
    apply pager_eta; [now symmetry | reflexivity].
Qed.

(** X3 on the example list: from page 2, forward and back, and back and
    forward. *)
Lemma prev_next_round_trip_witness :
  prevPage (nextPage (goToPage 2 demoPager)) = goToPage 2 demoPager /\
  nextPage (prevPage (goToPage 2 demoPager)) = goToPage 2 demoPager.
Proof.
  destruct (prev_next_round_trip (goToPage 2 demoPager) eq_refl) as [Hf Hb].
  - vm_compute. discriminate.
  - split; [apply Hf; reflexivity | apply Hb; split; vm_compute; [reflexivity|discriminate]].
Defined.

Lemma range_In (a b x : Z) : In x (range a b) <-> a <= x <= b.
Proof. unfold range. rewrite <- list_elem_of_In, elem_of_seqZ. lia. Qed.

Lemma range_length (a b : Z) : length (range a b) = Z.to_nat (b - a + 1).
Proof. apply length_seqZ. Qed.

Lemma range_head (a b : Z) : a <= b -> head (range a b) = Some a.
Proof. intros H. unfold range. now rewrite seqZ_cons by lia. Qed.

Lemma range_last (a b : Z) : a <= b -> last (range a b) = Some b.
Proof.
  intros H. unfold range. rewrite last_lookup, length_seqZ.
  rewrite lookup_seqZ_lt by lia. f_equal. lia.
Qed.

(** X4: the page numbers offered, for a counter on an existing page.  The
    list starts with page 1 and ends with the last page, holds the current
    page and its neighbours, has at most seven entries, and every entry is a
    page number or the ellipsis [-1]; with seven pages or fewer it is all
    the pages in order, without an ellipsis. *)
Theorem getPageNumbers_shape (p : Pager) :
  1 <= p.(currentPage) <= totalPages p ->
  head (getPageNumbers p) = Some 1 /\
  last (getPageNumbers p) = Some (totalPages p) /\
  In p.(currentPage) (getPageNumbers p) /\
  (1 <= p.(currentPage) - 1 -> In (p.(currentPage) - 1) (getPageNumbers p)) /\
  (p.(currentPage) + 1 <= totalPages p -> In (p.(currentPage) + 1) (getPageNumbers p)) /\
  (length (getPageNumbers p) <= 7)%nat /\
  (forall x, In x (getPageNumbers p) -> x = -1 \/ 1 <= x <= totalPages p) /\
  (totalPages p <= 7 -> getPageNumbers p = seqZ 1 (totalPages p)).
Proof.
  intros [H1 H2]. unfold getPageNumbers.
  set (total := totalPages p) in *. set (cur := currentPage p) in *.
  destruct (total <=? 7) eqn:E.
  - apply Z.leb_le in E. repeat split.
    + apply range_head. lia.
    + apply range_last. lia.
    + apply range_In. lia.
    + intros ?. apply range_In. lia.
    + intros ?. apply range_In. lia.
    + rewrite range_length. lia.
    + intros x Hx. apply range_In in Hx. lia.
    + intros _. unfold range. f_equal. lia.
  - apply Z.leb_gt in E.
    set (R := range (Z.max 2 (cur - 1)) (Z.min (total - 1) (cur + 1))).
    set (A := if cur >? 3 then [-1] else []).
    set (B := if cur <? total - 2 then [-1] else []).
    assert (HR : forall x, In x R <-> Z.max 2 (cur - 1) <= x <= Z.min (total - 1) (cur + 1))
      by (intros x; apply range_In).
    assert (HA : forall x, In x A -> x = -1)
      by (intros x; subst A; destruct (cur >? 3); simpl; intuition).
    assert (HB : forall x, In x B -> x = -1)
      by (intros x; subst B; destruct (cur <? total - 2); simpl; intuition).
    assert (Hin : forall x, In x ([1] ++ A ++ R ++ B ++ [total]) <->
                            x = 1 \/ In x A \/ In x R \/ In x B \/ x = total).
    { intros x. rewrite !in_app_iff. simpl. intuition. }
    repeat split.
    + rewrite !app_assoc. apply last_snoc.
    + apply Hin. destruct (Z.eq_dec cur 1) as [Heq | Hne]; [now left | ].
      destruct (Z.eq_dec cur total) as [Heq | Hne']; [now do 4 right | ].
      right; right; left. apply HR. lia.
    + intros ?. apply Hin.
      destruct (Z.eq_dec (cur - 1) 1) as [Heq | Hne]; [now left | ].
      right; right; left. apply HR. lia.
    + intros ?. apply Hin.
      destruct (Z.eq_dec (cur + 1) total) as [Heq | Hne]; [now do 4 right | ].
      right; right; left. apply HR. lia.
    + rewrite !length_app. simpl.
      assert (length A <= 1)%nat by (subst A; destruct (cur >? 3); simpl; lia).
      assert (length B <= 1)%nat by (subst B; destruct (cur <? total - 2); simpl; lia).
      assert (length R <= 3)%nat by (subst R; rewrite range_length; lia).
      lia.
    + intros x Hx. apply Hin in Hx.
      destruct Hx as [-> | [Hx | [Hx | [Hx | ->]]]];
        [right; lia | left; auto | | left; auto | right; lia].
      apply HR in Hx. right. lia.
    + intros Hle. lia.
Qed.

(** X4 on a list of twelve pages, one product to a page, on page 6. *)
Lemma getPageNumbers_shape_witness :
  getPageNumbers (goToPage 6 (applyFilter (R := Runtime.asciiText)
    {| items := demoItems; filteredItems := []; paginatedItems := [];
       currentPage := 1; itemsPerPage := 1; searchTerm := "" |}))
  = [1; -1; 5; 6; 7; -1; 12] /\
  In 6 (getPageNumbers (goToPage 6 (applyFilter (R := Runtime.asciiText)
    {| items := demoItems; filteredItems := []; paginatedItems := [];
       currentPage := 1; itemsPerPage := 1; searchTerm := "" |}))).
Proof.
  split; [reflexivity|].
  apply (getPageNumbers_shape (goToPage 6 (applyFilter (R := Runtime.asciiText)
    {| items := demoItems; filteredItems := []; paginatedItems := [];
       currentPage := 1; itemsPerPage := 1; searchTerm := "" |}))).
  split; vm_compute; discriminate.
Defined.

Example getPageNumbers_first_page :
  getPageNumbers (applyFilter (R := Runtime.asciiText)
    {| items := demoItems; filteredItems := []; paginatedItems := [];
       currentPage := 1; itemsPerPage := 1; searchTerm := "" |})
  = [1; 2; -1; 12].
Proof. reflexivity. Qed.

Example getPageNumbers_three_pages : getPageNumbers demoPager = [1; 2; 3].
Proof. reflexivity. Qed.

Lemma is_prefix_spec (p l : list ascii) :
  is_prefix p l = true <-> exists b, l = p ++ b.
Proof.
  revert l. induction p as [|c p IH]; intros l; simpl.
  - split; [intros _; now exists l | reflexivity].
  - destruct l as [|d l]; [split; [discriminate | intros [b Hb]; discriminate]|].
    rewrite andb_true_iff, IH. split.
    + intros [Hc [b ->]]. apply Ascii.eqb_eq in Hc as ->. now exists b.
    + intros [b Hb]. injection Hb as -> ->. split; [apply Ascii.eqb_refl | now exists b].
Qed.

Lemma contains_chars_spec (p l : list ascii) :
  contains_chars p l = true <-> exists a b, l = a ++ p ++ b.
Proof.
  induction l as [|d l IH].
  - simpl. rewrite orb_false_r, is_prefix_spec. split.
    + intros [b Hb]. now exists [], b.
    + intros (a & b & H). destruct a; [now exists b | discriminate].
  - simpl. rewrite orb_true_iff, is_prefix_spec, IH. split.
    + intros [[b Hb]|(a & b & ->)]; [now exists [], b | now exists (d :: a), b].
    + intros ([|x a] & b & H); [left; now exists b|].
      injection H as -> ->. right. now exists a, b.
Qed.

(** [hay.includes(needle)] holds exactly when the needle occurs in the
    string. *)
Lemma str_includes_spec (hay needle : string) :
  str_includes hay needle = true <->
  exists a b : string, hay = (a ++ needle ++ b)%string.
Proof.
  unfold str_includes. rewrite contains_chars_spec. split.
  - intros (a & b & H). exists (JSString.of_chars a), (JSString.of_chars b).
    apply chars_inj. now rewrite !chars_app, !chars_of_chars.
  - intros (a & b & ->). exists (JSString.chars a), (JSString.chars b).
    now rewrite !chars_app.
Qed.

Lemma filter_sublist {A} (f : A -> bool) (l : list A) : sublist (List.filter f l) l.
Proof.
  induction l as [|x l IH]; simpl; [constructor|].
  destruct (f x); now constructor.
Qed.

(** X5: the search keeps, in their order, exactly the products whose
    name or description, lowered by the runtime, contains the search text,
    lowered and trimmed by the runtime; nothing is added or reordered. *)
Theorem applyFilter_finds {R : Runtime.Builtins} (p : Pager) :
  sublist (applyFilter p).(filteredItems) p.(items) /\
  (forall e : CatalogEntry,
      In e (applyFilter p).(filteredItems) <->
      In e p.(items) /\
      exists a b : string,
        Runtime.toLowerCase e.(entry_name)
        = (a ++ Runtime.trim (Runtime.toLowerCase p.(searchTerm)) ++ b)%string \/
        Runtime.toLowerCase e.(entry_description)
        = (a ++ Runtime.trim (Runtime.toLowerCase p.(searchTerm)) ++ b)%string) /\
  (applyFilter p).(items) = p.(items).
Proof.
  unfold applyFilter. set (term := Runtime.trim _).
  destruct (bool_decide (term = "")) eqn:E; simpl.
  - apply bool_decide_eq_true in E. split; [reflexivity|]. split; [|reflexivity].
    intros e. split; [|tauto]. intros He. split; [exact He|].
    exists "", (Runtime.toLowerCase (entry_name e)). left. now rewrite E.
  - split; [apply filter_sublist|]. split; [|reflexivity].
    intros e. rewrite filter_In. unfold matches.
    rewrite orb_true_iff, !str_includes_spec. split.
    + intros [He [(a & b & H)|(a & b & H)]]; (split; [exact He|]); exists a, b; auto.
    + intros [He (a & b & [H|H])]; (split; [exact He|]); [left|right]; now exists a, b.
Qed.

(** X6: for a search text of ASCII characters, the search ignores the
    letter case of the text and the white space around it, and a search
    text of white space lists every product. *)
Theorem applyFilter_term_normalized
  {R : Runtime.Builtins} (L : Runtime.Conforms R)
  (p : Pager) (t w1 w2 : string) :
  Runtime.is_ascii t = true ->
  Runtime.blank w1 = true -> Runtime.blank w2 = true ->
  (applyFilter (with_search (w1 ++ Runtime.toUpperCase t ++ w2)%string p)).(filteredItems)
  = (applyFilter (with_search t p)).(filteredItems) /\
  (applyFilter (with_search w1 p)).(filteredItems) = p.(items).
Proof.
  intros Ht H1 H2. unfold applyFilter. simpl.
  change (Runtime.trim (Runtime.toLowerCase ?x)) with (Catalog.nameKey x).
  assert (Hu : Runtime.is_ascii (Runtime.toUpperCase t) = true).
  { rewrite (Runtime.toUpperCase_ascii R L t Ht). now rewrite is_ascii_toUpperCase. }
  rewrite (nameKey_padded L _ _ _ Hu H1 H2), (nameKey_toUpperCase L t Ht),
    (nameKey_blank L w1 H1).
  split; [|reflexivity].
  now destruct (bool_decide (Catalog.nameKey t = "")).
Qed.

(** X6 on the example list: " BOLT", with a tab after it, finds what "bolt"
    finds. *)
Lemma applyFilter_term_normalized_witness :
  Runtime.Conforms Runtime.asciiText /\
  Runtime.is_ascii "bolt" = true /\
  entry_name <$>
    (applyFilter (R := Runtime.asciiText)
       (with_search (" " ++ "BOLT" ++ String "009" "")%string demoPager)).(filteredItems)
  = ["Bolt"; "Anchor bolt"; "BOLT cutter"] /\
  (applyFilter (R := Runtime.asciiText)
     (with_search
        (" " ++ Runtime.toUpperCase (Builtins := Runtime.asciiText) "bolt"
         ++ String "009" "")%string demoPager)).(filteredItems)
  = (applyFilter (R := Runtime.asciiText) (with_search "bolt" demoPager)).(filteredItems).
Proof.
  split; [exact asciiText_conforms|]. split; [reflexivity|].
  split; [vm_compute; reflexivity|].
  exact (proj1 (applyFilter_term_normalized asciiText_conforms demoPager
                  "bolt" " " (String "009" "") eq_refl eq_refl eq_refl)).
Defined.

Example applyFilter_bolt :
  entry_name <$> (applyFilter (R := Runtime.asciiText)
                    (with_search " BOLT " demoPager)).(filteredItems)
  = ["Bolt"; "Anchor bolt"; "BOLT cutter"] /\
  (applyFilter (R := Runtime.asciiText)
     (with_search " BOLT " demoPager)).(currentPage) = 1.
Proof. split; reflexivity. Qed.

End PaginationFacts.

(** ** Deleting staged rows *)
Section Deleting.
Import Inventory Staging.

(** [findIndex] gives [-1] when nothing matches, and otherwise the position
    of the first match. *)
Lemma findIndex_from_cases {A} (p : A -> bool) (l : list A) (i : Z) :
  (JS.findIndex_from p l i = -1 /\ Forall (fun x => p x = false) l) \/
  (exists (pre post : list A) (x : A),
      l = pre ++ x :: post /\ Forall (fun y => p y = false) pre /\ p x = true /\
      JS.findIndex_from p l i = i + Z.of_nat (length pre)).
Proof.
  revert i. induction l as [|x l IH]; intros i; simpl.
  - left. split; [reflexivity | constructor].
  - destruct (p x) eqn:Hx.
    + right. exists [], l, x. simpl. repeat split; auto. lia.
    + destruct (IH (i + 1)) as [[E F]|(pre & post & y & -> & F & Hy & E)].
      * left. split; [exact E | now constructor].
      * right. exists (x :: pre), post, y. simpl.
        repeat split; auto. rewrite E. lia.
Qed.

Lemma findIndex_cases {A} (p : A -> bool) (l : list A) :
  (JS.findIndex p l = -1 /\ Forall (fun x => p x = false) l) \/
  (exists (pre post : list A) (x : A),
      l = pre ++ x :: post /\ Forall (fun y => p y = false) pre /\ p x = true /\
      JS.findIndex p l = Z.of_nat (length pre)).
Proof.
  unfold JS.findIndex.
  destruct (findIndex_from_cases p l 0) as [H|(pre & post & x & H1 & H2 & H3 & H4)];
    [now left|].
  right. exists pre, post, x. rewrite H4. repeat split; auto.
Qed.

(** What [deleteRow] does when [findIndex] hits position [idx]. *)
Lemma deleteRow_hit (row : loc) (s : State) (idx : nat) :
  JS.findIndex (same_temp_id s.(store) row) s.(previewData) = Z.of_nat idx ->
  let isDup := status_is "duplicate" (JS.deref s.(store) row) in
  let isNew := status_is "new" (JS.deref s.(store) row) in
  (deleteRow row s).(previewData) = delete idx s.(previewData) /\
  (deleteRow row s).(totalRows) = s.(totalRows) - 1 /\
  (deleteRow row s).(duplicatesCount)
  = (if isDup then s.(duplicatesCount) - 1 else s.(duplicatesCount)) /\
  (deleteRow row s).(newProductsCount)
  = (if negb isDup && isNew then s.(newProductsCount) - 1 else s.(newProductsCount)) /\
  (deleteRow row s).(hasDuplicates)
  = (if isDup && (s.(duplicatesCount) - 1 =? 0) then false else s.(hasDuplicates)) /\
  (deleteRow row s).(store) = s.(store).
Proof.
  intros E. unfold deleteRow. rewrite E.
  replace (Z.of_nat idx >? -1) with true by (symmetry; apply Z.gtb_lt; lia).
  unfold JS.splice1. rewrite Nat2Z.id.
  destruct s; simpl.
  destruct (status_is "duplicate" (JS.deref store0 row)); simpl;
    [destruct (duplicatesCount0 - 1 =? 0)
    |destruct (status_is "new" (JS.deref store0 row))];
    simpl; repeat split.
Qed.

(** X7: [deleteRow] removes the first staged row whose [temp_id] equals the
    argument's, whether or not that row is the argument, and takes one off
    [totalRows]; the rows before and after it stay in order. *)
Theorem deleteRow_removes_first_match
        (row r : loc) (s : State) (pre post : list loc) :
  s.(previewData) = pre ++ r :: post ->
  Forall (fun x => same_temp_id s.(store) row x = false) pre ->
  same_temp_id s.(store) row r = true ->
  (deleteRow row s).(previewData) = pre ++ post /\
  (deleteRow row s).(totalRows) = s.(totalRows) - 1.
Proof.
  intros Hpd Hpre Hr.
  assert (E : JS.findIndex (same_temp_id s.(store) row) s.(previewData)
              = Z.of_nat (length pre)).
  { unfold JS.findIndex. rewrite Hpd, findIndex_from_hit by assumption. lia. }
  destruct (deleteRow_hit row s (length pre) E) as (H1 & H2 & _).
  split; [|exact H2]. rewrite H1, Hpd. apply delete_middle.
Qed.

(** X8: when [totalRows] is the number of staged rows, it still is after
    [deleteRow], with any argument. *)
Theorem deleteRow_keeps_totalRows (row : loc) (s : State) :
  s.(totalRows) = Z.of_nat (length s.(previewData)) ->
  (deleteRow row s).(totalRows) = Z.of_nat (length (deleteRow row s).(previewData)).
Proof.
  intros Ht.
  destruct (findIndex_cases (same_temp_id s.(store) row) s.(previewData))
    as [[E F]|(pre & post & x & Hpd & F & Hx & E)].
  - now rewrite (deleteRow_miss row s F).
  - destruct (deleteRow_hit row s (length pre) E) as (H1 & H2 & _).
    rewrite H1, H2, Ht, Hpd, delete_middle, !length_app. simpl. lia.
Qed.

(** X9: distinct [temp_id]s stay distinct through [deleteRow]. *)
Theorem deleteRow_keeps_unique (row : loc) (s : State) :
  unique_temp_ids s -> unique_temp_ids (deleteRow row s).
Proof.
  intros Hu.
  destruct (findIndex_cases (same_temp_id s.(store) row) s.(previewData))
    as [[E F]|(pre & post & x & Hpd & F & Hx & E)].
  - now rewrite (deleteRow_miss row s F).
  - destruct (deleteRow_hit row s (length pre) E) as (H1 & _ & _ & _ & _ & H6).
    unfold unique_temp_ids in *. rewrite H1, H6, list_fmap_delete.
    exact (sublist_NoDup _ _ Hu (sublist_delete _ _)).
Qed.

(** X10: with distinct [temp_id]s, deleting the same row a second time
    changes nothing. *)
Theorem deleteRow_twice (row : loc) (s : State) :
  unique_temp_ids s -> deleteRow row (deleteRow row s) = deleteRow row s.
Proof.
  intros Hu.
  destruct (findIndex_cases (same_temp_id s.(store) row) s.(previewData))
    as [[E F]|(pre & post & x & Hpd & F & Hx & E)].
  - now rewrite !(deleteRow_miss row s F).
  - destruct (deleteRow_hit row s (length pre) E) as (H1 & _ & _ & _ & _ & H6).
    apply deleteRow_miss. rewrite H1, H6, Hpd, delete_middle.
    unfold unique_temp_ids in Hu. rewrite Hpd, fmap_app, fmap_cons in Hu.
    apply NoDup_app in Hu as (_ & Hdisj & Hnd).
    apply NoDup_cons in Hnd as [Hx' _].
    apply strict_eq_true in Hx. fold (temp_id_of (store s) x) in Hx.
    fold (temp_id_of (store s) row) in Hx.
    apply Forall_app. split; [exact F|].
    apply List.Forall_forall. intros y Hy.
    destruct (same_temp_id (store s) row y) eqn:Ey; [|reflexivity].
    exfalso. apply strict_eq_true in Ey.
    fold (temp_id_of (store s) y) in Ey. fold (temp_id_of (store s) row) in Ey.
    apply Hx'. rewrite Hx, <- Ey. apply list_elem_of_fmap_2.
    now apply list_elem_of_In.
Qed.

Lemma demo_unique : unique_temp_ids demoState.
Proof.
  unfold unique_temp_ids. apply NoDup_ListNoDup. vm_compute.
  repeat constructor; simpl; intuition discriminate.
Qed.

(** X7 on a preview in which two rows carry the same [temp_id]: asking to
    delete the second removes the first. *)
Lemma deleteRow_removes_first_match_witness :
  (deleteRow 3%positive
     (writeField 3%positive "temp_id" (JNum 1) demoState)).(previewData)
  = [2%positive; 3%positive].
Proof.
  apply (deleteRow_removes_first_match 3%positive 1%positive
           (writeField 3%positive "temp_id" (JNum 1) demoState)
           [] [2%positive; 3%positive]).
  - reflexivity.
  - constructor.
  - reflexivity.
Defined.

(** X8 on the example session. *)
Lemma deleteRow_keeps_totalRows_witness :
  (deleteRow 2%positive demoState).(totalRows) = 2.
Proof.
  rewrite (deleteRow_keeps_totalRows 2%positive demoState eq_refl). reflexivity.
Defined.

(** X9 on the example session. *)
Lemma deleteRow_keeps_unique_witness :
  unique_temp_ids (deleteRow 2%positive demoState).
Proof. apply (deleteRow_keeps_unique 2%positive demoState), demo_unique. Defined.

(** X10 on the example session. *)
Lemma deleteRow_twice_witness :
  deleteRow 1%positive (deleteRow 1%positive demoState) = deleteRow 1%positive demoState.
Proof. apply (deleteRow_twice 1%positive demoState), demo_unique. Defined.

Lemma filter_length_delete {A} (f : A -> bool) (l : list A) (i : nat) (x : A) :
  l !! i = Some x ->
  (length (List.filter f (delete i l)) + (if f x then 1 else 0)
   = length (List.filter f l))%nat.
Proof.
  intros Hi. rewrite delete_take_drop.
  rewrite <- (take_drop_middle l i x Hi) at 3.
  rewrite !List.filter_app, !length_app. simpl.
  destruct (f x); simpl; lia.
Qed.

(** X11: in a session with distinct [temp_id]s whose counters say what the
    preview holds, they still do after a staged row is deleted: [totalRows]
    is the number of rows left, [duplicatesCount] and [newProductsCount] are
    the numbers of duplicate and new rows left, and [hasDuplicates] says
    whether a duplicate is left. *)
Theorem deleteRow_keeps_counters (row : loc) (s : State) :
  counters_consistent s ->
  unique_temp_ids s ->
  In row s.(previewData) ->
  JS.is_primitive (temp_id_of s.(store) row) = true ->
  counters_consistent (deleteRow row s).
Proof.
  intros (Ht & Hd & Hn & Hh) Hu Hin Hp.
  apply list_elem_of_In, list_elem_of_lookup in Hin as [i Hi].
  pose proof (findIndex_unique s row i Hi Hu Hp) as E.
  destruct (deleteRow_hit row s i E) as (H1 & H2 & H3 & H4 & H5 & H6).
  pose proof (filter_length_delete
                (fun l => status_is "duplicate" (JS.deref s.(store) l))
                _ _ _ Hi) as Fd.
  pose proof (filter_length_delete
                (fun l => status_is "new" (JS.deref s.(store) l))
                _ _ _ Hi) as Fn.
  pose proof (status_dup_not_new (JS.deref s.(store) row)) as Hdn.
  pose proof (lookup_lt_Some _ _ _ Hi) as Hlt.
  unfold counters_consistent, count_rows in *.
  rewrite H1, H2, H3, H4, H5, H6, length_delete by eauto.
  destruct (status_is "duplicate" (JS.deref (store s) row)) eqn:D; simpl in *.
  - rewrite (Hdn eq_refl) in Fn. repeat split; try lia.
    rewrite Hh. destruct (duplicatesCount s - 1 =? 0) eqn:Z0.
    + apply Z.eqb_eq in Z0. rewrite Z0. reflexivity.
    + apply Z.eqb_neq in Z0. symmetry.
      replace (0 <? duplicatesCount s) with true by (symmetry; apply Z.ltb_lt; lia).
      apply Z.ltb_lt. lia.
  - destruct (status_is "new" (JS.deref (store s) row)); repeat split; try lia; exact Hh.
Qed.

(** X11 on the example session: the duplicate row is deleted. *)
Lemma deleteRow_keeps_counters_witness :
  counters_consistent (deleteRow 1%positive demoState).
Proof.
  apply (deleteRow_keeps_counters 1%positive demoState).
  - repeat split.
  - exact demo_unique.
  - now left.
  - reflexivity.
Defined.

(** Renaming a row does not move the counters, so an edit that changes what
    the resolver would say leaves them describing the statuses the rows
    carry, not the names. *)
Example counters_after_rename :
  counters_consistent Scenario.demoRenamed.
Proof. repeat split. Qed.

End Deleting.

(** ** How the edit operations compose *)
Section EditComposition.
Import Inventory.

(** The store while a row is under edit, after the writes. *)
Lemma edit_writes_store (s : State) (row : loc) (ws : list (string * jsval)) (o : obj) :
  s.(store) !! row = Some o ->
  let s1 := writes row ws (startEdit row s) in
  s1.(store) !! row = Some (assign_all ws o) /\
  (forall l, l <> row -> is_Some (s.(store) !! l) -> s1.(store) !! l = s.(store) !! l) /\
  s1.(editingRow) = Some row /\
  s1.(previewData) = s.(previewData).
Proof.
  intros Hrow s1.
  assert (Hfresh : s.(store) !! fresh (dom s.(store)) = None)
    by (apply not_elem_of_dom, is_fresh).
  destruct (startEdit_parts row s) as (Est & Epd & _ & Eer).
  pose proof (writes_frame row ws (startEdit row s)) as Hf. fold s1 in Hf.
  assert (L : forall l, s1.(store) !! l
              = if decide (row = l) then assign_all ws <$> (startEdit row s).(store) !! l
                else (startEdit row s).(store) !! l)
    by (intros l; apply writes_store_lookup).
  split; [|split; [|split]].
  - rewrite L. destruct (decide (row = row)); [|contradiction].
    rewrite Est, lookup_insert_ne by (intros E; congruence). now rewrite Hrow.
  - intros l Hl Hsome. rewrite L.
    destruct (decide (row = l)) as [E|_]; [exfalso; apply Hl; now symmetry|].
    rewrite Est. apply lookup_insert_ne. intros <-.
    rewrite Hfresh in Hsome. now destruct Hsome.
  - rewrite Hf. transitivity (editingRow (startEdit row s)); [|exact Eer].
    now destruct (startEdit row s).
  - rewrite Hf. transitivity (previewData (startEdit row s)); [|exact Epd].
    now destruct (startEdit row s).
Qed.

(** X12: a saved edit cannot be cancelled.  After [startEdit], writes and
    [saveEdit], the row holds the written values, and a [cancelEdit] that
    follows leaves them there; the other rows are as they were. *)
Theorem cancelEdit_after_saveEdit
        (s : State) (row : loc) (ws : list (string * jsval)) (o : obj) :
  s.(store) !! row = Some o ->
  let s' := cancelEdit (saveEdit (writes row ws (startEdit row s))) in
  s'.(store) !! row = Some (assign_all ws o) /\
  (forall l, l <> row -> is_Some (s.(store) !! l) -> s'.(store) !! l = s.(store) !! l) /\
  s'.(editingRow) = None.
Proof.
  intros Hrow s'.
  destruct (edit_writes_store s row ws o Hrow) as (H1 & H2 & _).
  assert (E : s'.(store) = (writes row ws (startEdit row s)).(store)).
  { subst s'. now destruct (writes row ws (startEdit row s)). }
  rewrite E. split; [exact H1|]. split; [exact H2|].
  subst s'. now destruct (writes row ws (startEdit row s)).
Qed.

(** X12 on the example session: Nut is renamed, saved, and a cancel follows. *)
Lemma cancelEdit_after_saveEdit_witness :
  JS.get
    (JS.deref
       (cancelEdit (saveEdit (writes 2%positive [("name", JStr "Washer")]
                                (startEdit 2%positive demoState)))).(store)
       2%positive) "name"
  = JStr "Washer".
Proof.
  destruct (cancelEdit_after_saveEdit demoState 2%positive [("name", JStr "Washer")]
              (rowObject 2 "Nut" (JNum 2) (JNum 5) "new" JNull) eq_refl)
    as (H & _).
  unfold JS.get, JS.deref. rewrite H. reflexivity.
Defined.

(** X13: starting to edit a second row while a first is under edit drops
    the way back for the first.  After writes to [r1], [startEdit r2],
    writes to [r2] and [cancelEdit], every property [r2] had is restored,
    and [r1] keeps the values written to it. *)
Theorem startEdit_replaces_pending_edit
        (s : State) (r1 r2 : loc) (ws1 ws2 : list (string * jsval)) (o1 o2 : obj) :
  r1 <> r2 ->
  s.(store) !! r1 = Some o1 ->
  s.(store) !! r2 = Some o2 ->
  let s' := cancelEdit (writes r2 ws2 (startEdit r2 (writes r1 ws1 (startEdit r1 s)))) in
  s'.(store) !! r1 = Some (assign_all ws1 o1) /\
  s'.(store) !! r2 = Some (o2 ∪ assign_all ws2 o2) /\
  s'.(editingRow) = None.
Proof.
  intros Hne H1 H2 s'.
  destruct (edit_writes_store s r1 ws1 o1 H1) as (A1 & A2 & _).
  set (s1 := writes r1 ws1 (startEdit r1 s)) in *.
  assert (B2 : s1.(store) !! r2 = Some o2).
  { rewrite A2; [exact H2 | now apply not_eq_sym | eauto]. }
  destruct (edit_cancel_store s1 r2 ws2 o2 B2) as (C1 & C2 & C3).
  fold s' in C1, C2, C3.
  split; [|split].
  - rewrite C2; [exact A1 | exact Hne | rewrite A1; eauto].
  - exact C1.
  - rewrite C3. now destruct s1.
Qed.

(** X13 on the example session: Bolt is renamed, then Nut is put under edit,
    renamed, and the edit is cancelled. *)
Lemma startEdit_replaces_pending_edit_witness :
  (cancelEdit
     (writes 2%positive [("name", JStr "Washer")]
        (startEdit 2%positive
           (writes 1%positive [("name", JStr "Stud")]
              (startEdit 1%positive demoState))))).(store) !! 1%positive
  = Some (assign_all [("name", JStr "Stud")]
            (rowObject 1 "Bolt" (JNum 6) (JNum 10) "duplicate" (JNum 40))).
Proof.
  apply (startEdit_replaces_pending_edit demoState 1%positive 2%positive
           [("name", JStr "Stud")] [("name", JStr "Washer")]
           (rowObject 1 "Bolt" (JNum 6) (JNum 10) "duplicate" (JNum 40))
           (rowObject 2 "Nut" (JNum 2) (JNum 5) "new" JNull)).
  - discriminate.
  - reflexivity.
  - reflexivity.
Defined.

Example pending_edit_example :
  JS.get
    (JS.deref
       (cancelEdit
          (writes 2%positive [("name", JStr "Washer")]
             (startEdit 2%positive
                (writes 1%positive [("name", JStr "Stud")]
                   (startEdit 1%positive demoState))))).(store) 1%positive) "name"
  = JStr "Stud" /\
  JS.get
    (JS.deref
       (cancelEdit
          (writes 2%positive [("name", JStr "Washer")]
             (startEdit 2%positive
                (writes 1%positive [("name", JStr "Stud")]
                   (startEdit 1%positive demoState))))).(store) 2%positive) "name"
  = JStr "Nut".
Proof. split; reflexivity. Qed.

End EditComposition.

(** ** What the commit command carries, and when it is sent *)
Section CommandContents.
Import Inventory.

Lemma confirmUpload_rows (s : State) :
  s.(wsOpen) = true ->
  Channel.field "rows" <$> Channel.sent (confirmUpload s).2
  = [Some (PRows (map (JS.deref s.(store)) s.(previewData)))].
Proof.
  intros Hopen. unfold confirmUpload. rewrite Hopen. now destruct s.
Qed.

(** X14: with the channel not open, [confirmUpload] sends nothing and does
    not start the upload: only the notice changes, and a reconnection and a
    retry one second later are scheduled. *)
Theorem confirmUpload_channel_closed (s : State) :
  s.(wsOpen) = false ->
  Channel.sent (confirmUpload s).2 = [] /\
  (confirmUpload s).2 = [ClearNoticeLater; ConnectWebSocket; RetryConfirmUpload] /\
  (confirmUpload s).1 = s <| generalError := NoConnection |> /\
  (confirmUpload s).1.(isUploading) = s.(isUploading) /\
  (confirmUpload s).1.(uploadStats) = s.(uploadStats) /\
  (confirmUpload s).1.(errors) = s.(errors).
Proof.
  intros H. unfold confirmUpload. rewrite H. destruct s; simpl. repeat split.
Qed.

(** X14 on the initial state, whose channel is not open yet. *)
Lemma confirmUpload_channel_closed_witness :
  Channel.sent (confirmUpload initial).2 = [] /\
  (confirmUpload initial).1.(isUploading) = false.
Proof.
  destruct (confirmUpload_channel_closed initial eq_refl) as (H1 & _ & _ & H4 & _).
  split; [exact H1 | exact H4].
Defined.

(** X15: the command carries the rows as edited.  After a saved edit of a
    staged row, the rows sent are the staged rows in order, the edited row
    with the written values and every other row as it was. *)
Theorem confirmUpload_sends_saved_edit
        (s : State) (row : loc) (ws : list (string * jsval)) (o : obj) :
  s.(wsOpen) = true ->
  s.(store) !! row = Some o ->
  (forall l, In l s.(previewData) -> is_Some (s.(store) !! l)) ->
  Channel.field "rows"
    <$> Channel.sent (confirmUpload (saveEdit (writes row ws (startEdit row s)))).2
  = [Some (PRows (map (fun l => if decide (l = row) then assign_all ws o
                                else JS.deref s.(store) l)
                      s.(previewData)))].
Proof.
  intros Hopen Hrow Hwf.
  destruct (edit_writes_store s row ws o Hrow) as (H1 & H2 & _ & H4).
  set (s1 := writes row ws (startEdit row s)) in *.
  assert (Eo : (saveEdit s1).(wsOpen) = true).
  { subst s1. rewrite writes_frame. unfold startEdit, JS.alloc.
    destruct s; simpl in *. exact Hopen. }
  rewrite (confirmUpload_rows _ Eo).
  assert (Es : (saveEdit s1).(store) = s1.(store)) by now destruct s1.
  assert (Ep : (saveEdit s1).(previewData) = s.(previewData))
    by (rewrite <- H4; now destruct s1).
  rewrite Es, Ep. do 3 f_equal.
  apply map_ext_in. intros l Hl. unfold JS.deref.
  destruct (decide (l = row)) as [->|Hne].
  - now rewrite H1.
  - now rewrite (H2 l Hne (Hwf l Hl)).
Qed.

(** X15 on the example session: Nut is renamed to Washer and saved. *)
Lemma confirmUpload_sends_saved_edit_witness :
  Channel.field "rows"
    <$> Channel.sent
          (confirmUpload
             (saveEdit (writes 2%positive [("name", JStr "Washer")]
                          (startEdit 2%positive demoState)))).2
  = [Some (PRows [rowObject 1 "Bolt" (JNum 6) (JNum 10) "duplicate" (JNum 40);
                  assign_all [("name", JStr "Washer")]
                    (rowObject 2 "Nut" (JNum 2) (JNum 5) "new" JNull);
                  rowObject 3 "Screw" (JStr "abc") (JNum 3) "error" JNull])].
Proof.
  rewrite (confirmUpload_sends_saved_edit demoState 2%positive
             [("name", JStr "Washer")]
             (rowObject 2 "Nut" (JNum 2) (JNum 5) "new" JNull) eq_refl eq_refl).
  - reflexivity.
  - intros l Hl. vm_compute in Hl.
    destruct Hl as [<-|[<-|[<-|[]]]]; vm_compute; eauto.
Defined.

(** X16: a deleted row is not committed.  After [deleteRow] of a staged row,
    in a session with distinct [temp_id]s, the rows sent are the rows
    before without that row. *)
Theorem confirmUpload_omits_deleted_row (s : State) (row : loc) (i : nat) :
  s.(wsOpen) = true ->
  s.(previewData) !! i = Some row ->
  unique_temp_ids s ->
  JS.is_primitive (temp_id_of s.(store) row) = true ->
  Channel.field "rows" <$> Channel.sent (confirmUpload (deleteRow row s)).2
  = [Some (PRows (delete i (map (JS.deref s.(store)) s.(previewData))))].
Proof.
  intros Hopen Hi Hu Hp.
  pose proof (findIndex_unique s row i Hi Hu Hp) as E.
  destruct (deleteRow_hit row s i E) as (H1 & _ & _ & _ & _ & H6).
  assert (Eo : (deleteRow row s).(wsOpen) = true).
  { unfold deleteRow. rewrite E.
    replace (Z.of_nat i >? -1) with true by (symmetry; apply Z.gtb_lt; lia).
    destruct s; simpl in *.
    destruct (status_is "duplicate" (JS.deref store0 row)); simpl;
      [destruct (duplicatesCount0 - 1 =? 0)
      |destruct (status_is "new" (JS.deref store0 row))]; exact Hopen. }
  rewrite (confirmUpload_rows _ Eo), H1, H6. do 3 f_equal.
  change (map ?f ?l) with (f <$> l). apply list_fmap_delete.
Qed.

(** X16 on the example session: Nut is deleted. *)
Lemma confirmUpload_omits_deleted_row_witness :
  Channel.field "rows" <$> Channel.sent (confirmUpload (deleteRow 2%positive demoState)).2
  = [Some (PRows [rowObject 1 "Bolt" (JNum 6) (JNum 10) "duplicate" (JNum 40);
                  rowObject 3 "Screw" (JStr "abc") (JNum 3) "error" JNull])].
Proof.
  rewrite (confirmUpload_omits_deleted_row demoState 2%positive 1%nat
             eq_refl eq_refl demo_unique eq_refl).
  reflexivity.
Defined.

End CommandContents.

(** ** Leaving the preview *)
Section LeavingPreview.
Import Inventory.

(** X17: with at most one sheet, [cancelPreview] is [resetUploadState]; and
    a reset after [cancelPreview], or after another reset, is the same
    reset. *)
Theorem cancelPreview_single_sheet (s : State) :
  ((length s.(sheets) <= 1)%nat -> cancelPreview s = resetUploadState s) /\
  resetUploadState (cancelPreview s) = resetUploadState s /\
  resetUploadState (resetUploadState s) = resetUploadState s.
Proof.
  split; [|split].
  - intros H. unfold cancelPreview.
    destruct s as [h ws sf fn fs sh ss sss sp pd opd tr co hd dc np sdm sda er erc iu up um us es ge].
    simpl in *.
    replace (1 <? length sh)%nat with false
      by (symmetry; apply Nat.ltb_ge; exact H).
    reflexivity.
  - unfold cancelPreview.
    destruct s as [h ws sf fn fs sh ss sss sp pd opd tr co hd dc np sdm sda er erc iu up um us es ge].
    simpl. now destruct (1 <? length sh)%nat.
  - now destruct s.
Qed.

(** X17 on the example session, which has no sheet list. *)
Lemma cancelPreview_single_sheet_witness :
  cancelPreview demoState = resetUploadState demoState.
Proof.
  apply (proj1 (cancelPreview_single_sheet demoState)). simpl. lia.
Defined.

(** X18: with several sheets, [cancelPreview] goes back to the sheet
    selector.  The file and the sheet list stay, the staged rows and the
    duplicate counters are cleared and no sheet is selected; [totalRows],
    [columns] and [originalPreviewData] are not cleared. *)
Theorem cancelPreview_several_sheets (s : State) :
  (1 < length s.(sheets))%nat ->
  let s' := cancelPreview s in
  s'.(showSheetSelector) = true /\ s'.(showPreview) = false /\
  s'.(selectedFile) = s.(selectedFile) /\ s'.(fileName) = s.(fileName) /\
  s'.(sheets) = s.(sheets) /\ s'.(selectedSheet) = "" /\
  s'.(previewData) = [] /\ s'.(hasDuplicates) = false /\
  s'.(duplicatesCount) = 0 /\ s'.(newProductsCount) = 0 /\
  s'.(totalRows) = s.(totalRows) /\ s'.(columns) = s.(columns) /\
  s'.(originalPreviewData) = s.(originalPreviewData) /\
  s'.(selectedDuplicateAction) = s.(selectedDuplicateAction).
Proof.
  intros H s'. subst s'. unfold cancelPreview.
  destruct s as [h ws sf fn fs sh ss sss sp pd opd tr co hd dc np sdm sda er erc iu up um us es ge].
  simpl in *.
  replace (1 <? length sh)%nat with true by (symmetry; apply Nat.ltb_lt; exact H).
  simpl. repeat split.
Qed.

(** X18 on a session with two sheets and a loaded preview. *)
Lemma cancelPreview_several_sheets_witness :
  (cancelPreview (onPreviewResponse demoResponse Sheets.twoSheets)).(previewData) = [] /\
  (cancelPreview (onPreviewResponse demoResponse Sheets.twoSheets)).(totalRows) = 3 /\
  (cancelPreview (onPreviewResponse demoResponse Sheets.twoSheets)).(showSheetSelector)
  = true.
Proof.
  assert (H : (1 < length (onPreviewResponse demoResponse Sheets.twoSheets).(sheets))%nat)
    by (simpl; lia).
  destruct (cancelPreview_several_sheets _ H)
    as (H1 & _ & _ & _ & _ & _ & H7 & _ & _ & _ & H11 & _).
  split; [exact H7 | split; [exact H11 | exact H1]].
Defined.

End LeavingPreview.

(** ** Sheet analysis and selection *)
Section SheetFacts.
Import Inventory Sheets.

Lemma loadPreview_request (s : State) (f : File) (n : string) :
  In (ValidateDuplicates f n) (loadPreviewWithDuplicates s) <->
  s.(selectedFile) = Some f /\ s.(selectedSheet) = n /\ n <> "".
Proof.
  unfold loadPreviewWithDuplicates.
  destruct (selectedFile s) as [g|]; [|simpl; split; [tauto | intros [? _]; discriminate]].
  destruct (bool_decide (selectedSheet s = "")) eqn:E.
  - apply bool_decide_eq_true in E. simpl. split; [tauto|].
    intros (_ & <- & Hn). contradiction.
  - apply bool_decide_eq_false in E. simpl. split.
    + intros [H|[]]. injection H as -> <-. auto.
    + intros (H & <- & _). injection H as ->. now left.
Qed.

Lemma select_and_load_request (m : string) (s : State) (f : File) (n : string) :
  In (ValidateDuplicates f n) (select_and_load m s).2 <->
  s.(selectedFile) = Some f /\ n = m /\ m <> "".
Proof.
  unfold select_and_load. simpl. rewrite loadPreview_request.
  destruct s; simpl. split; intros (H1 & H2 & H3); subst; auto.
Qed.

Lemma showError_no_request (msg : Notice) (s : State) (f : File) (n : string) :
  ~ In (ValidateDuplicates f n) (showError msg s).2.
Proof. simpl. intros [H|[]]. discriminate. Qed.

(** X19: [selectSheet] asks for the preview of a sheet exactly when a file
    is selected, the name is not empty, and the first sheet listed under
    that name, if there is one, is valid; the request is for that name.  A
    sheet listed as invalid is never previewed and never becomes the
    selected sheet; a name that is not listed goes through. *)
Theorem selectSheet_requests (sheetName : string) (s : State) :
  (forall (f : File) (n : string),
      In (ValidateDuplicates f n) (selectSheet sheetName s).2 <->
      s.(selectedFile) = Some f /\ n = sheetName /\ sheetName <> "" /\
      (forall sh, List.find (fun sh => bool_decide (sh.(sheet_name) = sheetName))
                            s.(sheets) = Some sh -> sh.(is_valid) = true)) /\
  (forall sh, List.find (fun sh => bool_decide (sh.(sheet_name) = sheetName))
                        s.(sheets) = Some sh ->
              sh.(is_valid) = false ->
              (selectSheet sheetName s).1.(selectedSheet) = s.(selectedSheet) /\
              (selectSheet sheetName s).1.(generalError)
              = sheetErrors sheetName sh.(sheet_errors)).
Proof.
  unfold selectSheet.
  destruct (List.find _ (sheets s)) as [sh|] eqn:F; split.
  - intros f n. destruct (is_valid sh) eqn:V; simpl.
    + rewrite (select_and_load_request sheetName s f n). split.
      * intros (H1 & H2 & H3). repeat split; auto. intros ? [= <-]. exact V.
      * tauto.
    + split; [intros [H|[]]; discriminate|].
      intros (_ & _ & _ & H). specialize (H sh eq_refl). congruence.
  - intros ? [= <-] V. rewrite V. simpl. now destruct s.
  - intros f n. rewrite (select_and_load_request sheetName s f n). split.
    + intros (H1 & H2 & H3). repeat split; auto. discriminate.
    + tauto.
  - discriminate.
Qed.

(** X19 on the workbook of the examples: the sheet with the bad header. *)
Lemma selectSheet_requests_witness :
  (selectSheet "Notes" twoSheets).1.(selectedSheet) = "" /\
  (selectSheet "Notes" twoSheets).2 = [ClearNoticeLater] /\
  (selectSheet "Stock" twoSheets).2 = [ValidateDuplicates demoFile "Stock"].
Proof.
  destruct (selectSheet_requests "Notes" twoSheets) as [_ H].
  destruct (H badSheet eq_refl eq_refl) as [H1 _].
  split; [exact H1 | split; reflexivity].
Defined.

Lemma returns_select_effects (m : string) (t : State) :
  effects_of (let '(s3, e) := select_and_load m t in Returns s3 e)
  = (select_and_load m t).2.
Proof. reflexivity. Qed.

Lemma set_sheets_file (l : list SheetInfo) (t : State) :
  (t <| sheets := l |>).(selectedFile) = t.(selectedFile) /\
  (t <| sheets := l |>).(sheets) = l /\
  (t <| sheets := l |> <| showSheetSelector := true |>).(selectedFile) = t.(selectedFile).
Proof. now destruct t. Qed.

(** X20: what [onAnalyzeResponse] asks for.  A preview is requested exactly
    when a file is selected and either the workbook has several sheets and
    the server named a sheet, or it has one sheet and that sheet is valid;
    the request is for that sheet.  The callback throws exactly when the
    response is a success that counts one sheet and lists none. *)
Theorem onAnalyzeResponse_requests (r : AnalyzeResponse) (s : State) :
  (forall (f : File) (n : string),
      In (ValidateDuplicates f n) (effects_of (onAnalyzeResponse r s)) <->
      r.(a_success) = true /\ s.(selectedFile) = Some f /\ n <> "" /\
      ((1 < r.(a_total_sheets) /\ r.(a_selected_sheet) = Some n) \/
       (r.(a_total_sheets) = 1 /\
        exists sh, r.(a_sheets) !! 0%nat = Some sh /\
                   sh.(is_valid) = true /\ sh.(sheet_name) = n))) /\
  ((exists s', onAnalyzeResponse r s = Throws s') <->
   r.(a_success) = true /\ r.(a_total_sheets) = 1 /\ r.(a_sheets) = []).
Proof.
  destruct (set_sheets_file (a_sheets r) s) as (Ef & Esh & Ef2).
  unfold onAnalyzeResponse.
  destruct (a_success r) eqn:Hs.
  2:{ split; [intros f n; simpl; split; [tauto | intros [? _]; discriminate]|].
      split; [intros [? ?]; discriminate | intros [? _]; discriminate]. }
  destruct (a_total_sheets r >? 1) eqn:G.
  - apply Z.gtb_lt in G.
    destruct (a_selected_sheet r) as [m|] eqn:Sel.
    + destruct (bool_decide (m = "")) eqn:B.
      * apply bool_decide_eq_true in B. split.
        -- intros f n. simpl. split; [tauto|].
           intros (_ & _ & Hn & [[_ H]|[H _]]); [congruence | lia].
        -- split; [intros [? ?]; discriminate | intros (_ & H & _); lia].
      * apply bool_decide_eq_false in B. split.
        -- intros f n. rewrite returns_select_effects, select_and_load_request, Ef2.
           split.
           ++ intros (H1 & -> & H3). auto 10.
           ++ intros (_ & H1 & H3 & [[_ H]|[H _]]); [|lia].
              injection H as ->. auto.
        -- split; [|intros (_ & H & _); lia].
           intros [s' Hs']. destruct (select_and_load m _). discriminate.
    + split.
      * intros f n. simpl. split; [tauto|].
        intros (_ & _ & _ & [[_ H]|[H _]]); [discriminate | lia].
      * split; [intros [? ?]; discriminate | intros (_ & H & _); lia].
  - rewrite Z.gtb_ltb in G. apply Z.ltb_ge in G.
    destruct (a_total_sheets r =? 1) eqn:G1.
    + apply Z.eqb_eq in G1. rewrite Esh.
      destruct (a_sheets r) as [|sh rest] eqn:Sh.
      * change (@nil SheetInfo !! 0%nat) with (@None SheetInfo). cbv beta iota. split.
        -- intros f n. simpl. split; [tauto|].
           intros (_ & _ & _ & [[H _]|[_ (x & Hx & _)]]); [lia | discriminate].
        -- split; [auto | eauto].
      * change ((sh :: rest) !! 0%nat) with (Some sh). cbv beta iota.
        destruct (is_valid sh) eqn:V.
        -- split.
           ++ intros f n.
              rewrite returns_select_effects, select_and_load_request, Ef.
              split.
              ** intros (H1 & -> & H3). repeat split; auto. right. split; [exact G1|].
                 exists sh. auto.
              ** intros (_ & H1 & H3 & [[H _]|[_ (x & Hx & _ & Hn)]]); [lia|].
                 injection Hx as <-. subst n. auto.
           ++ split; [|intros (_ & _ & H); discriminate].
              intros [s' Hs']. destruct (select_and_load (sheet_name sh) _). discriminate.
        -- split.
           ++ intros f n. simpl. split; [intros [H|[]]; discriminate|].
              intros (_ & _ & _ & [[H _]|[_ (x & Hx & Hv & _)]]); [lia|].
              injection Hx as <-. congruence.
           ++ split; [intros [? ?]; discriminate | intros (_ & _ & H); discriminate].
    + apply Z.eqb_neq in G1. split.
      * intros f n. simpl. split; [tauto|].
        intros (_ & _ & _ & [[H _]|[H _]]); lia.
      * split; [intros [? ?]; discriminate | intros (_ & H & _); contradiction].
Qed.

(** X20 on the workbook of the examples, when the server names no sheet and
    when it names the good one. *)
Lemma onAnalyzeResponse_requests_witness :
  In (ValidateDuplicates demoFile "Stock")
     (effects_of
        (onAnalyzeResponse {| a_success := true; a_sheets := [goodSheet; badSheet];
                              a_total_sheets := 2; a_selected_sheet := Some "Stock" |}
                           (onFileSelected (Some demoFile) initial).1)).
Proof.
  apply (onAnalyzeResponse_requests
           {| a_success := true; a_sheets := [goodSheet; badSheet];
              a_total_sheets := 2; a_selected_sheet := Some "Stock" |}
           (onFileSelected (Some demoFile) initial).1).
  repeat split; [discriminate|]. left. split; [reflexivity | reflexivity].
Defined.

Example onAnalyzeResponse_one_bad_sheet :
  onAnalyzeResponse {| a_success := true; a_sheets := [badSheet];
                       a_total_sheets := 1; a_selected_sheet := None |}
                    (onFileSelected (Some demoFile) initial).1
  = Returns ((onFileSelected (Some demoFile) initial).1
               <| sheets := [badSheet] |>
               <| generalError :=
                    sheetErrors "Notes" ["missing column price"; "missing column quantity"] |>)
            [ClearNoticeLater].
Proof. reflexivity. Qed.

Example onAnalyzeResponse_count_without_sheets :
  onAnalyzeResponse {| a_success := true; a_sheets := [];
                       a_total_sheets := 1; a_selected_sheet := None |} initial
  = Throws initial.
Proof. reflexivity. Qed.

End SheetFacts.

(** ** Loading the preview *)
Section LoadingPreview.
Import Inventory.

Lemma alloc_list_NoDup (os : list obj) (h h' : heap) (ls : list loc) :
  JS.alloc_list os h = (h', ls) -> NoDup ls.
Proof.
  revert h h' ls. induction os as [|o os IH]; intros h h' ls E; simpl in E.
  - injection E as <- <-. constructor.
  - destruct (JS.alloc_list os (<[fresh (dom h) := o]> h)) as [h2 ls2] eqn:E2.
    injection E as <- <-.
    destruct (alloc_list_spec _ _ _ _ E2) as (_ & Hnew & _).
    constructor; [|eapply IH; exact E2].
    intros Hin. apply list_elem_of_In in Hin. destruct (Hnew _ Hin) as [Hnone _].
    now rewrite lookup_insert_eq in Hnone.
Qed.

(** X21: a successful preview response puts its rows on the table as
    given, in new objects: the staged rows hold the response rows in order,
    the staged rows and the rows of the snapshot are all different objects
    that did not exist before, the objects that did exist are untouched,
    and when the [temp_id]s of the response are distinct, so are those of
    the session. *)
Theorem onPreviewResponse_stages_rows (r : PreviewResponse) (s : State) :
  r.(success) = true ->
  let s' := onPreviewResponse r s in
  JS.deref s'.(store) <$> s'.(previewData) = r.(preview_rows) /\
  NoDup (s'.(previewData) ++ s'.(originalPreviewData)) /\
  (forall l, In l (s'.(previewData) ++ s'.(originalPreviewData)) ->
             s.(store) !! l = None) /\
  (forall l, is_Some (s.(store) !! l) -> s'.(store) !! l = s.(store) !! l) /\
  (NoDup ((fun o => JS.get o "temp_id") <$> r.(preview_rows)) -> unique_temp_ids s').
Proof.
  intros Hok s'.
  destruct (JS.alloc_list r.(preview_rows) s.(store)) as [h1 rows] eqn:E1.
  destruct (JS.alloc_list (map JS.json_copy_obj r.(preview_rows)) h1)
    as [h2 copies] eqn:E2.
  destruct (onPreviewResponse_parts r s h1 h2 rows copies Hok E1 E2)
    as (Est & Epd & Eo & _).
  fold s' in Est, Epd, Eo.
  destruct (alloc_list_spec _ _ _ _ E1) as (Hold1 & Hnew1 & Hcont1).
  destruct (alloc_list_spec _ _ _ _ E2) as (Hold2 & Hnew2 & _).
  assert (Hrows : JS.deref h2 <$> rows = r.(preview_rows)).
  { apply deref_of_lookups. rewrite <- Hcont1.
    apply list_eq. intros i. rewrite !list_lookup_fmap.
    destruct (rows !! i) as [l|] eqn:Hi; [|reflexivity]. simpl. f_equal.
    apply Hold2. apply Hnew1. apply list_elem_of_In.
    eapply list_elem_of_lookup_2. exact Hi. }
  rewrite Est, Epd, Eo. split; [exact Hrows|]. split; [|split; [|split]].
  - apply NoDup_app. split; [eapply alloc_list_NoDup; exact E1|].
    split; [|eapply alloc_list_NoDup; exact E2].
    intros l Hl Hc. apply list_elem_of_In in Hl, Hc.
    destruct (Hnew1 l Hl) as [_ Hsome]. destruct (Hnew2 l Hc) as [Hnone _].
    rewrite Hnone in Hsome. now destruct Hsome.
  - intros l Hl. apply in_app_or in Hl as [Hl|Hl].
    + now apply Hnew1.
    + destruct (Hnew2 l Hl) as [Hnone _].
      destruct (s.(store) !! l) eqn:Hs; [|reflexivity].
      rewrite Hold1 in Hnone by eauto. congruence.
  - intros l Hl. rewrite Hold2 by (rewrite Hold1; assumption). now apply Hold1.
  - intros Hnd. unfold unique_temp_ids. rewrite Est, Epd.
    unfold temp_id_of.
    rewrite (list_fmap_compose (JS.deref h2) (fun o => JS.get o "temp_id")), Hrows.
    exact Hnd.
Qed.

(** X21 on the example session. *)
Lemma onPreviewResponse_stages_rows_witness :
  JS.deref demoState.(store) <$> demoState.(previewData) = demoResponse.(preview_rows).
Proof.
  apply (onPreviewResponse_stages_rows demoResponse (initial <| wsOpen := true |>)).
  reflexivity.
Defined.

End LoadingPreview.

(** ** The stock charts *)
Section ChartFacts.
Import Charts.

Lemma insert_sorted_perm (cmp : Product -> Product -> Z) (x : Product) (l : list Product) :
  Permutation (insert_sorted cmp x l) (x :: l).
Proof.
  induction l as [|y l IH]; simpl; [reflexivity|].
  destruct (cmp x y <=? 0); [reflexivity|].
  rewrite IH. apply perm_swap.
Qed.

Lemma sort_perm (cmp : Product -> Product -> Z) (l : list Product) :
  Permutation (sort cmp l) l.
Proof.
  induction l as [|x l IH]; simpl; [reflexivity|].
  unfold sort in *. simpl. rewrite insert_sorted_perm. now constructor.
Qed.

Lemma insert_sorted_Sorted (cmp : Product -> Product -> Z) (x : Product) (l : list Product) :
  (forall a b, cmp a b <= 0 \/ cmp b a <= 0) ->
  Sorted (fun a b => cmp a b <= 0) l ->
  Sorted (fun a b => cmp a b <= 0) (insert_sorted cmp x l).
Proof.
  intros Htot Hs. induction l as [|y l IH]; simpl.
  - repeat constructor.
  - destruct (cmp x y <=? 0) eqn:E.
    + apply Z.leb_le in E. constructor; [exact Hs | now constructor].
    + apply Z.leb_gt in E. inversion Hs as [|? ? Hs' Hhd]; subst.
      constructor; [now apply IH|].
      destruct l as [|z l]; simpl.
      * constructor. destruct (Htot x y); lia.
      * inversion Hhd; subst. destruct (cmp x z <=? 0); constructor; [|assumption].
        destruct (Htot x y); lia.
Qed.

Lemma sort_Sorted (cmp : Product -> Product -> Z) (l : list Product) :
  (forall a b, cmp a b <= 0 \/ cmp b a <= 0) ->
  Sorted (fun a b => cmp a b <= 0) (sort cmp l).
Proof.
  intros Htot. induction l as [|x l IH]; [constructor|].
  unfold sort in *. simpl. now apply insert_sorted_Sorted.
Qed.

Lemma Sorted_map_quantity (R : Z -> Z -> Prop) (l : list Product) :
  Sorted (fun a b => R a.(p_quantity) b.(p_quantity)) l ->
  Sorted R (map p_quantity l).
Proof.
  induction 1 as [|x l Hs IH Hhd]; simpl; constructor; [exact IH|].
  destruct Hhd; simpl; now constructor.
Qed.

Lemma Sorted_weaken {A} (R R' : A -> A -> Prop) (l : list A) :
  (forall a b, R a b -> R' a b) -> Sorted R l -> Sorted R' l.
Proof.
  intros H. induction 1 as [|x l Hs IH Hhd]; constructor; [exact IH|].
  destruct Hhd; constructor; auto.
Qed.

(** The sort is stable: products with equal quantities keep their order. *)
Lemma sort_stable (cmp : Product -> Product -> Z) (k : Z) (l : list Product) :
  (forall a b, a.(p_quantity) = b.(p_quantity) -> cmp a b <= 0) ->
  of_quantity k (sort cmp l) = of_quantity k l.
Proof.
  intros Heq.
  assert (Hins : forall x l0, of_quantity k (insert_sorted cmp x l0)
                              = of_quantity k (x :: l0)).
  { intros x l0. induction l0 as [|y l0 IH]; [reflexivity|].
    simpl. destruct (cmp x y <=? 0) eqn:E; [reflexivity|].
    apply Z.leb_gt in E. unfold of_quantity in *. simpl in *. rewrite IH.
    destruct (p_quantity x =? k) eqn:Ex; [|reflexivity].
    destruct (p_quantity y =? k) eqn:Ey; [|reflexivity].
    apply Z.eqb_eq in Ex, Ey. specialize (Heq x y). lia. }
  induction l as [|x l IH]; [reflexivity|].
  unfold sort in *. simpl. rewrite Hins. unfold of_quantity in *. simpl.
  now rewrite IH.
Qed.

Lemma onProducts_chart (cmp : Product -> Product -> Z) (x : Product)
      (l : list Product) (st : ChartState) :
  onProducts cmp (Some (x :: l)) st
  = ({| loading := false; error := st.(error); noData := false;
        productCount := Z.of_nat (length (x :: l)) |},
     [CreateChartLater (map p_name (sort cmp (x :: l)))
                       (map p_quantity (sort cmp (x :: l)))]).
Proof.
  unfold onProducts. do 3 f_equal.
  now rewrite (Permutation_length (sort_perm cmp (x :: l))).
Qed.

(** X24: the low-stock chart.  For a response with products, the chart is
    asked for with the products reordered by rising quantity: the labels and
    the quantities come from one list that holds the same products as the
    response, in which products of equal quantity keep their order, and
    [productCount] is their number.  With no product or no data, no chart is
    asked for, [noData] is set, and [productCount] keeps its old value. *)
Theorem onLowStock_chart (data : list Product) (st : ChartState) :
  (data <> [] ->
   exists sorted : list Product,
     onLowStock (Some data) st
     = ({| loading := false; error := st.(error); noData := false;
           productCount := Z.of_nat (length data) |},
        [CreateChartLater (map p_name sorted) (map p_quantity sorted)]) /\
     Permutation sorted data /\
     Sorted Z.le (map p_quantity sorted) /\
     (forall k, of_quantity k sorted = of_quantity k data)) /\
  onLowStock None st
  = ({| loading := false; error := st.(error); noData := true;
        productCount := st.(productCount) |}, []) /\
  onLowStock (Some []) st = onLowStock None st.
Proof.
  split; [|split; reflexivity].
  intros Hne. destruct data as [|x l]; [contradiction|].
  exists (sort ascending (x :: l)). split; [apply onProducts_chart|].
  split; [apply sort_perm|]. split.
  - apply Sorted_map_quantity.
    eapply Sorted_weaken; [|apply (sort_Sorted ascending)].
    + unfold ascending. intros a b. simpl. lia.
    + unfold ascending. intros a b. lia.
  - intros k. apply sort_stable. unfold ascending. intros a b. lia.
Qed.

(** X25: the high-stock chart: the same, by falling quantity. *)
Theorem onHighStock_chart (data : list Product) (st : ChartState) :
  (data <> [] ->
   exists sorted : list Product,
     onHighStock (Some data) st
     = ({| loading := false; error := st.(error); noData := false;
           productCount := Z.of_nat (length data) |},
        [CreateChartLater (map p_name sorted) (map p_quantity sorted)]) /\
     Permutation sorted data /\
     Sorted Z.ge (map p_quantity sorted) /\
     (forall k, of_quantity k sorted = of_quantity k data)) /\
  onHighStock None st
  = ({| loading := false; error := st.(error); noData := true;
        productCount := st.(productCount) |}, []) /\
  onHighStock (Some []) st = onHighStock None st.
Proof.
  split; [|split; reflexivity].
  intros Hne. destruct data as [|x l]; [contradiction|].
  exists (sort descending (x :: l)). split; [apply onProducts_chart|].
  split; [apply sort_perm|]. split.
  - apply Sorted_map_quantity.
    eapply Sorted_weaken; [|apply (sort_Sorted descending)].
    + unfold descending. intros a b. simpl. lia.
    + unfold descending. intros a b. lia.
  - intros k. apply sort_stable. unfold descending. intros a b. lia.
Qed.

(** X24 and X25 on four products, two of them with the same quantity. *)
Lemma onLowStock_chart_witness :
  (onLowStock
     (Some [{| p_name := "Nut"; p_quantity := 5 |}; {| p_name := "Bolt"; p_quantity := 2 |};
            {| p_name := "Pin"; p_quantity := 5 |}; {| p_name := "Nail"; p_quantity := 0 |}])
     {| loading := true; error := ""; noData := false; productCount := 0 |}).1
  = {| loading := false; error := ""; noData := false; productCount := 4 |}.
Proof.
  destruct (proj1 (onLowStock_chart
              [{| p_name := "Nut"; p_quantity := 5 |}; {| p_name := "Bolt"; p_quantity := 2 |};
               {| p_name := "Pin"; p_quantity := 5 |}; {| p_name := "Nail"; p_quantity := 0 |}]
              {| loading := true; error := ""; noData := false; productCount := 0 |})
              ltac:(discriminate)) as (sorted & E & _).
  rewrite E. reflexivity.
Defined.

Lemma onHighStock_chart_witness :
  (onHighStock
     (Some [{| p_name := "Nut"; p_quantity := 5 |}; {| p_name := "Bolt"; p_quantity := 2 |};
            {| p_name := "Pin"; p_quantity := 5 |}; {| p_name := "Nail"; p_quantity := 0 |}])
     {| loading := true; error := ""; noData := false; productCount := 0 |}).1
  = {| loading := false; error := ""; noData := false; productCount := 4 |}.
Proof.
  destruct (proj1 (onHighStock_chart
              [{| p_name := "Nut"; p_quantity := 5 |}; {| p_name := "Bolt"; p_quantity := 2 |};
               {| p_name := "Pin"; p_quantity := 5 |}; {| p_name := "Nail"; p_quantity := 0 |}]
              {| loading := true; error := ""; noData := false; productCount := 0 |})
              ltac:(discriminate)) as (sorted & E & _).
  rewrite E. reflexivity.
Defined.

Example onLowStock_order :
  (onLowStock
     (Some [{| p_name := "Nut"; p_quantity := 5 |}; {| p_name := "Bolt"; p_quantity := 2 |};
            {| p_name := "Pin"; p_quantity := 5 |}; {| p_name := "Nail"; p_quantity := 0 |}])
     {| loading := true; error := ""; noData := false; productCount := 0 |}).2
  = [CreateChartLater ["Nail"; "Bolt"; "Nut"; "Pin"] [0; 2; 5; 5]].
Proof. reflexivity. Qed.

Example onHighStock_order :
  (onHighStock
     (Some [{| p_name := "Nut"; p_quantity := 5 |}; {| p_name := "Bolt"; p_quantity := 2 |};
            {| p_name := "Pin"; p_quantity := 5 |}; {| p_name := "Nail"; p_quantity := 0 |}])
     {| loading := true; error := ""; noData := false; productCount := 0 |}).2
  = [CreateChartLater ["Nut"; "Pin"; "Bolt"; "Nail"] [5; 5; 2; 0]].
Proof. reflexivity. Qed.

End ChartFacts.

(** ** Progress messages *)
Section ProgressFacts.
Import Progress.

Lemma handle_step (m : UploadProgress) (v : View) :
  let v' := (handleWebSocketMessage m v).1 in
  v'.(isUploading) = v.(isUploading) && negb (is_terminal m) /\
  v'.(uploadProgress) = m.(msg_progress) /\
  v'.(uploadMessage) = m.(msg_message) /\
  v'.(uploadStep) = m.(msg_step) /\
  (In ReloadItems (handleWebSocketMessage m v).2 <-> m.(msg_type) = "complete") /\
  (is_terminal m = false ->
   (handleWebSocketMessage m v).2 = [] /\
   v'.(showPreview) = v.(showPreview) /\
   v'.(showErrorDialog) = v.(showErrorDialog) /\
   v'.(generalError) = v.(generalError)).
Proof.
  unfold handleWebSocketMessage, is_terminal.
  destruct (bool_decide (msg_type m = "complete")) eqn:C;
    destruct (bool_decide (msg_type m = "error")) eqn:E;
    destruct (truthy (msg_data m)); simpl;
    try apply bool_decide_eq_true in C; try apply bool_decide_eq_false in C;
    rewrite ?andb_false_r, ?andb_true_r;
    repeat split; auto; try discriminate; try tauto;
    try (intros [H|[H|[]]]; discriminate);
    try (intros [H|[]]; discriminate).
Qed.

(** X22: the upload is over exactly from the first complete or error
    message on.  After a run of messages [isUploading] is true only if it
    was and none of them was a complete or an error message; the product
    list is reloaded exactly when a complete message came; and a run
    without such a message neither hides the preview, nor opens the error
    dialog, nor changes the notice, nor asks for anything. *)
Theorem handleAll_ends_upload (ms : list UploadProgress) (v : View) :
  (handleAll ms v).1.(isUploading)
  = v.(isUploading) && forallb (fun m => negb (is_terminal m)) ms /\
  (In ReloadItems (handleAll ms v).2 <->
   exists m, In m ms /\ m.(msg_type) = "complete") /\
  (forallb (fun m => negb (is_terminal m)) ms = true ->
   (handleAll ms v).2 = [] /\
   (handleAll ms v).1.(showPreview) = v.(showPreview) /\
   (handleAll ms v).1.(showErrorDialog) = v.(showErrorDialog) /\
   (handleAll ms v).1.(generalError) = v.(generalError)).
Proof.
  revert v. induction ms as [|m ms IH]; intros v.
  - simpl. rewrite andb_true_r. repeat split; auto.
    + intros [].
    + intros (m & [] & _).
  - simpl. destruct (handle_step m v) as (H1 & _ & _ & _ & H5 & H6).
    destruct (handleWebSocketMessage m v) as [v1 e1] eqn:Hm. simpl in *.
    destruct (IH v1) as (I1 & I2 & I3).
    destruct (handleAll ms v1) as [v2 e2]. simpl in *.
    split; [|split].
    + rewrite I1, H1. now rewrite andb_assoc.
    + rewrite in_app_iff, H5, I2. split.
      * intros [H|(x & Hx & Hc)]; [exists m; auto | exists x; auto].
      * intros (x & [<-|Hx] & Hc); [now left | right; eauto].
    + intros Hall. apply andb_true_iff in Hall as [Hm' Hms].
      apply negb_true_iff in Hm'.
      destruct (H6 Hm') as (E1 & E2 & E3 & E4).
      destruct (I3 Hms) as (J1 & J2 & J3 & J4).
      rewrite E1, J1, J2, J3, J4. auto.
Qed.

(** X22 on a run of two progress messages after [confirmUpload]. *)
Lemma handleAll_ends_upload_witness :
  (handleAll [progressMessage 33 JUndefined; progressMessage 66 JUndefined]
             uploading).2 = [] /\
  (handleAll [progressMessage 33 JUndefined; progressMessage 66 JUndefined]
             uploading).1.(showPreview) = true.
Proof.
  destruct (handleAll_ends_upload
              [progressMessage 33 JUndefined; progressMessage 66 JUndefined] uploading)
    as (_ & _ & H).
  destruct (H eq_refl) as (H1 & H2 & _). split; [exact H1 | exact H2].
Defined.

(** X23: a complete message.  The upload and the preview end and the
    product list is reloaded; the error list becomes the array under
    [errors] of the message's data when there is one, and stays as it was
    otherwise; the error dialog is open afterwards exactly when that list is
    not empty or the dialog was open already. *)
Theorem handle_complete_message (m : UploadProgress) (v : View) :
  m.(msg_type) = "complete" ->
  let v' := (handleWebSocketMessage m v).1 in
  v'.(isUploading) = false /\ v'.(showPreview) = false /\
  (handleWebSocketMessage m v).2 = [ReloadItems; CloseModalIfNoErrorsLater] /\
  (forall l, prop m.(msg_data) "errors" = JArr l -> v'.(errors) = l) /\
  ((forall l, prop m.(msg_data) "errors" <> JArr l) -> v'.(errors) = v.(errors)) /\
  (v'.(showErrorDialog) = true <-> v'.(errors) <> [] \/ v.(showErrorDialog) = true).
Proof.
  intros Hc v'. subst v'. unfold handleWebSocketMessage.
  rewrite Hc. simpl.
  assert (Hd : forall l, prop (msg_data m) "errors" = JArr l -> truthy (msg_data m) = true).
  { intros l Hl. destruct (msg_data m); try discriminate. reflexivity. }
  set (es := if truthy (msg_data m)
             then errorsOf (msg_data m) (errors v) else errors v).
  assert (Es : errors (if truthy (msg_data m)
                       then with_stats (statsOf (msg_data m))
                              (errorsOf (msg_data m) (errors v))
                              {| isUploading := isUploading v; showPreview := showPreview v;
                                 uploadProgress := msg_progress m;
                                 uploadMessage := msg_message m;
                                 uploadStep := msg_step m; uploadStats := uploadStats v;
                                 errors := errors v; showErrorDialog := showErrorDialog v;
                                 generalError := generalError v |}
                       else {| isUploading := isUploading v; showPreview := showPreview v;
                               uploadProgress := msg_progress m;
                               uploadMessage := msg_message m;
                               uploadStep := msg_step m; uploadStats := uploadStats v;
                               errors := errors v; showErrorDialog := showErrorDialog v;
                               generalError := generalError v |}) = es)
    by (subst es; now destruct (truthy (msg_data m))).
  assert (Sd : showErrorDialog
                 (if truthy (msg_data m)
                  then with_stats (statsOf (msg_data m))
                         (errorsOf (msg_data m) (errors v))
                         {| isUploading := isUploading v; showPreview := showPreview v;
                            uploadProgress := msg_progress m;
                            uploadMessage := msg_message m;
                            uploadStep := msg_step m; uploadStats := uploadStats v;
                            errors := errors v; showErrorDialog := showErrorDialog v;
                            generalError := generalError v |}
                  else {| isUploading := isUploading v; showPreview := showPreview v;
                          uploadProgress := msg_progress m;
                          uploadMessage := msg_message m;
                          uploadStep := msg_step m; uploadStats := uploadStats v;
                          errors := errors v; showErrorDialog := showErrorDialog v;
                          generalError := generalError v |}) = showErrorDialog v)
    by now destruct (truthy (msg_data m)).
  rewrite Es, Sd.
  split; [reflexivity|]. split; [reflexivity|]. split; [reflexivity|].
  split; [|split].
  - intros l Hl. subst es. rewrite (Hd l Hl). unfold errorsOf. now rewrite Hl.
  - intros Hn. subst es. destruct (truthy (msg_data m)); [|reflexivity].
    unfold errorsOf. destruct (prop (msg_data m) "errors"); try reflexivity.
    exfalso. eapply Hn. reflexivity.
  - destruct es as [|e es']; simpl.
    + split; [auto | intros [H|H]; [contradiction | exact H]].
    + split; [intros _; left; discriminate | reflexivity].
Qed.

(** X23 on the summary of the scenario: one error message. *)
Lemma handle_complete_message_witness :
  (handleWebSocketMessage (completeMessage (summaryData 1 1 0 1 ["Screw: bad price"]))
                          uploading).1.(errors)
  = [JStr "Screw: bad price"] /\
  (handleWebSocketMessage (completeMessage (summaryData 1 1 0 1 ["Screw: bad price"]))
                          uploading).1.(showErrorDialog) = true.
Proof.
  destruct (handle_complete_message
              (completeMessage (summaryData 1 1 0 1 ["Screw: bad price"])) uploading
              eq_refl) as (_ & _ & _ & H4 & _ & H6).
  split; [apply H4; reflexivity|].
  apply H6. left. rewrite (H4 [JStr "Screw: bad price"] eq_refl). discriminate.
Defined.

(** X26: the statistics shown for a summary.  The created, updated and
    skipped counts are the numbers of the summary.  The errors statistic is
    the error count when the count is not zero; when the count is zero it is
    the array of error messages itself, not the number zero. *)
Theorem summary_statistics (c u k e : Z) (msgs : list string)
        (m : UploadProgress) (v : View) :
  m.(msg_data) = summaryData c u k e msgs ->
  let st := (handleWebSocketMessage m v).1.(uploadStats) in
  st.(v_created) = JNum c /\ st.(v_updated) = JNum u /\ st.(v_skipped) = JNum k /\
  (e <> 0 -> st.(v_errors) = JNum e) /\
  (e = 0 -> st.(v_errors) = JArr (map JStr msgs)).
Proof.
  intros Hd st.
  assert (E : st = statsOf (summaryData c u k e msgs)).
  { subst st. unfold handleWebSocketMessage. rewrite Hd.
    destruct (bool_decide (msg_type m = "complete"));
      destruct (bool_decide (msg_type m = "error")); reflexivity. }
  assert (Z0 : forall n, or_else (JNum n) (JNum 0) = JNum n).
  { intros n. unfold or_else. simpl. destruct (Z.eqb_spec n 0) as [->|]; reflexivity. }
  rewrite E. unfold statsOf. simpl. rewrite !Z0.
  split; [reflexivity|]. split; [reflexivity|]. split; [reflexivity|].
  unfold or_else. simpl. split.
  - intros He. apply Z.eqb_neq in He. rewrite He. simpl. now rewrite He.
  - intros ->. reflexivity.
Qed.

(** X26 on the summary of the scenario, and on a summary without errors. *)
Lemma summary_statistics_witness :
  (handleWebSocketMessage (completeMessage (summaryData 1 1 0 1 ["Screw: bad price"]))
                          uploading).1.(uploadStats)
  = {| v_created := JNum 1; v_updated := JNum 1; v_skipped := JNum 0;
       v_errors := JNum 1 |} /\
  (handleWebSocketMessage (completeMessage (summaryData 2 0 0 0 []))
                          uploading).1.(uploadStats).(v_errors) = JArr [].
Proof.
  split; [reflexivity|].
  apply (summary_statistics 2 0 0 0 [] (completeMessage (summaryData 2 0 0 0 []))
           uploading eq_refl).
  reflexivity.
Defined.

End ProgressFacts.

(** ** The preview request *)
Section ApiFacts.
Import Api.

Lemma decode_encode_byte (c : ascii) (r : list ascii) :
  decode (encode_byte c ++ r) = c :: decode r.
Proof. destruct c as [[] [] [] [] [] [] [] []]; reflexivity. Qed.

Lemma decode_encode (l : list ascii) : decode (flat_map encode_byte l) = l.
Proof.
  induction l as [|c l IH]; [reflexivity|].
  simpl. now rewrite decode_encode_byte, IH.
Qed.

Lemma encode_byte_safe (c x : ascii) :
  In x (encode_byte c) -> unreserved x = true \/ x = "%"%char.
Proof.
  destruct c as [[] [] [] [] [] [] [] []]; simpl;
    intros H; repeat (destruct H as [<-|H]; [auto|]); destruct H.
Qed.

(** X27: the sheet name cannot break the preview URL.  Every character of
    the encoded name is a letter, a digit, one of [- _ . ! ~ * ' ( )] or a
    percent sign, so none is an ampersand, an equals sign, a question mark,
    a hash, a slash or a blank; and two different sheet names give two
    different URLs. *)
Theorem previewExcelUrl_safe (apiUrl : string) :
  (forall (sheetName : string) (x : ascii),
      In x (JSString.chars (encodeURIComponent sheetName)) ->
      (unreserved x = true \/ x = "%"%char) /\
      ~ In x ["&"; "="; "?"; "#"; "/"; " "; "+"]%char) /\
  (forall a b : string,
      previewExcelUrl apiUrl a = previewExcelUrl apiUrl b -> a = b).
Proof.
  split.
  - intros sheetName x Hx. unfold encodeURIComponent in Hx.
    rewrite chars_of_chars in Hx. apply in_flat_map in Hx as (c & _ & Hc).
    apply encode_byte_safe in Hc. split; [exact Hc|].
    intros Hbad. simpl in Hbad.
    repeat (destruct Hbad as [<-|Hbad]; [destruct Hc; discriminate|]). exact Hbad.
  - intros a b E. unfold previewExcelUrl in E.
    apply (f_equal JSString.chars) in E. rewrite !chars_app in E.
    do 2 apply app_inv_head in E. unfold encodeURIComponent in E.
    rewrite !chars_of_chars in E. apply (f_equal decode) in E.
    rewrite !decode_encode in E. now apply chars_inj.
Qed.

Example previewExcelUrl_sheet :
  previewExcelUrl "http://localhost:8000" "Hoja 1&x=y"
  = "http://localhost:8000/upload-excel/preview?sheet_name=Hoja%201%26x%3Dy".
Proof. reflexivity. Qed.

End ApiFacts.

(** ** Adding a product *)
Section AddingItems.

(** X28: [addItem] posts the new product exactly when its name and its
    description are not empty and no listed product has its key, the name
    lowered and then trimmed by the runtime; what it posts is the product
    as entered. *)
Theorem addItem_posts_iff {R : Runtime.Builtins}
  (items : list CatalogEntry) (newItem posted : NewItem) :
  Catalog.addItem items newItem = Catalog.Posted posted <->
  posted = newItem /\
  newItem.(new_name) <> "" /\ newItem.(new_description) <> "" /\
  forall e, In e items ->
            Runtime.trim (Runtime.toLowerCase e.(entry_name))
            <> Runtime.trim (Runtime.toLowerCase newItem.(new_name)).
Proof.
  unfold Catalog.addItem.
  destruct (bool_decide (new_name newItem = "")) eqn:N.
  { apply bool_decide_eq_true in N. simpl. split; [discriminate | tauto]. }
  destruct (bool_decide (new_description newItem = "")) eqn:D.
  { apply bool_decide_eq_true in D. simpl. split; [discriminate | tauto]. }
  apply bool_decide_eq_false in N, D. simpl.
  pose proof (findExisting_Some items (new_name newItem)) as F.
  unfold Catalog.nameKey in F.
  destruct (Catalog.findExisting items (new_name newItem)) as [x|].
  - split; [discriminate|]. intros (_ & _ & _ & H).
    destruct (proj1 F ltac:(eauto)) as (e & He & Hk). now apply H in He.
  - split.
    + intros [= <-]. repeat split; auto. intros e He Hk.
      destruct (proj2 F) as [? ?]; [eauto | discriminate].
    + intros (-> & _). reflexivity.
Qed.

Example addItem_posts_new_name :
  Catalog.addItem (R := Runtime.asciiText)
    [{| entry_id := 7; entry_name := "Widget "; entry_description := "w";
        entry_price := JNum 5; entry_quantity := JNum 1 |}]
    {| new_name := "Gadget"; new_description := "g";
       new_price := JNum 1; new_quantity := JNum 1 |}
  = Catalog.Posted {| new_name := "Gadget"; new_description := "g";
                      new_price := JNum 1; new_quantity := JNum 1 |}.
Proof. reflexivity. Qed.

End AddingItems.
